(** * Habit-tracker bot: a shallow embedding of [main.py]

    The development follows the layout of the source:

    - [Py]        the Python primitives the bot relies on ([str] methods,
                  [int()], [str()], true division and the [:.1f] format);
    - [Database]  the three SQLite tables and the methods of class
                  [Database];
    - the handlers of the dispatcher, written in a small state and
      exception monad that records what is sent to the chat transport;
    - the two routers (callback queries and messages), in registration
      order.

    Modelling conventions.

    - A Python [str] is the list of its Unicode code points, so [len] is
      [length].  String literals are written as UTF-8 and decoded by
      [Py.lit].
    - A calendar date is its proleptic ordinal ([date.toordinal()]), an
      integer.  The tables store [date.isoformat()], a ten character text
      for every date Python can represent, whose lexicographic order is the
      chronological one; [ORDER BY track_date] and
      [date.fromisoformat] therefore act on the ordinal.
    - [date.today()] is an argument of the operations that read the clock;
      one handler invocation runs within one calendar day.
    - SQLite does not enforce [FOREIGN KEY] clauses unless
      [PRAGMA foreign_keys = ON] is issued on the connection; the source
      never issues it, so the clauses are declarations only.
    - The storage engine itself does not fail.  A statement raises in two
      cases only: the [IntegrityError] of a violated [UNIQUE] or
      [PRIMARY KEY] constraint, and the [OverflowError] of [sqlite3] when
      a Python integer outside the 64-bit range of an SQLite INTEGER is
      bound to a parameter.  Habit ids reach the database from button
      payloads, which a client controls, so this case is modelled where
      it changes what a method returns or writes ([track_habit],
      [get_habit_stats]); the other lookups by habit id find nothing for
      such an id, which is what their [except] branches return.  User ids
      come from Telegram and always fit.
    - [users.user_id] is the INTEGER PRIMARY KEY, hence the rowid: the
      rows of [users] are kept in ascending [user_id], the order in which
      a scan of the table visits them.
    - Keyboards ([reply_markup]), [parse_mode] and log lines are not part
      of the recorded transport effects.  Of the transport calls only
      [bot.copy_message] may raise (a recipient can be unreachable); the
      others return.
    - A session is the [FSMContext] of one user in a private chat, so it is
      keyed by the user id.
    - A message carries its text and its caption, either of which may be
      absent; other fields of an update are not modelled.
    - aiogram's [Command] filter is modelled as the library defines it: it
      reads [message.text or message.caption], takes the first
      whitespace-delimited token, requires the prefix [/], splits the rest
      at the first [@] into the command and a mention, and accepts a
      mention that is empty or that [bot.me()] confirms.  The answer of
      [bot.me()], which Telegram gives, is part of the environment. *)

From Stdlib Require Import ZArith NArith List Bool Ascii String Lia.
From Stdlib Require Import DecimalString Floats Uint63.
From Stdlib Require Import Permutation Sorted DecimalPos.
Import ListNotations.

Local Open Scope Z_scope.

(** ** Exceptions and results *)

Inductive exn : Type :=
| ValueError
| TypeError
| IndexError
| AttributeError
| ZeroDivisionError
| OverflowError
| IntegrityError.

Inductive result (A : Type) : Type :=
| Ok (a : A)
| Raise (e : exn).

Arguments Ok {A} a.
Arguments Raise {A} e.

(** ** Python primitives *)

Module Py.

(** A [str] is a sequence of code points. *)
Definition str : Type := list N.

(** [len(s)], for a [str] or a list. *)
Definition len {A : Type} (s : list A) : Z := Z.of_nat (List.length s).

(** Decoding of a UTF-8 byte sequence, used for literals only. *)
Fixpoint utf8_decode (bs : list N) : str :=
  match bs with
  | [] => []
  | b0 :: r0 =>
      if (b0 <? 128)%N then b0 :: utf8_decode r0
      else if (b0 <? 224)%N then
        match r0 with
        | b1 :: r1 => ((b0 mod 32) * 64 + b1 mod 64)%N :: utf8_decode r1
        | _ => []
        end
      else if (b0 <? 240)%N then
        match r0 with
        | b1 :: b2 :: r2 =>
            (((b0 mod 16) * 64 + b1 mod 64) * 64 + b2 mod 64)%N
              :: utf8_decode r2
        | _ => []
        end
      else
        match r0 with
        | b1 :: b2 :: b3 :: r3 =>
            ((((b0 mod 8) * 64 + b1 mod 64) * 64 + b2 mod 64) * 64
             + b3 mod 64)%N :: utf8_decode r3
        | _ => []
        end
  end.

Definition lit (s : string) : str :=
  utf8_decode (map N_of_ascii (list_ascii_of_string s)).

(** The newline character, [\n]. *)
Definition nl : str := [10%N].

Fixpoint str_eqb (a b : str) : bool :=
  match a, b with
  | [], [] => true
  | x :: a', y :: b' => (x =? y)%N && str_eqb a' b'
  | _, _ => false
  end.

(** [s.startswith(prefix)] *)
Fixpoint startswith (prefix s : str) : bool :=
  match prefix, s with
  | [], _ => true
  | p :: prefix', c :: s' => (p =? c)%N && startswith prefix' s'
  | _ :: _, [] => false
  end.

(** [s.split(sep)] for a separator of one character. *)
Fixpoint split (sep : N) (s : str) : list str :=
  match s with
  | [] => [[]]
  | c :: r =>
      if (c =? sep)%N then [] :: split sep r
      else match split sep r with
           | p :: ps => (c :: p) :: ps
           | [] => [[c]]
           end
  end.

(** The underscore, the separator of every button payload. *)
Definition underscore : N := 95%N.

(** [parts[i]]: an [IndexError] past the end. *)
Definition getitem {A : Type} (parts : list A) (i : nat) : result A :=
  match nth_error parts i with
  | Some p => Ok p
  | None => Raise IndexError
  end.

(** [str.isspace] on one code point (CPython's [_PyUnicode_IsWhitespace]). *)
Definition isspace (c : N) : bool :=
  ((9 <=? c) && (c <=? 13) || (28 <=? c) && (c <=? 32)
   || (c =? 133) || (c =? 160) || (c =? 5760)
   || (8192 <=? c) && (c <=? 8202)
   || (c =? 8232) || (c =? 8233) || (c =? 8239) || (c =? 8287)
   || (c =? 12288))%N.

Fixpoint lstrip (s : str) : str :=
  match s with
  | [] => []
  | c :: r => if isspace c then lstrip r else s
  end.

Definition rstrip (s : str) : str := rev (lstrip (rev s)).

(** [s.strip()] *)
Definition strip (s : str) : str := rstrip (lstrip s).

(** The code points of the digit zero of every script: the characters
    with a decimal value are the ten that start at each of them (the
    category Nd of Unicode 14.0.0, the table of CPython 3.11). *)
Definition decimal_zeros : list N :=
  [48; 1632; 1776; 1984; 2406; 2534; 2662; 2790; 2918; 3046; 3174; 3302;
   3430; 3558; 3664; 3792; 3872; 4160; 4240; 6112; 6160; 6470; 6608; 6784;
   6800; 6992; 7088; 7232; 7248; 42528; 43216; 43264; 43472; 43504; 43600;
   44016; 65296; 66720; 68912; 69734; 69872; 69942; 70096; 70384; 70736;
   70864; 71248; 71360; 71472; 71904; 72016; 72784; 73040; 73120; 92768;
   92864; 93008; 120782; 120792; 120802; 120812; 120822; 123200; 123632;
   125264; 130032]%N.

(** Value of a decimal digit ([unicodedata.decimal]): [int()] accepts the
    digits of every script. *)
Definition digit_value (c : N) : option Z :=
  match find (fun zero => (zero <=? c) && (c <=? zero + 9))%N decimal_zeros
  with
  | Some zero => Some (Z.of_N (c - zero))
  | None => None
  end.

Fixpoint digits_value (acc : Z) (s : str) : option Z :=
  match s with
  | [] => Some acc
  | c :: r =>
      match digit_value c with
      | Some d => digits_value (acc * 10 + d) r
      | None => None
      end
  end.

Definition unsigned_value (s : str) : result Z :=
  match s with
  | [] => Raise ValueError
  | _ :: _ =>
      match digits_value 0 s with
      | Some v => Ok v
      | None => Raise ValueError
      end
  end.

(** [int(s)] in base ten: surrounding whitespace, an optional sign, then
    at least one digit.  (Digit-group underscores cannot occur: every
    argument is a part of a payload split on the underscore.) *)
Definition int (s : str) : result Z :=
  match strip s with
  | [] => Raise ValueError
  | c :: r =>
      if (c =? 45)%N then
        match unsigned_value r with
        | Ok v => Ok (- v)
        | Raise e => Raise e
        end
      else if (c =? 43)%N then unsigned_value r
      else unsigned_value (c :: r)
  end.

(** [str(n)] for an integer. *)
Definition str_of_int (n : Z) : str :=
  map N_of_ascii (list_ascii_of_string (NilEmpty.string_of_int (Z.to_int n))).

(** [text.split(maxsplit=1)[0]]: the first whitespace-delimited token. *)
Fixpoint take_token (s : str) : str :=
  match s with
  | [] => []
  | c :: r => if isspace c then [] else c :: take_token r
  end.

Definition first_token (s : str) : str := take_token (lstrip s).

(** Conversion of a (small, non-negative) integer to binary64. *)
Definition float_of_int (n : Z) : float := PrimFloat.of_uint63 (Uint63.of_Z n).

(** [a / b] on integers: true division, [ZeroDivisionError] when [b = 0]. *)
Definition truediv (a b : Z) : result float :=
  if b =? 0 then Raise ZeroDivisionError
  else Ok (PrimFloat.div (float_of_int a) (float_of_int b)).

(** The number of tenths nearest to the exact value of a float, ties to
    even, together with the sign: what [format(x, ".1f")] prints. *)
Definition tenths (x : float) : option (bool * Z) :=
  match Prim2SF x with
  | S754_zero sgn => Some (sgn, 0)
  | S754_finite sgn m e =>
      let num := Z.pos m * 10 in
      if 0 <=? e then Some (sgn, num * 2 ^ e)
      else
        let den := 2 ^ (- e) in
        let q := num / den in
        let r := num mod den in
        Some (sgn,
              if 2 * r <? den then q
              else if den <? 2 * r then q + 1
              else if Z.even q then q else q + 1)
  | _ => None
  end.

(** [f"{x:.1f}"] *)
Definition format_1f (x : float) : str :=
  match tenths x with
  | Some (sgn, t) =>
      (if sgn then lit "-" else []) ++ str_of_int (t / 10) ++ lit "."
        ++ str_of_int (t mod 10)
  | None => lit "nan"
  end.

(** [d.isoformat()] of the date with ordinal [d]: [YYYY-MM-DD]. *)
Definition civil (ordinal : Z) : Z * Z * Z :=
  let z := ordinal + 305 in
  let era := z / 146097 in
  let doe := z - era * 146097 in
  let yoe := (doe - doe / 1460 + doe / 36524 - doe / 146096) / 365 in
  let doy := doe - (365 * yoe + yoe / 4 - yoe / 100) in
  let mp := (5 * doy + 2) / 153 in
  let d := doy - (153 * mp + 2) / 5 + 1 in
  let m := if mp <? 10 then mp + 3 else mp - 9 in
  (yoe + era * 400 + (if m <=? 2 then 1 else 0), m, d).

(** Left padding with zeros up to [width] characters ([%04d], [%02d]). *)
Definition zfill (width : nat) (s : str) : str :=
  repeat 48%N (width - List.length s) ++ s.

Definition isoformat (ordinal : Z) : str :=
  let '(y, m, d) := civil ordinal in
  zfill 4 (str_of_int y) ++ lit "-" ++ zfill 2 (str_of_int m) ++ lit "-"
    ++ zfill 2 (str_of_int d).

End Py.


(** ** The database *)

Module Database.

Definition date : Type := Z.

(** The status texts written by the two marking handlers. *)
Definition completed : Py.str := Py.lit "completed".
Definition missed : Py.str := Py.lit "missed".

(** *** Table rows, as declared by [init_db] *)

Record user_row : Type := mk_user {
  user_id : Z;                      (* INTEGER PRIMARY KEY *)
  username : option Py.str;
  first_name : Py.str;
  last_name : option Py.str;
  registered_date : date;
  is_admin : Z                      (* INTEGER DEFAULT 0 *)
}.

Record habit_row : Type := mk_habit {
  habit_id : Z;                     (* INTEGER PRIMARY KEY AUTOINCREMENT *)
  habit_user_id : Z;                (* user_id, FOREIGN KEY (declared) *)
  habit_name : option Py.str;
  habit_description : Py.str;
  created_date : date;
  is_active : Z                     (* INTEGER DEFAULT 1 *)
}.

Record tracking_row : Type := mk_tracking {
  tracking_id : Z;                  (* INTEGER PRIMARY KEY AUTOINCREMENT *)
  track_habit_id : Z;               (* habit_id, FOREIGN KEY (declared) *)
  track_date : date;
  status : Py.str                   (* UNIQUE(habit_id, track_date) *)
}.

(** The tables hold their rows in rowid order; the two counters are the
    [sqlite_sequence] entries of the AUTOINCREMENT keys. *)
Record database : Type := mk_db {
  users : list user_row;
  habits : list habit_row;
  habit_tracking : list tracking_row;
  habits_seq : Z;
  tracking_seq : Z
}.

(** The state left by [init_db] on a fresh file. *)
Definition init_db : database := mk_db [] [] [] 0 0.

(** *** SQL helpers *)

(** The integers that [sqlite3] can bind to a parameter: those of 64 bits.
    For any other the [execute] call raises [OverflowError]. *)
Definition sqlite_int (n : Z) : bool :=
  (- 2 ^ 63 <=? n) && (n <? 2 ^ 63).

(** [ORDER BY key DESC]: rows with equal keys keep their rowid order. *)
Fixpoint insert_desc {A : Type} (key : A -> Z) (x : A) (l : list A) : list A :=
  match l with
  | [] => [x]
  | y :: r => if key y <=? key x then x :: l else y :: insert_desc key x r
  end.

Fixpoint order_by_desc {A : Type} (key : A -> Z) (l : list A) : list A :=
  match l with
  | [] => []
  | x :: r => insert_desc key x (order_by_desc key r)
  end.

Definition same_day (habit_id : Z) (d : date) (r : tracking_row) : bool :=
  (track_habit_id r =? habit_id) && (track_date r =? d).

(** [INSERT INTO habit_tracking (habit_id, track_date, status)]: an id
    that cannot be bound raises [OverflowError] before the statement runs;
    the [UNIQUE(habit_id, track_date)] constraint raises
    [IntegrityError]. *)
Definition insert_tracking (habit_id : Z) (d : date) (st : Py.str)
    (db : database) : result database :=
  if negb (sqlite_int habit_id) then Raise OverflowError
  else if existsb (same_day habit_id d) (habit_tracking db)
  then Raise IntegrityError
  else
    let rowid := tracking_seq db + 1 in
    Ok (mk_db (users db) (habits db)
          (habit_tracking db ++ [mk_tracking rowid habit_id d st])
          (habits_seq db) rowid).

(** [UPDATE habit_tracking SET status = ? WHERE habit_id = ? AND track_date = ?] *)
Definition update_tracking (st : Py.str) (habit_id : Z) (d : date)
    (db : database) : database :=
  mk_db (users db) (habits db)
    (map (fun r => if same_day habit_id d r
                   then mk_tracking (tracking_id r) (track_habit_id r)
                          (track_date r) st
                   else r)
         (habit_tracking db))
    (habits_seq db) (tracking_seq db).

(** A new row of [users] takes its place by rowid, which is its
    [user_id]. *)
Fixpoint insert_user (u : user_row) (rows : list user_row)
    : list user_row :=
  match rows with
  | [] => [u]
  | x :: rest =>
      if user_id u <? user_id x then u :: rows else x :: insert_user u rest
  end.

(** *** Methods of class [Database] *)

Definition add_user (ADMIN_ID : Z) (today : date)
    (uid : Z) (uname : option Py.str) (fname : Py.str)
    (lname : option Py.str) (db : database) : database :=
  let admin := if uid =? ADMIN_ID then 1 else 0 in
  (* INSERT OR IGNORE *)
  let rows :=
    if existsb (fun u => user_id u =? uid) (users db) then users db
    else insert_user (mk_user uid uname fname lname today admin) (users db)
  in
  (* UPDATE users SET ... WHERE user_id = ? *)
  let rows' :=
    map (fun u => if user_id u =? uid
                  then mk_user (user_id u) uname fname lname
                         (registered_date u) admin
                  else u) rows in
  mk_db rows' (habits db) (habit_tracking db) (habits_seq db) (tracking_seq db).

Definition get_user (uid : Z) (db : database) : option user_row :=
  find (fun u => user_id u =? uid) (users db).

Definition add_habit (today : date) (uid : Z) (name : option Py.str)
    (description : Py.str) (db : database) : database * option Z :=
  let rowid := habits_seq db + 1 in
  (mk_db (users db)
     (habits db ++ [mk_habit rowid uid name description today 1])
     (habit_tracking db) rowid (tracking_seq db),
   Some rowid).

Definition get_user_habits (uid : Z) (db : database) : list habit_row :=
  order_by_desc created_date
    (filter (fun h => (habit_user_id h =? uid) && (is_active h =? 1))
       (habits db)).

Definition get_habit (hid : Z) (db : database) : option habit_row :=
  find (fun h => habit_id h =? hid) (habits db).

(** The INSERT, the UPDATE of the inner [except sqlite3.IntegrityError],
    and the outer [except Exception], which returns [False] and leaves the
    table alone. *)
Definition track_habit (today : date) (hid : Z) (st : Py.str)
    (db : database) : database * bool :=
  match insert_tracking hid today st db with
  | Ok db' => (db', true)
  | Raise IntegrityError => (update_tracking st hid today db, false)
  | Raise _ => (db, false)
  end.

(** [SELECT status FROM habit_tracking WHERE habit_id = ? AND track_date = ?]
    followed by [fetchone]. *)
Definition select_status (hid : Z) (d : date) (db : database)
    : option Py.str :=
  match find (same_day hid d) (habit_tracking db) with
  | Some r => Some (status r)
  | None => None
  end.

Definition get_today_status (today : date) (hid : Z) (db : database)
    : option Py.str :=
  select_status hid today db.

(** [SELECT track_date, status ... WHERE habit_id = ? ORDER BY track_date DESC] *)
Definition select_records (hid : Z) (db : database) : list (date * Py.str) :=
  order_by_desc fst
    (map (fun r => (track_date r, status r))
       (filter (fun r => track_habit_id r =? hid) (habit_tracking db))).

(** The [for record in records] loop of [get_streak], with its two
    branches of identical effect and its [break]. *)
Fixpoint streak_loop (records : list (date * Py.str)) (current_date : date)
    (streak : Z) : Z :=
  match records with
  | [] => streak
  | (record_date, st) :: rest =>
      if (record_date =? current_date) && Py.str_eqb st completed
      then streak_loop rest (current_date - 1) (streak + 1)
      else if Py.str_eqb st completed && (record_date =? current_date)
      then streak_loop rest (current_date - 1) (streak + 1)
      else streak
  end.

Definition get_streak (today : date) (hid : Z) (db : database) : Z :=
  match select_records hid db with
  | [] => 0
  | records => streak_loop records today 0
  end.

Definition get_all_users (db : database) : list user_row :=
  order_by_desc registered_date (users db).

Definition count_status (st : Py.str) (rows : list tracking_row) : Z :=
  Z.of_nat (List.length (filter (fun r => Py.str_eqb (status r) st) rows)).

(** [MIN(track_date)] and [MAX(track_date)]: NULL over no rows. *)
Definition min_date (rows : list tracking_row) : option date :=
  match rows with
  | [] => None
  | r :: rest => Some (fold_left Z.min (map track_date rest) (track_date r))
  end.

Definition max_date (rows : list tracking_row) : option date :=
  match rows with
  | [] => None
  | r :: rest => Some (fold_left Z.max (map track_date rest) (track_date r))
  end.

Definition stats_row : Type := Z * Z * option date * option date.

(** An aggregate query returns one row whatever the table holds.  Only
    an id that cannot be bound makes [execute] raise, and the [except]
    branch then returns [None]. *)
Definition get_habit_stats (hid : Z) (db : database) : option stats_row :=
  if negb (sqlite_int hid) then None
  else
    let rows :=
      filter (fun r => track_habit_id r =? hid) (habit_tracking db) in
    Some (count_status completed rows, count_status missed rows,
          min_date rows, max_date rows).

End Database.

(** ** The bot: transport effects, sessions and the handler monad *)

(** What a handler sends to the chat transport, in the order sent. *)
Inductive effect : Type :=
| message_answer (text : Py.str)
    (* await message.answer(text, ...) *)
| edit_text (text : Py.str)
    (* await callback.message.edit_text(text, ...), status_message.edit_text *)
| callback_answer (text : option Py.str) (show_alert : bool)
    (* await callback.answer(...): a transient notice when [text] is given *)
| copy_message (chat_id : Z) (delivered : bool).
    (* await bot.copy_message(chat_id=...), and whether it returned *)

(** The states of [HabitStates] and [BroadcastStates]. *)
Inductive fsm_state : Type :=
| waiting_for_habit_name
| waiting_for_habit_description
| waiting_for_message.

(** An [FSMContext]: the current state and the stored [habit_name]. *)
Record session : Type := mk_session {
  state : option fsm_state;
  data_habit_name : option Py.str
}.

Definition idle : session := mk_session None None.

Record bot : Type := mk_bot {
  db : Database.database;
  sessions : list (Z * session);      (* MemoryStorage, newest entry first *)
  sent : list effect
}.

(** Configuration and environment of one handler invocation:
    [ADMIN_ID], the reading of [date.today()], for the [i]-th recipient
    of a broadcast whether [bot.copy_message] returns ([true]) or raises,
    and for the mention of a command whether it names this bot (the
    account that [bot.me()] reports has no username, or the mention is
    that username up to case). *)
Record env : Type := mk_env {
  ADMIN_ID : Z;
  today : Database.date;
  delivers : Z -> Z -> bool;
  mention_is_me : Py.str -> bool
}.

Record tg_user : Type := mk_tg_user {
  id : Z;
  tg_username : option Py.str;
  tg_first_name : Py.str;
  tg_last_name : option Py.str
}.

Record message : Type := mk_message {
  from_user : tg_user;
  text : option Py.str;
  caption : option Py.str
}.

Record callback_query : Type := mk_callback {
  cb_from_user : tg_user;
  data : Py.str
}.

(** A handler computes over the bot state and may raise; what was written
    and sent before the exception stays. *)
Definition M (A : Type) : Type := bot -> result A * bot.

Definition ret {A : Type} (a : A) : M A := fun b => (Ok a, b).

Definition bind {A B : Type} (m : M A) (k : A -> M B) : M B :=
  fun b =>
    match m b with
    | (Ok a, b') => k a b'
    | (Raise e, b') => (Raise e, b')
    end.

Definition raise {A : Type} (e : exn) : M A := fun b => (Raise e, b).

(** [try: m  except Exception: h] *)
Definition try_except {A : Type} (m : M A) (h : exn -> M A) : M A :=
  fun b =>
    match m b with
    | (Ok a, b') => (Ok a, b')
    | (Raise e, b') => h e b'
    end.

Definition lift {A : Type} (r : result A) : M A := fun b => (r, b).

Declare Scope handler_scope.
Delimit Scope handler_scope with handler.
Notation "x <- m ;; k" := (bind m (fun x => k))
  (at level 61, m at next level, right associativity) : handler_scope.
Notation "m ;; k" := (bind m (fun _ => k))
  (at level 61, right associativity) : handler_scope.
Local Open Scope handler_scope.

Definition send (e : effect) : M unit :=
  fun b => (Ok tt, mk_bot (db b) (sessions b) (sent b ++ [e])).

Definition query {A : Type} (q : Database.database -> A) : M A :=
  fun b => (Ok (q (db b)), b).

Definition update {A : Type} (u : Database.database -> Database.database * A)
    : M A :=
  fun b => let '(d, a) := u (db b) in (Ok a, mk_bot d (sessions b) (sent b)).

Definition get_session (uid : Z) (b : bot) : session :=
  match find (fun p => fst p =? uid) (sessions b) with
  | Some p => snd p
  | None => idle
  end.

Definition put_session (uid : Z) (s : session) : M unit :=
  fun b => (Ok tt, mk_bot (db b) ((uid, s) :: sessions b) (sent b)).

(** [await state.set_state(s)] *)
Definition set_state (uid : Z) (s : fsm_state) : M unit :=
  fun b => put_session uid
             (mk_session (Some s) (data_habit_name (get_session uid b))) b.

(** [await state.update_data(habit_name=name)] *)
Definition update_data (uid : Z) (name : Py.str) : M unit :=
  fun b => put_session uid
             (mk_session (state (get_session uid b)) (Some name)) b.

(** [await state.clear()] *)
Definition state_clear (uid : Z) : M unit := put_session uid idle.

(** [(await state.get_data()).get("habit_name")] *)
Definition get_data (uid : Z) : M (option Py.str) :=
  fun b => (Ok (data_habit_name (get_session uid b)), b).

Definition is_admin (e : env) (uid : Z) : bool := uid =? ADMIN_ID e.

(** [habit[i]] on the result of [get_habit]: [None] is not subscriptable. *)
Definition subscript {A : Type} (row : option A) : result A :=
  match row with
  | Some r => Ok r
  | None => Raise TypeError
  end.

(** An f-string field holding an optional value. *)
Definition fmt_opt (s : option Py.str) : Py.str :=
  match s with
  | Some t => t
  | None => Py.lit "None"
  end.

Definition fmt_date (d : option Database.date) : Py.str :=
  match d with
  | Some t => Py.isoformat t
  | None => Py.lit "None"
  end.

(** How the body of a [try] block ended: by [return], or by reaching its
    last statement. *)
Inductive flow : Type := returned | completed_normally.

(** ** Command handlers *)

Definition command_start_handler (e : env) (message : message) : M unit :=
  let user := from_user message in
  update (fun d => (Database.add_user (ADMIN_ID e) (today e) (id user)
                      (tg_username user) (tg_first_name user)
                      (tg_last_name user) d, tt)) ;;
  let greeting :=
    Py.lit "👋 Привет, " ++ tg_first_name user ++ Py.lit "!" ++ Py.nl ++ Py.nl
    ++ Py.lit "Я бот-трекер привычек. Помогу тебе отслеживать выполнение ежедневных задач и формировать полезные привычки."
    ++ Py.nl ++ Py.nl
    ++ Py.lit "Выбери действие с помощью кнопок ниже:" in
  send (message_answer greeting).

Definition command_help_handler (message : message) : M unit :=
  let help_text :=
    Py.lit "📚 <b>Справка по использованию бота</b>" ++ Py.nl ++ Py.nl
    ++ Py.lit "Команды:" ++ Py.nl
    ++ Py.lit "/start - Начать работу с ботом" ++ Py.nl
    ++ Py.lit "/help - Показать это сообщение" ++ Py.nl
    ++ Py.lit "/stop - Остановить бота (завершить сессию)" ++ Py.nl
    ++ Py.lit "/menu - Главное меню" ++ Py.nl ++ Py.nl
    ++ Py.lit "Как пользоваться:" ++ Py.nl
    ++ Py.lit "• Создайте новую привычку через кнопку '➕ Новая привычка'" ++ Py.nl
    ++ Py.lit "• Ежедневно отмечайте выполнение или пропуск привычки" ++ Py.nl
    ++ Py.lit "• Следите за своей статистикой и серией выполнений" ++ Py.nl
    ++ Py.lit "• Формируйте полезные привычки!" in
  send (message_answer help_text).

Definition command_stop_handler (message : message) : M unit :=
  state_clear (id (from_user message)) ;;
  send (message_answer
          (Py.lit "👋 Сессия завершена. Чтобы начать заново, нажми /start")).

Definition command_menu_handler (message : message) : M unit :=
  send (message_answer (Py.lit "Главное меню:")).

(** ** Callback handlers: menus *)

Definition status_emoji (today_status : option Py.str) : Py.str :=
  match today_status with
  | Some s =>
      if Py.str_eqb s Database.completed then Py.lit "✅"
      else if Py.str_eqb s Database.missed then Py.lit "❌"
      else Py.lit "⚪️"
  | None => Py.lit "⚪️"
  end.

(** [s[:n]] *)
Definition slice_to (n : nat) (s : Py.str) : Py.str := firstn n s.

Definition callback_my_habits (e : env) (callback : callback_query) : M unit :=
  let uid := id (cb_from_user callback) in
  habits <- query (Database.get_user_habits uid) ;;
  match habits with
  | [] =>
      send (edit_text
              (Py.lit "📭 У вас пока нет созданных привычек." ++ Py.nl ++ Py.nl
               ++ Py.lit "Создайте первую привычку через кнопку '➕ Новая привычка'"))
  | _ :: _ =>
      body <- query (fun d =>
        fold_left
          (fun acc habit =>
             let today_status :=
               Database.get_today_status (today e) (Database.habit_id habit) d in
             acc ++ status_emoji today_status ++ Py.lit " <b>"
               ++ fmt_opt (Database.habit_name habit) ++ Py.lit "</b>" ++ Py.nl
               ++ Py.lit "   📝 "
               ++ slice_to 50 (Database.habit_description habit)
               ++ Py.lit "..." ++ Py.nl
               ++ Py.lit "   📅 Создана: "
               ++ Py.isoformat (Database.created_date habit) ++ Py.nl ++ Py.nl)
          habits
          (Py.lit "📋 <b>Ваши привычки:</b>" ++ Py.nl ++ Py.nl)) ;;
      send (edit_text body)
  end ;;
  send (callback_answer None false).

Definition callback_new_habit (callback : callback_query) : M unit :=
  send (edit_text (Py.lit "📝 Введите название новой привычки:")) ;;
  set_state (id (cb_from_user callback)) waiting_for_habit_name ;;
  send (callback_answer None false).

(** The first loop of [callback_stats]: habits with a running streak and
    the sum of the streaks. *)
Definition streak_totals (e : env) (habits : list Database.habit_row)
    (d : Database.database) : Z * Z :=
  fold_left
    (fun '(active_habits, total_streak) habit =>
       let streak := Database.get_streak (today e) (Database.habit_id habit) d in
       if streak >? 0 then (active_habits + 1, total_streak + streak)
       else (active_habits, total_streak))
    habits (0, 0).

(** One line of the second loop of [callback_stats]. *)
Definition stats_line (e : env) (habit : Database.habit_row)
    (d : Database.database) : Py.str :=
  let hid := Database.habit_id habit in
  let streak := Database.get_streak (today e) hid d in
  let stats := Database.get_habit_stats hid d in
  match stats with
  | Some (completed_count, _, _, _) =>
      if negb (completed_count =? 0) then
        Py.lit "• " ++ fmt_opt (Database.habit_name habit) ++ Py.lit ": "
          ++ Py.str_of_int streak
          ++ Py.lit " дней подряд (всего выполнено: "
          ++ Py.str_of_int completed_count ++ Py.lit ")" ++ Py.nl
      else
        Py.lit "• " ++ fmt_opt (Database.habit_name habit)
          ++ Py.lit ": пока нет данных" ++ Py.nl
  | None =>
      Py.lit "• " ++ fmt_opt (Database.habit_name habit)
        ++ Py.lit ": пока нет данных" ++ Py.nl
  end.

Definition callback_stats (e : env) (callback : callback_query) : M unit :=
  let uid := id (cb_from_user callback) in
  habits <- query (Database.get_user_habits uid) ;;
  match habits with
  | [] =>
      send (edit_text
              (Py.lit "📭 У вас нет привычек для отображения статистики."))
  | _ :: _ =>
      let total_habits := Py.len habits in
      totals <- query (streak_totals e habits) ;;
      let '(active_habits, total_streak) := totals in
      let head :=
        Py.lit "📊 <b>Общая статистика:</b>" ++ Py.nl ++ Py.nl
        ++ Py.lit "Всего привычек: " ++ Py.str_of_int total_habits ++ Py.nl
        ++ Py.lit "Активных сегодня: " ++ Py.str_of_int active_habits ++ Py.nl
        ++ Py.lit "Общая серия выполнений: " ++ Py.str_of_int total_streak
        ++ Py.lit " дней" ++ Py.nl ++ Py.nl
        ++ Py.lit "📈 <b>Детальная статистика:</b>" ++ Py.nl in
      body <- query (fun d =>
        fold_left (fun acc habit => acc ++ stats_line e habit d) habits head) ;;
      send (edit_text body)
  end ;;
  send (callback_answer None false).

Definition callback_help (callback : callback_query) : M unit :=
  let help_text :=
    Py.lit "📚 <b>Как пользоваться ботом:</b>" ++ Py.nl ++ Py.nl
    ++ Py.lit "1️⃣ Создайте привычку через кнопку '➕ Новая привычка'" ++ Py.nl
    ++ Py.lit "2️⃣ Каждый день отмечайте выполнение или пропуск" ++ Py.nl
    ++ Py.lit "3️⃣ Следите за серией выполнений в статистике" ++ Py.nl
    ++ Py.lit "4️⃣ Чем длиннее серия, тем лучше привычка закрепляется!"
    ++ Py.nl ++ Py.nl
    ++ Py.lit "<b>Совет:</b> Начинайте с одной привычки и постепенно добавляйте новые" in
  send (edit_text help_text) ;;
  send (callback_answer None false).

Definition callback_back_to_main (callback : callback_query) : M unit :=
  send (edit_text (Py.lit "Главное меню:")) ;;
  send (callback_answer None false).

(** ** Callback handlers: one habit *)

(** The body text of [callback_habit_stats] below its title.  COUNT never
    yields NULL, so [stats[0] is not None] holds whenever [stats] is a row;
    the percentage line is added only under [total > 0]. *)
Definition habit_stats_body (stats : option Database.stats_row) (streak : Z)
    : result Py.str :=
  match stats with
  | Some (completed_count, missed_count, first_track, last_track) =>
      let counts :=
        Py.lit "✅ Выполнено: " ++ Py.str_of_int completed_count
        ++ Py.lit " раз" ++ Py.nl
        ++ Py.lit "❌ Пропущено: " ++ Py.str_of_int missed_count
        ++ Py.lit " раз" ++ Py.nl
        ++ Py.lit "🔥 Текущая серия: " ++ Py.str_of_int streak
        ++ Py.lit " дней" ++ Py.nl
        ++ Py.lit "📅 Первое выполнение: " ++ fmt_date first_track ++ Py.nl
        ++ Py.lit "📅 Последнее выполнение: " ++ fmt_date last_track
        ++ Py.nl ++ Py.nl in
      let total := completed_count + missed_count in
      if total >? 0 then
        match Py.truediv completed_count total with
        | Ok q =>
            let percent := PrimFloat.mul q (Py.float_of_int 100) in
            Ok (counts ++ Py.lit "📈 Процент выполнения: "
                  ++ Py.format_1f percent ++ Py.lit "%")
        | Raise x => Raise x
        end
      else Ok counts
  | None => Ok (Py.lit "Пока нет данных для статистики")
  end.

Definition callback_habit_stats (e : env) (callback : callback_query)
    : M unit :=
  r <- try_except
         (part <- lift (Py.getitem (Py.split Py.underscore (data callback)) 2) ;;
          habit_id <- lift (Py.int part) ;;
          habit <- query (Database.get_habit habit_id) ;;
          stats <- query (Database.get_habit_stats habit_id) ;;
          streak <- query (Database.get_streak (today e) habit_id) ;;
          match habit with
          | None =>
              send (callback_answer (Some (Py.lit "Привычка не найдена")) true) ;;
              ret returned
          | Some h =>
              body <- lift (habit_stats_body stats streak) ;;
              send (edit_text
                      (Py.lit "<b>📊 Статистика: "
                       ++ fmt_opt (Database.habit_name h) ++ Py.lit "</b>"
                       ++ Py.nl ++ Py.nl ++ body)) ;;
              ret completed_normally
          end)
         (fun _ =>
            send (callback_answer (Some (Py.lit "Произошла ошибка")) true) ;;
            ret completed_normally) ;;
  match r with
  | returned => ret tt
  | completed_normally => send (callback_answer None false)
  end.

Definition callback_complete_habit (e : env) (callback : callback_query)
    : M unit :=
  try_except
    (part <- lift (Py.getitem (Py.split Py.underscore (data callback)) 1) ;;
     habit_id <- lift (Py.int part) ;;
     is_new <- update (Database.track_habit (today e) habit_id
                         Database.completed) ;;
     let message :=
       if is_new : bool
       then Py.lit "✅ Отлично! Привычка отмечена как выполненная!"
       else Py.lit "✅ Статус обновлен на 'Выполнено'" in
     streak <- query (Database.get_streak (today e) habit_id) ;;
     send (callback_answer (Some message) false) ;;
     habit <- query (Database.get_habit habit_id) ;;
     h <- lift (subscript habit) ;;
     send (edit_text
             (Py.lit "<b>" ++ fmt_opt (Database.habit_name h) ++ Py.lit "</b>"
              ++ Py.nl ++ Py.nl
              ++ Py.lit "✅ Отмечено как выполненное!" ++ Py.nl
              ++ Py.lit "🔥 Текущая серия: " ++ Py.str_of_int streak
              ++ Py.lit " дней")))
    (fun _ => send (callback_answer (Some (Py.lit "Произошла ошибка")) true)).

Definition callback_miss_habit (e : env) (callback : callback_query)
    : M unit :=
  try_except
    (part <- lift (Py.getitem (Py.split Py.underscore (data callback)) 1) ;;
     habit_id <- lift (Py.int part) ;;
     is_new <- update (Database.track_habit (today e) habit_id
                         Database.missed) ;;
     let message :=
       if is_new : bool
       then Py.lit "❌ Привычка отмечена как пропущенная. Не расстраивайтесь, завтра получится!"
       else Py.lit "❌ Статус обновлен на 'Пропущено'" in
     send (callback_answer (Some message) false) ;;
     habit <- query (Database.get_habit habit_id) ;;
     streak <- query (Database.get_streak (today e) habit_id) ;;
     h <- lift (subscript habit) ;;
     send (edit_text
             (Py.lit "<b>" ++ fmt_opt (Database.habit_name h) ++ Py.lit "</b>"
              ++ Py.nl ++ Py.nl
              ++ Py.lit "❌ Отмечено как пропущенное" ++ Py.nl
              ++ Py.lit "🔥 Текущая серия: " ++ Py.str_of_int streak
              ++ Py.lit " дней")))
    (fun _ => send (callback_answer (Some (Py.lit "Произошла ошибка")) true)).

(** [status_text.get(today_status, default)] of [callback_habit_detail]. *)
Definition status_text (today_status : option Py.str) : Py.str :=
  match today_status with
  | Some s =>
      if Py.str_eqb s Database.completed then Py.lit "✅ Выполнено сегодня"
      else if Py.str_eqb s Database.missed then Py.lit "❌ Пропущено сегодня"
      else Py.lit "⚪️ Ещё не отмечали сегодня"
  | None => Py.lit "⚪️ Ещё не отмечали сегодня"
  end.

(** The guard of [callback_habit_detail]:
    [len(parts) == 2 and parts[0] == "habit"]. *)
Definition plain_habit_payload (parts : list Py.str) : bool :=
  (Py.len parts =? 2)
  && match parts with
     | p0 :: _ => Py.str_eqb p0 (Py.lit "habit")
     | [] => false
     end.

Definition callback_habit_detail (e : env) (callback : callback_query)
    : M unit :=
  r <- try_except
         (let parts := Py.split Py.underscore (data callback) in
          if plain_habit_payload parts then
            part <- lift (Py.getitem parts 1) ;;
            habit_id <- lift (Py.int part) ;;
            habit <- query (Database.get_habit habit_id) ;;
            match habit with
            | None =>
                send (callback_answer (Some (Py.lit "Привычка не найдена"))
                        true) ;;
                ret returned
            | Some h =>
                today_status <- query (Database.get_today_status (today e)
                                         habit_id) ;;
                streak <- query (Database.get_streak (today e) habit_id) ;;
                send (edit_text
                        (Py.lit "<b>" ++ fmt_opt (Database.habit_name h)
                         ++ Py.lit "</b>" ++ Py.nl ++ Py.nl
                         ++ Py.lit "📝 " ++ Database.habit_description h ++ Py.nl
                         ++ Py.lit "📅 Создана: "
                         ++ Py.isoformat (Database.created_date h) ++ Py.nl
                         ++ Py.lit "🔥 Текущая серия: " ++ Py.str_of_int streak
                         ++ Py.lit " дней" ++ Py.nl
                         ++ Py.lit "📊 " ++ status_text today_status
                         ++ Py.nl ++ Py.nl
                         ++ Py.lit "Выберите действие:")) ;;
                ret completed_normally
            end
          else ret returned)
         (fun x =>
            match x with
            | ValueError => ret completed_normally
            | _ =>
                send (callback_answer (Some (Py.lit "Произошла ошибка")) true) ;;
                ret completed_normally
            end) ;;
  match r with
  | returned => ret tt
  | completed_normally => send (callback_answer None false)
  end.

(** ** Callback handlers: administration *)

Definition callback_admin_panel (e : env) (callback : callback_query)
    : M unit :=
  if negb (is_admin e (id (cb_from_user callback))) then
    send (callback_answer (Some (Py.lit "У вас нет прав администратора")) true)
  else
    send (edit_text (Py.lit "👑 <b>Панель администратора</b>" ++ Py.nl ++ Py.nl
                     ++ Py.lit "Выберите действие:")) ;;
    send (callback_answer None false).

(** The [for i, user in enumerate(users, 1)] loop of [callback_admin_users]. *)
Fixpoint users_listing (users : list Database.user_row) (i : Z) (acc : Py.str)
    : Py.str :=
  match users with
  | [] => acc
  | user :: rest =>
      let username_text :=
        match Database.username user with
        | Some (c :: u) => Py.lit " (@" ++ (c :: u) ++ Py.lit ")"
        | _ => []
        end in
      let admin_star :=
        if negb (Database.is_admin user =? 0) then Py.lit " 👑" else [] in
      users_listing rest (i + 1)
        (acc ++ Py.str_of_int i ++ Py.lit ". " ++ Database.first_name user
         ++ username_text ++ Py.lit " (ID: "
         ++ Py.str_of_int (Database.user_id user) ++ Py.lit ")" ++ admin_star
         ++ Py.nl
         ++ Py.lit "   📅 Зарегистрирован: "
         ++ Py.isoformat (Database.registered_date user) ++ Py.nl ++ Py.nl)
  end.

Definition callback_admin_users (e : env) (callback : callback_query)
    : M unit :=
  if negb (is_admin e (id (cb_from_user callback))) then
    send (callback_answer (Some (Py.lit "Доступ запрещен")) true)
  else
    users <- query Database.get_all_users ;;
    send (edit_text
            (users_listing users 1
               (Py.lit "👥 <b>Список пользователей:</b>" ++ Py.nl ++ Py.nl)
             ++ Py.nl ++ Py.lit "Всего пользователей: "
             ++ Py.str_of_int (Py.len users))) ;;
    send (callback_answer None false).

(** The four counts of [callback_admin_stats]. *)
Definition global_counts (e : env) (d : Database.database) : Z * Z * Z * Z :=
  let total_users := Py.len (Database.users d) in
  let total_habits :=
    Py.len (filter (fun h => Database.is_active h =? 1) (Database.habits d)) in
  let marked_today :=
    filter (fun r => Database.track_date r =? today e)
      (Database.habit_tracking d) in
  let today_completed :=
    Py.len (filter (fun r => Py.str_eqb (Database.status r) Database.completed)
              marked_today) in
  let joined :=
    flat_map (fun r =>
                map Database.habit_user_id
                  (filter (fun h => Database.habit_id h
                                    =? Database.track_habit_id r)
                     (Database.habits d)))
      marked_today in
  let active_users := Py.len (nodup Z.eq_dec joined) in
  (total_users, total_habits, today_completed, active_users).

Definition callback_admin_stats (e : env) (callback : callback_query)
    : M unit :=
  if negb (is_admin e (id (cb_from_user callback))) then
    send (callback_answer (Some (Py.lit "Доступ запрещен")) true)
  else
    counts <- query (global_counts e) ;;
    let '(total_users, total_habits, today_completed, active_users) :=
      counts in
    send (edit_text
            (Py.lit "📊 <b>Общая статистика бота:</b>" ++ Py.nl ++ Py.nl
             ++ Py.lit "👥 Всего пользователей: " ++ Py.str_of_int total_users
             ++ Py.nl
             ++ Py.lit "📋 Активных привычек: " ++ Py.str_of_int total_habits
             ++ Py.nl
             ++ Py.lit "✅ Выполнено сегодня: "
             ++ Py.str_of_int today_completed ++ Py.nl
             ++ Py.lit "👤 Активных пользователей сегодня: "
             ++ Py.str_of_int active_users ++ Py.nl)) ;;
    send (callback_answer None false).

Definition callback_admin_broadcast (e : env) (callback : callback_query)
    : M unit :=
  if negb (is_admin e (id (cb_from_user callback))) then
    send (callback_answer (Some (Py.lit "Доступ запрещен")) true)
  else
    send (edit_text
            (Py.lit "📢 <b>Создание рассылки</b>" ++ Py.nl ++ Py.nl
             ++ Py.lit "Введите сообщение, которое хотите отправить всем пользователям бота."
             ++ Py.nl
             ++ Py.lit "Можно использовать форматирование (жирный, курсив и т.д.)."
             ++ Py.nl ++ Py.nl
             ++ Py.lit "Для отмены введите /cancel")) ;;
    set_state (id (cb_from_user callback)) waiting_for_message ;;
    send (callback_answer None false).

(** ** The broadcast *)

(** The progress text edited in after every tenth recipient. *)
Definition broadcast_progress (total_users i success_count fail_count : Z)
    : Py.str :=
  Py.lit "📤 Рассылка в процессе..." ++ Py.nl
  ++ Py.lit "Всего получателей: " ++ Py.str_of_int total_users ++ Py.nl
  ++ Py.lit "Прогресс: " ++ Py.str_of_int i ++ Py.lit "/"
  ++ Py.str_of_int total_users ++ Py.nl
  ++ Py.lit "✅ Успешно: " ++ Py.str_of_int success_count ++ Py.nl
  ++ Py.lit "❌ Ошибок: " ++ Py.str_of_int fail_count.

(** The final summary; its last field divides by [total_users]. *)
Definition broadcast_summary (total_users success_count fail_count : Z)
    : result Py.str :=
  match Py.truediv success_count total_users with
  | Ok q =>
      Ok (Py.lit "✅ <b>Рассылка завершена!</b>" ++ Py.nl ++ Py.nl
          ++ Py.lit "📊 Статистика:" ++ Py.nl
          ++ Py.lit "• Всего получателей: " ++ Py.str_of_int total_users
          ++ Py.nl
          ++ Py.lit "• ✅ Успешно доставлено: " ++ Py.str_of_int success_count
          ++ Py.nl
          ++ Py.lit "• ❌ Не доставлено: " ++ Py.str_of_int fail_count ++ Py.nl
          ++ Py.lit "• 📈 Процент доставки: "
          ++ Py.format_1f (PrimFloat.mul q (Py.float_of_int 100))
          ++ Py.lit "%")
  | Raise x => Raise x
  end.

(** The [for i, (user_id, ...) in enumerate(users, 1)] loop: one
    [copy_message] per recipient inside its own [try], then the progress
    edit on every tenth. *)
Fixpoint broadcast_loop (e : env) (users : list Database.user_row)
    (i total_users success_count fail_count : Z) : M (Z * Z) :=
  match users with
  | [] => ret (success_count, fail_count)
  | user :: rest =>
      let chat_id := Database.user_id user in
      let ok := delivers e i chat_id in
      send (copy_message chat_id ok) ;;
      let success_count' := if ok then success_count + 1 else success_count in
      let fail_count' := if ok then fail_count else fail_count + 1 in
      (if i mod 10 =? 0
       then send (edit_text (broadcast_progress total_users i success_count'
                               fail_count'))
       else ret tt) ;;
      broadcast_loop e rest (i + 1) total_users success_count' fail_count'
  end.

Definition process_broadcast_message (e : env) (message : message) : M unit :=
  let uid := id (from_user message) in
  if negb (is_admin e uid) then
    send (message_answer (Py.lit "У вас нет прав для этого действия")) ;;
    state_clear uid
  else if match text message with
          | Some t => Py.str_eqb t (Py.lit "/cancel")
          | None => false
          end
  then
    state_clear uid ;;
    send (message_answer (Py.lit "❌ Рассылка отменена"))
  else
    users <- query Database.get_all_users ;;
    let total_users := Py.len users in
    send (message_answer
            (Py.lit "📤 Начинаю рассылку..." ++ Py.nl
             ++ Py.lit "Всего получателей: " ++ Py.str_of_int total_users
             ++ Py.nl
             ++ Py.lit "Прогресс: 0/" ++ Py.str_of_int total_users)) ;;
    counts <- broadcast_loop e users 1 total_users 0 0 ;;
    let '(success_count, fail_count) := counts in
    summary <- lift (broadcast_summary total_users success_count fail_count) ;;
    send (edit_text summary) ;;
    state_clear uid.

(** ** State handlers: creating a habit *)

(** [message.text.strip()]: a message without text has [text = None]. *)
Definition text_strip (message : message) : result Py.str :=
  match text message with
  | Some t => Ok (Py.strip t)
  | None => Raise AttributeError
  end.

Definition process_habit_name (message : message) : M unit :=
  habit_name <- lift (text_strip message) ;;
  if Py.len habit_name >? 100 then
    send (message_answer
            (Py.lit "❌ Название слишком длинное. Пожалуйста, введите название короче 100 символов:"))
  else if Py.len habit_name <? 3 then
    send (message_answer
            (Py.lit "❌ Название слишком короткое. Пожалуйста, введите название длиннее 3 символов:"))
  else
    update_data (id (from_user message)) habit_name ;;
    set_state (id (from_user message)) waiting_for_habit_description ;;
    send (message_answer
            (Py.lit "Отличное название! Теперь введите описание привычки "
             ++ Py.lit "(или отправьте /skip чтобы пропустить):")).

(** The last part of [process_habit_description], once the description is
    accepted. *)
Definition save_habit (e : env) (message : message)
    (habit_description : Py.str) : M unit :=
  let uid := id (from_user message) in
  habit_name <- get_data uid ;;
  habit_id <- update (Database.add_habit (today e) uid habit_name
                        habit_description) ;;
  if match habit_id with
     | Some n => negb (n =? 0)
     | None => false
     end
  then
    state_clear uid ;;
    send (message_answer
            (Py.lit "✅ Привычка <b>«" ++ fmt_opt habit_name
             ++ Py.lit "»</b> успешно создана!" ++ Py.nl ++ Py.nl
             ++ Py.lit "Теперь вы можете отмечать её выполнение каждый день."))
  else
    send (message_answer
            (Py.lit "❌ Произошла ошибка при создании привычки. Попробуйте позже.")).

Definition process_habit_description (e : env) (message : message)
    : M unit :=
  if match text message with
     | Some t => Py.str_eqb t (Py.lit "/skip")
     | None => false
     end
  then save_habit e message (Py.lit "Без описания")
  else
    habit_description <- lift (text_strip message) ;;
    if Py.len habit_description >? 500 then
      send (message_answer
              (Py.lit "❌ Описание слишком длинное. Пожалуйста, введите описание короче 500 символов "
               ++ Py.lit "(или отправьте /skip чтобы пропустить):"))
    else save_habit e message habit_description.

Definition handle_unknown_message (message : message) : M unit :=
  send (message_answer
          (Py.lit "Я не понимаю эту команду. Пожалуйста, используйте кнопки меню или /help для справки.")).

(** ** The routers *)

(** The dispatcher offers an update to the handlers in the order of their
    registration and runs the first whose filter accepts it. *)

Inductive callback_handler : Type :=
| H_my_habits | H_new_habit | H_stats | H_help | H_back_to_main
| H_habit_stats | H_complete_habit | H_miss_habit | H_habit_detail
| H_admin_panel | H_admin_users | H_admin_stats | H_admin_broadcast.

Inductive data_filter : Type :=
| data_is (s : Py.str)            (* F.data == s *)
| data_startswith (s : Py.str).   (* F.data.startswith(s) *)

Definition accepts (f : data_filter) (d : Py.str) : bool :=
  match f with
  | data_is s => Py.str_eqb d s
  | data_startswith s => Py.startswith s d
  end.

(** The [@dp.callback_query] registrations, top to bottom. *)
Definition callback_handlers : list (data_filter * callback_handler) :=
  [ (data_is (Py.lit "my_habits"), H_my_habits);
    (data_is (Py.lit "new_habit"), H_new_habit);
    (data_is (Py.lit "stats"), H_stats);
    (data_is (Py.lit "help"), H_help);
    (data_is (Py.lit "back_to_main"), H_back_to_main);
    (data_startswith (Py.lit "habit_stats_"), H_habit_stats);
    (data_startswith (Py.lit "complete_"), H_complete_habit);
    (data_startswith (Py.lit "miss_"), H_miss_habit);
    (data_startswith (Py.lit "habit_"), H_habit_detail);
    (data_is (Py.lit "admin_panel"), H_admin_panel);
    (data_is (Py.lit "admin_users"), H_admin_users);
    (data_is (Py.lit "admin_stats"), H_admin_stats);
    (data_is (Py.lit "admin_broadcast"), H_admin_broadcast) ].

Definition route_callback (d : Py.str) : option callback_handler :=
  match find (fun p => accepts (fst p) d) callback_handlers with
  | Some p => Some (snd p)
  | None => None
  end.

Definition run_callback (e : env) (h : callback_handler)
    (callback : callback_query) : M unit :=
  match h with
  | H_my_habits => callback_my_habits e callback
  | H_new_habit => callback_new_habit callback
  | H_stats => callback_stats e callback
  | H_help => callback_help callback
  | H_back_to_main => callback_back_to_main callback
  | H_habit_stats => callback_habit_stats e callback
  | H_complete_habit => callback_complete_habit e callback
  | H_miss_habit => callback_miss_habit e callback
  | H_habit_detail => callback_habit_detail e callback
  | H_admin_panel => callback_admin_panel e callback
  | H_admin_users => callback_admin_users e callback
  | H_admin_stats => callback_admin_stats e callback
  | H_admin_broadcast => callback_admin_broadcast e callback
  end.

Inductive message_handler : Type :=
| H_command_start | H_command_help | H_command_stop | H_command_menu
| H_process_broadcast_message | H_process_habit_name
| H_process_habit_description | H_unknown_message.

Inductive message_filter : Type :=
| command (name : Py.str)         (* CommandStart(), Command(name) *)
| in_state (s : fsm_state)        (* a state of a StatesGroup *)
| any_message.                    (* no filter *)

Definition fsm_state_eqb (a b : fsm_state) : bool :=
  match a, b with
  | waiting_for_habit_name, waiting_for_habit_name => true
  | waiting_for_habit_description, waiting_for_habit_description => true
  | waiting_for_message, waiting_for_message => true
  | _, _ => false
  end.

(** [message.text or message.caption], the text that a command filter
    reads: the caption when the text is absent or empty. *)
Definition command_text (message : message) : option Py.str :=
  match text message with
  | Some (c :: t) => Some (c :: t)
  | _ => caption message
  end.

(** [s.partition("@")]: what precedes the first [@], and what follows it
    (empty when there is none). *)
Fixpoint before_at (s : Py.str) : Py.str :=
  match s with
  | [] => []
  | c :: r => if (c =? 64)%N then [] else c :: before_at r
  end.

Fixpoint after_at (s : Py.str) : Py.str :=
  match s with
  | [] => []
  | c :: r => if (c =? 64)%N then r else after_at r
  end.

(** The filters of aiogram.  [Command(name)] and [CommandStart()] take
    the first token of the text, [full_command], and accept when
    [full_command[0]] is the prefix [/], the mention after the first [@]
    of [full_command[1:]] is empty or names this bot, and the command
    before it is [name]; an empty or blank text has no token and is
    refused. *)
Definition passes (e : env) (f : message_filter) (s : option fsm_state)
    (t : option Py.str) : bool :=
  match f with
  | command name =>
      match t with
      | Some t' =>
          match Py.first_token t' with
          | [] => false
          | prefix :: rest =>
              (prefix =? 47)%N
              && match after_at rest with
                 | [] => true
                 | mention => mention_is_me e mention
                 end
              && Py.str_eqb (before_at rest) name
          end
      | None => false
      end
  | in_state st =>
      match s with
      | Some s' => fsm_state_eqb s' st
      | None => false
      end
  | any_message => true
  end.

(** The [@dp.message] registrations, top to bottom. *)
Definition message_handlers : list (message_filter * message_handler) :=
  [ (command (Py.lit "start"), H_command_start);
    (command (Py.lit "help"), H_command_help);
    (command (Py.lit "stop"), H_command_stop);
    (command (Py.lit "menu"), H_command_menu);
    (in_state waiting_for_message, H_process_broadcast_message);
    (in_state waiting_for_habit_name, H_process_habit_name);
    (in_state waiting_for_habit_description, H_process_habit_description);
    (any_message, H_unknown_message) ].

(** The handler of a message in dialog state [s] whose command text is
    [t]. *)
Definition route_message (e : env) (s : option fsm_state)
    (t : option Py.str) : option message_handler :=
  match find (fun p => passes e (fst p) s t) message_handlers with
  | Some p => Some (snd p)
  | None => None
  end.

Definition run_message (e : env) (h : message_handler) (message : message)
    : M unit :=
  match h with
  | H_command_start => command_start_handler e message
  | H_command_help => command_help_handler message
  | H_command_stop => command_stop_handler message
  | H_command_menu => command_menu_handler message
  | H_process_broadcast_message => process_broadcast_message e message
  | H_process_habit_name => process_habit_name message
  | H_process_habit_description => process_habit_description e message
  | H_unknown_message => handle_unknown_message message
  end.

(** An update from the transport. *)
Inductive update_event : Type :=
| on_message (m : message)
| on_callback (c : callback_query).

(** One turn of the polling loop: route the update, run the handler; an
    exception that leaves the handler is logged by the dispatcher and the
    loop goes on with the state the handler left. *)
Definition feed_update (e : env) (u : update_event) (b : bot) : bot :=
  match u with
  | on_message m =>
      match route_message e (state (get_session (id (from_user m)) b))
              (command_text m)
      with
      | Some h => snd (run_message e h m b)
      | None => b
      end
  | on_callback c =>
      match route_callback (data c) with
      | Some h => snd (run_callback e h c b)
      | None => b
      end
  end.

(** The bot at start-up: the database as given, no session, nothing sent. *)
Definition start_bot (d : Database.database) : bot := mk_bot d [] [].

(** ** Histories of the database *)

(** The calls that write to the database, with the arguments the handlers
    pass.  (The reading of the clock is supplied by the history.) *)
Inductive db_call : Type :=
| call_add_user (ADMIN_ID uid : Z) (uname : option Py.str) (fname : Py.str)
    (lname : option Py.str)
| call_add_habit (uid : Z) (name : option Py.str) (description : Py.str)
| call_track_habit (hid : Z) (st : Py.str).

Definition apply_call (today : Database.date) (c : db_call)
    (d : Database.database) : Database.database :=
  match c with
  | call_add_user admin uid uname fname lname =>
      Database.add_user admin today uid uname fname lname d
  | call_add_habit uid name description =>
      fst (Database.add_habit today uid name description d)
  | call_track_habit hid st => fst (Database.track_habit today hid st d)
  end.

(** [reachable today d]: the database can be in state [d] on day [today],
    after any calls made on days that never go backwards. *)
Inductive reachable : Database.date -> Database.database -> Prop :=
| reachable_init : forall today, reachable today Database.init_db
| reachable_call : forall today c d,
    reachable today d -> reachable today (apply_call today c d)
| reachable_later : forall today today' d,
    reachable today d -> today <= today' -> reachable today' d.

(** ** The streak, as the specification words it *)

Module Spec.

(** Start at today; if a record exists for the expected date with status
    "completed", count one and step the expected date back by one day;
    a "missed" record, a gap, or the end of the records stop the scan. *)
Fixpoint backward_scan (records_left : nat) (hid : Z)
    (expected : Database.date) (d : Database.database) : Z :=
  match records_left with
  | O => 0
  | S n =>
      match Database.select_status hid expected d with
      | Some st =>
          if Py.str_eqb st Database.completed
          then 1 + backward_scan n hid (expected - 1) d
          else 0
      | None => 0
      end
  end.

Definition records_of (hid : Z) (d : Database.database)
    : list Database.tracking_row :=
  filter (fun r => Database.track_habit_id r =? hid) (Database.habit_tracking d).

Definition current_streak (today : Database.date) (hid : Z)
    (d : Database.database) : Z :=
  backward_scan (List.length (records_of hid d)) hid today d.

(** The final summary of a broadcast reports the recipients attempted,
    the deliveries that succeeded, those that failed, and the percentage
    of success; this is the text that shows the four. *)
Definition summary_report (attempted succeeded failed : Z)
    (percentage : Py.str) : Py.str :=
  Py.lit "✅ <b>Рассылка завершена!</b>" ++ Py.nl ++ Py.nl
  ++ Py.lit "📊 Статистика:" ++ Py.nl
  ++ Py.lit "• Всего получателей: " ++ Py.str_of_int attempted ++ Py.nl
  ++ Py.lit "• ✅ Успешно доставлено: " ++ Py.str_of_int succeeded ++ Py.nl
  ++ Py.lit "• ❌ Не доставлено: " ++ Py.str_of_int failed ++ Py.nl
  ++ Py.lit "• 📈 Процент доставки: " ++ percentage ++ Py.lit "%".

End Spec.

(** ** Invariants *)

(** Strictly descending keys: the order of a list sorted by a key without
    duplicates. *)
Inductive descending {A : Type} (key : A -> Z) : list A -> Prop :=
| descending_nil : descending key []
| descending_cons : forall x l,
    Forall (fun y => key y < key x) l -> descending key l ->
    descending key (x :: l).

Definition tracking_key (r : Database.tracking_row) : Z * Z :=
  (Database.track_habit_id r, Database.track_date r).

(** What every history maintains of the tracking table on day [today]:
    one row at most for a habit and a date, and no row dated after
    [today]. *)
Definition well_formed (today : Database.date) (d : Database.database)
    : Prop :=
  NoDup (map tracking_key (Database.habit_tracking d))
  /\ Forall (fun r => Database.track_date r <= today)
       (Database.habit_tracking d).

(** The backward scan of the specification, run over the fetched list of
    [(track_date, status)] pairs; it links the loop of [get_streak] to
    [Spec.backward_scan]. *)
Fixpoint scan_records (records_left : nat)
    (records : list (Database.date * Py.str)) (expected : Database.date) : Z :=
  match records_left with
  | O => 0
  | S n =>
      match find (fun p => fst p =? expected) records with
      | Some (_, st) =>
          if Py.str_eqb st Database.completed
          then 1 + scan_records n records (expected - 1)
          else 0
      | None => 0
      end
  end.

(** ** Sample histories *)

(** Habit 1 marked completed on three consecutive days, read on the third. *)
Definition three_days : Database.database :=
  apply_call 102 (call_track_habit 1 Database.completed)
    (apply_call 101 (call_track_habit 1 Database.completed)
       (apply_call 100 (call_track_habit 1 Database.completed)
          Database.init_db)).

(** ** Outcomes of the name dialog *)

(** The name was refused: one new prompt was sent, and the sessions (so the
    state of the dialog) and the database are as before. *)
Definition name_rejected (b b' : bot) : Prop :=
  sessions b' = sessions b
  /\ db b' = db b
  /\ exists prompt, sent b' = sent b ++ [message_answer prompt].

(** The name was taken: it is stored in the session of [uid], which now
    waits for the description. *)
Definition name_accepted (uid : Z) (name : Py.str) (b b' : bot) : Prop :=
  state (get_session uid b') = Some waiting_for_habit_description
  /\ data_habit_name (get_session uid b') = Some name
  /\ db b' = db b.

(** ** Reading a broadcast off the transport *)

(** [enumerate(l, i)] *)
Fixpoint enumerate {A : Type} (i : Z) (l : list A) : list (Z * A) :=
  match l with
  | [] => []
  | x :: r => (i, x) :: enumerate (i + 1) r
  end.

(** The recipient and the outcome of the delivery to the [i]-th user. *)
Definition outcome (e : env) (p : Z * Database.user_row) : Z * bool :=
  (Database.user_id (snd p), delivers e (fst p) (Database.user_id (snd p))).

(** The deliveries attempted, in the order attempted. *)
Definition deliveries (effects : list effect) : list (Z * bool) :=
  flat_map (fun x => match x with
                     | copy_message chat_id ok => [(chat_id, ok)]
                     | _ => []
                     end) effects.

Definition succeeded (outcomes : list (Z * bool)) : Z :=
  Py.len (filter (fun o => snd o) outcomes).

Definition failed (outcomes : list (Z * bool)) : Z :=
  Py.len (filter (fun o => negb (snd o)) outcomes).

(** ** Sample runs of the bot *)

(** [c.lower()] for a letter of the ASCII alphabet. *)
Definition ascii_lower (c : N) : N :=
  if ((65 <=? c) && (c <=? 90))%N then (c + 32)%N else c.

(** The administrator has id 1; the clock reads day 102; every delivery
    but the second succeeds; the username of the bot is [habits_bot],
    which a mention names up to the case of its letters. *)
Definition sample_env : env :=
  mk_env 1 102 (fun i _ => negb (i =? 2))
    (fun mention =>
       Py.str_eqb (map ascii_lower mention) (Py.lit "habits_bot")).

Definition admin : tg_user := mk_tg_user 1 None (Py.lit "Admin") None.

Definition says (u : tg_user) (t : string) : update_event :=
  on_message (mk_message u (Some (Py.lit t)) None).

Definition taps (u : tg_user) (payload : string) : update_event :=
  on_callback (mk_callback u (Py.lit payload)).

Definition feed_updates (e : env) (us : list update_event) (b : bot) : bot :=
  fold_left (fun b' u => feed_update e u b') us b.

(** The administrator opens the broadcast dialog on a fresh database,
    where nobody has sent [/start] yet. *)
Definition awaiting_broadcast : bot :=
  feed_updates sample_env
    [says admin "/menu"; taps admin "admin_panel";
     taps admin "admin_broadcast"]
    (start_bot Database.init_db).

(** Three users have registered, then the administrator opens the
    broadcast dialog. *)
Definition three_users : bot :=
  feed_updates sample_env
    [says (mk_tg_user 7 None (Py.lit "Ann") None) "/start";
     says (mk_tg_user 8 None (Py.lit "Bob") None) "/start";
     says admin "/start";
     taps admin "admin_panel"; taps admin "admin_broadcast"]
    (start_bot Database.init_db).

Definition hello : message :=
  mk_message admin (Some (Py.lit "Hello")) None.

(** The summary of a run over three recipients of which the second
    failed. *)
Definition sample_summary : Py.str :=
  Py.lit "✅ <b>Рассылка завершена!</b>" ++ Py.nl ++ Py.nl
  ++ Py.lit "📊 Статистика:" ++ Py.nl
  ++ Py.lit "• Всего получателей: 3" ++ Py.nl
  ++ Py.lit "• ✅ Успешно доставлено: 2" ++ Py.nl
  ++ Py.lit "• ❌ Не доставлено: 1" ++ Py.nl
  ++ Py.lit "• 📈 Процент доставки: 66.7%".

(** The first status message of a run without recipients. *)
Definition sample_start_empty : Py.str :=
  Py.lit "📤 Начинаю рассылку..." ++ Py.nl
  ++ Py.lit "Всего получателей: 0" ++ Py.nl
  ++ Py.lit "Прогресс: 0/0".

Definition ann : tg_user := mk_tg_user 7 None (Py.lit "Ann") None.

(** Ann, who never sent [/start], opens the menu and asks for a new
    habit. *)
Definition naming_habit : bot :=
  feed_updates sample_env [says ann "/menu"; taps ann "new_habit"]
    (start_bot Database.init_db).

(** Ann, who never sent [/start], creates the habit "Read" without a
    description; it gets id 1 and has no tracking record. *)
Definition habit_created : bot :=
  feed_updates sample_env
    [says ann "/menu"; taps ann "new_habit"; says ann "Read";
     says ann "/skip"]
    (start_bot Database.init_db).

(** The notice of the catch-all [except] branches. *)
Definition error_notice : effect :=
  callback_answer (Some (Py.lit "Произошла ошибка")) true.

(** The acknowledgement without text: nothing is shown to the user. *)
Definition silent_ack : effect := callback_answer None false.

(** What the statistics view of habit 1 shows while it has no record. *)
Definition sample_stats_text : Py.str :=
  Py.lit "<b>📊 Статистика: Read</b>" ++ Py.nl ++ Py.nl
  ++ Py.lit "✅ Выполнено: 0 раз" ++ Py.nl
  ++ Py.lit "❌ Пропущено: 0 раз" ++ Py.nl
  ++ Py.lit "🔥 Текущая серия: 0 дней" ++ Py.nl
  ++ Py.lit "📅 Первое выполнение: None" ++ Py.nl
  ++ Py.lit "📅 Последнее выполнение: None" ++ Py.nl ++ Py.nl.

(** What the statistics view would show on its "no data" branch. *)
Definition sample_no_data_text : Py.str :=
  Py.lit "<b>📊 Статистика: Read</b>" ++ Py.nl ++ Py.nl
  ++ Py.lit "Пока нет данных для статистики".

(** What the overall statistics show for Ann at that point. *)
Definition sample_overall_text : Py.str :=
  Py.lit "📊 <b>Общая статистика:</b>" ++ Py.nl ++ Py.nl
  ++ Py.lit "Всего привычек: 1" ++ Py.nl
  ++ Py.lit "Активных сегодня: 0" ++ Py.nl
  ++ Py.lit "Общая серия выполнений: 0 дней" ++ Py.nl ++ Py.nl
  ++ Py.lit "📈 <b>Детальная статистика:</b>" ++ Py.nl
  ++ Py.lit "• Read: пока нет данных" ++ Py.nl.

(** The same database with an empty transport log and no session. *)
Definition quiet (b : bot) : bot := mk_bot (db b) [] [].

(** ** Consistency of the tables *)

(** What every history maintains of the three tables on day [today]: the
    primary keys are distinct, the counters of the AUTOINCREMENT keys are not
    negative and the keys lie between 1 and their counter, no date lies
    after [today], and every habit is active (no statement of the source
    clears [is_active]). *)
Definition db_consistent (today : Database.date) (d : Database.database)
    : Prop :=
  NoDup (map Database.user_id (Database.users d))
  /\ 0 <= Database.habits_seq d
  /\ 0 <= Database.tracking_seq d
  /\ NoDup (map Database.habit_id (Database.habits d))
  /\ Forall (fun h => 1 <= Database.habit_id h <= Database.habits_seq d)
       (Database.habits d)
  /\ NoDup (map Database.tracking_id (Database.habit_tracking d))
  /\ Forall (fun r => 1 <= Database.tracking_id r <= Database.tracking_seq d)
       (Database.habit_tracking d)
  /\ Forall (fun u => Database.registered_date u <= today) (Database.users d)
  /\ Forall (fun h => Database.created_date h <= today
                      /\ Database.is_active h = 1)
       (Database.habits d).

(** [l] is an initial segment of [l']. *)
Definition prefix {A : Type} (l l' : list A) : Prop :=
  exists tail, l' = l ++ tail.

(** ** What a handler leaves alone *)

(** [keeps R m]: the bot after running [m], whether [m] returns or raises,
    is related by [R] to the bot before. *)
Definition keeps {A : Type} (R : bot -> bot -> Prop) (m : M A) : Prop :=
  forall b, R b (snd (m b)).

Definition is_copy (x : effect) : bool :=
  match x with
  | copy_message _ _ => true
  | _ => false
  end.

(** Permissions on the sessions, for a condition [ok_session b uid s] on
    writing [s] as the session of [uid] in [b]: the session of [uid] may be
    reset; it may enter a state, other than the wait for the description,
    with the name it holds; it may be written at will. *)
Definition may_clear (ok_session : bot -> Z -> session -> Prop) (uid : Z)
    : Prop :=
  forall b, ok_session b uid idle.

Definition may_enter (ok_session : bot -> Z -> session -> Prop) (uid : Z)
    : Prop :=
  forall b st,
    st <> waiting_for_habit_description ->
    ok_session b uid
      (mk_session (Some st) (data_habit_name (get_session uid b))).

Definition may_write (ok_session : bot -> Z -> session -> Prop) (uid : Z)
    : Prop :=
  forall b s, ok_session b uid s.

(** The user an update comes from. *)
Definition sender (u : update_event) : Z :=
  match u with
  | on_message m => id (from_user m)
  | on_callback c => id (cb_from_user c)
  end.

(** The updates routed to one of the four handlers that call a writing
    method of the database. *)
Definition reaches_writer (e : env) (b : bot) (u : update_event) : bool :=
  match u with
  | on_message m =>
      match route_message e (state (get_session (id (from_user m)) b))
              (command_text m)
      with
      | Some H_command_start | Some H_process_habit_description => true
      | _ => false
      end
  | on_callback c =>
      match route_callback (data c) with
      | Some H_complete_habit | Some H_miss_habit => true
      | _ => false
      end
  end.

(** The updates routed to [process_broadcast_message]. *)
Definition reaches_broadcast (e : env) (b : bot) (u : update_event)
    : bool :=
  match u with
  | on_message m =>
      match route_message e (state (get_session (id (from_user m)) b))
              (command_text m)
      with
      | Some H_process_broadcast_message => true
      | _ => false
      end
  | on_callback _ => false
  end.

(** The calls that the handlers of an update from user [uid] can make:
    [add_user] for that user with the configured [ADMIN_ID], [add_habit]
    for that user, [track_habit] with one of the two status texts. *)
Definition bot_call (e : env) (uid : Z) (c : db_call) : Prop :=
  match c with
  | call_add_user admin uid' _ _ _ => admin = ADMIN_ID e /\ uid' = uid
  | call_add_habit uid' _ _ => uid' = uid
  | call_track_habit _ st => st = Database.completed \/ st = Database.missed
  end.

(** The runs of the bot under one configured administrator: from a fresh
    database, one update after the other, on days that never go
    backwards. *)
Inductive bot_run (admin : Z) : Database.date -> bot -> Prop :=
| bot_run_start : forall day, bot_run admin day (start_bot Database.init_db)
| bot_run_update : forall (e : env) (u : update_event) (b : bot),
    bot_run admin (today e) b -> ADMIN_ID e = admin ->
    bot_run admin (today e) (feed_update e u b)
| bot_run_later : forall day day' b,
    bot_run admin day b -> day <= day' -> bot_run admin day' b.

Definition bob : tg_user := mk_tg_user 8 None (Py.lit "Bob") None.

(** Ann is naming a habit when Bob opens the dialog too. *)
Definition two_dialogs : bot :=
  feed_updates sample_env [taps bob "new_habit"] naming_habit.

(** ** The data model *)

(** The administrator flag of a row is the comparison with [ADMIN_ID]. *)
Definition valid_user (admin : Z) (u : Database.user_row) : Prop :=
  Database.is_admin u = (if Database.user_id u =? admin then 1 else 0).

(** A record carries one of the two status texts. *)
Definition valid_tracking (r : Database.tracking_row) : Prop :=
  Database.status r = Database.completed
  \/ Database.status r = Database.missed.

(** A habit has a name of 3 to 100 characters and a description of at most
    500. *)
Definition valid_habit (h : Database.habit_row) : Prop :=
  (exists name, Database.habit_name h = Some name
                /\ 3 <= Py.len name <= 100)
  /\ Py.len (Database.habit_description h) <= 500.

(** A name held by a session has 3 to 100 characters, and a session that
    waits for the description holds a name. *)
Definition valid_session (s : session) : Prop :=
  (forall name, data_habit_name s = Some name -> 3 <= Py.len name <= 100)
  /\ (state s = Some waiting_for_habit_description ->
      data_habit_name s <> None).

Definition data_model (admin : Z) (b : bot) : Prop :=
  Forall (valid_user admin) (Database.users (db b))
  /\ Forall valid_tracking (Database.habit_tracking (db b))
  /\ Forall valid_habit (Database.habits (db b))
  /\ Forall (fun p => valid_session (snd p)) (sessions b).

(** ** Notices *)


(** The notices that refuse a user who is not the administrator. *)
Definition no_admin_rights_notice : effect :=
  callback_answer (Some (Py.lit "У вас нет прав администратора")) true.

Definition access_denied_notice : effect :=
  callback_answer (Some (Py.lit "Доступ запрещен")) true.

(** [b] with [effects] sent after what was sent before. *)
Definition having_sent (effects : list effect) (b : bot) : bot :=
  mk_bot (db b) (sessions b) (sent b ++ effects).

(** ** Routing by state *)

(** The handler of a message that is not one of the four commands. *)
Definition dialog_handler (s : option fsm_state) : message_handler :=
  match s with
  | Some waiting_for_message => H_process_broadcast_message
  | Some waiting_for_habit_name => H_process_habit_name
  | Some waiting_for_habit_description => H_process_habit_description
  | None => H_unknown_message
  end.

(** The first token of the text is the slash and [name]. *)
Definition is_command (name : string) (t : Py.str) : Prop :=
  Py.first_token t = Py.lit "/" ++ Py.lit name.

(** ** Decimal numerals *)

(** The code points of a string of the Standard Library, as used by
    [Py.str_of_int]. *)
Definition codes (s : string) : Py.str :=
  map N_of_ascii (list_ascii_of_string s).

(** The value that [Py.digits_value] accumulates over the digits of a
    decimal numeral. *)
Fixpoint uint_value (acc : Z) (u : Decimal.uint) : Z :=
  match u with
  | Decimal.Nil => acc
  | Decimal.D0 u' => uint_value (acc * 10 + 0) u'
  | Decimal.D1 u' => uint_value (acc * 10 + 1) u'
  | Decimal.D2 u' => uint_value (acc * 10 + 2) u'
  | Decimal.D3 u' => uint_value (acc * 10 + 3) u'
  | Decimal.D4 u' => uint_value (acc * 10 + 4) u'
  | Decimal.D5 u' => uint_value (acc * 10 + 5) u'
  | Decimal.D6 u' => uint_value (acc * 10 + 6) u'
  | Decimal.D7 u' => uint_value (acc * 10 + 7) u'
  | Decimal.D8 u' => uint_value (acc * 10 + 8) u'
  | Decimal.D9 u' => uint_value (acc * 10 + 9) u'
  end.

(** A character of a decimal numeral: a digit or the minus sign. *)
Definition numeral_char (c : N) : bool :=
  ((48 <=? c) && (c <=? 57) || (c =? 45))%N.

(** ** Keyboards *)

(** An [InlineKeyboardButton] and an inline keyboard, row by row. *)
Record button : Type := mk_button {
  button_text : Py.str;
  callback_data : Py.str
}.

Definition keyboard : Type := list (list button).

(** [s != status] for an optional text [s]. *)
Definition differs (s : option Py.str) (status : Py.str) : bool :=
  match s with
  | Some t => negb (Py.str_eqb t status)
  | None => true
  end.

(** The truth value of an optional id: neither [None] nor 0. *)
Definition truthy (user_id : option Z) : bool :=
  match user_id with
  | Some n => negb (n =? 0)
  | None => false
  end.

Definition get_main_keyboard (e : env) (user_id : option Z) : keyboard :=
  [ [mk_button (Py.lit "📋 Мои привычки") (Py.lit "my_habits");
     mk_button (Py.lit "➕ Новая привычка") (Py.lit "new_habit")];
    [mk_button (Py.lit "📊 Статистика") (Py.lit "stats");
     mk_button (Py.lit "❓ Помощь") (Py.lit "help")] ]
  ++ (if truthy user_id
         && match user_id with
            | Some n => is_admin e n
            | None => false
            end
      then [[mk_button (Py.lit "👑 Админ панель") (Py.lit "admin_panel")]]
      else []).

Definition get_habit_action_keyboard (habit_id : Z)
    (today_status : option Py.str) : keyboard :=
  (if differs today_status Database.completed
   then [[mk_button (Py.lit "✅ Выполнено")
            (Py.lit "complete_" ++ Py.str_of_int habit_id)]]
   else [])
  ++ (if differs today_status Database.missed
      then [[mk_button (Py.lit "❌ Пропущено")
               (Py.lit "miss_" ++ Py.str_of_int habit_id)]]
      else [])
  ++ [ [mk_button (Py.lit "📊 Статистика привычки")
          (Py.lit "habit_stats_" ++ Py.str_of_int habit_id)];
       [mk_button (Py.lit "◀️ Назад к списку") (Py.lit "my_habits")] ].

Definition get_admin_keyboard : keyboard :=
  [ [mk_button (Py.lit "👥 Список пользователей") (Py.lit "admin_users");
     mk_button (Py.lit "📊 Общая статистика") (Py.lit "admin_stats")];
    [mk_button (Py.lit "📢 Рассылка") (Py.lit "admin_broadcast");
     mk_button (Py.lit "◀️ Назад") (Py.lit "back_to_main")] ].

(** The keyboard that [callback_my_habits] builds under a listing: one row
    per habit, then the row of the two menu buttons. *)
Definition my_habits_keyboard (e : env) (habits : list Database.habit_row)
    (d : Database.database) : keyboard :=
  map (fun habit =>
         let today_status :=
           Database.get_today_status (today e) (Database.habit_id habit) d in
         [mk_button (status_emoji today_status ++ Py.lit " "
                     ++ fmt_opt (Database.habit_name habit))
            (Py.lit "habit_" ++ Py.str_of_int (Database.habit_id habit))])
    habits
  ++ [ [mk_button (Py.lit "➕ Новая привычка") (Py.lit "new_habit");
        mk_button (Py.lit "◀️ Назад") (Py.lit "back_to_main")] ].

(** The keyboard under the statistics of one habit. *)
Definition habit_stats_keyboard (habit_id : Z) : keyboard :=
  [ [mk_button (Py.lit "◀️ Назад к привычке")
       (Py.lit "habit_" ++ Py.str_of_int habit_id)];
    [mk_button (Py.lit "◀️ К списку привычек") (Py.lit "my_habits")] ].

(** The keyboard under the two listings of the administrator. *)
Definition admin_back_keyboard : keyboard :=
  [ [mk_button (Py.lit "◀️ Назад в админку") (Py.lit "admin_panel")];
    [mk_button (Py.lit "◀️ В главное меню") (Py.lit "back_to_main")] ].

(** The keyboard under the notice of [callback_admin_stats] when the
    statistics could not be computed. *)
Definition admin_error_keyboard : keyboard :=
  [ [mk_button (Py.lit "◀️ Назад") (Py.lit "admin_panel")] ].

(** All buttons of a keyboard. *)
Definition buttons (k : keyboard) : list button := List.concat k.

(** Every button of the keyboard has a handler. *)
Definition handled (k : keyboard) : Prop :=
  Forall (fun btn => route_callback (callback_data btn) <> None) (buttons k).

(** The keyboard offers a button with this payload. *)
Definition offers (k : keyboard) (payload : Py.str) : Prop :=
  In payload (map callback_data (buttons k)).

(** ** The dialog that creates a habit *)

(** The command that a text names: what follows the prefix [/] of its
    first token, up to the first [@]; and the mention after that [@]. *)
Definition command_part (t : Py.str) : option Py.str :=
  match Py.first_token t with
  | prefix :: rest => if (prefix =? 47)%N then Some (before_at rest) else None
  | [] => None
  end.

Definition mention_part (t : Py.str) : Py.str :=
  after_at (tl (Py.first_token t)).

(** The command is meant for this bot: it carries no mention, or one
    that names the bot. *)
Definition addressed (e : env) (t : Py.str) : bool :=
  match mention_part t with
  | [] => true
  | mention => mention_is_me e mention
  end.

(** The four commands and their handlers. *)
Definition commands : list (string * message_handler) :=
  [ ("start"%string, H_command_start); ("help"%string, H_command_help);
    ("stop"%string, H_command_stop); ("menu"%string, H_command_menu) ].

(** A text that names none of the four commands, with or without a
    mention. *)
Definition plain_text (t : Py.str) : Prop :=
  command_part t <> Some (Py.lit "start")
  /\ command_part t <> Some (Py.lit "help")
  /\ command_part t <> Some (Py.lit "stop")
  /\ command_part t <> Some (Py.lit "menu").

(** The user sends a text message. *)
Definition writes (u : tg_user) (t : Py.str) : update_event :=
  on_message (mk_message u (Some t) None).

(** A text that [process_habit_name] answers by asking again. *)
Definition name_refused (t : Py.str) : Prop :=
  plain_text t /\ (Py.len (Py.strip t) < 3 \/ 100 < Py.len (Py.strip t)).

(** A text that [process_habit_description] answers by asking again. *)
Definition description_refused (t : Py.str) : Prop :=
  plain_text t /\ t <> Py.lit "/skip" /\ 500 < Py.len (Py.strip t).

(** The description that [process_habit_description] stores for a text. *)
Definition stored_description (t : Py.str) : Py.str :=
  if Py.str_eqb t (Py.lit "/skip") then Py.lit "Без описания" else Py.strip t.

(** The user taps "new habit", sends names until one is accepted, then
    descriptions until one is accepted. *)
Definition habit_dialog (u : tg_user) (refused_names : list Py.str)
    (name : Py.str) (refused_descriptions : list Py.str)
    (description : Py.str) : list update_event :=
  on_callback (mk_callback u (Py.lit "new_habit"))
  :: map (writes u)
       (refused_names ++ [name] ++ refused_descriptions ++ [description]).

(** ** Progress of a broadcast *)

(** The texts edited into the status message, in the order edited. *)
Definition edits (effects : list effect) : list Py.str :=
  flat_map (fun x => match x with
                     | edit_text t => [t]
                     | _ => []
                     end) effects.

(** The positions [i] of [enumerate(users, 1)] with [i % 10 == 0]. *)
Definition reported {A : Type} (users : list A) : list Z :=
  filter (fun i => i mod 10 =? 0) (map fst (enumerate 1 users)).

(** The progress text after the first [i] outcomes. *)
Definition progress_report (total_users : Z) (outcomes : list (Z * bool))
    (i : Z) : Py.str :=
  let done := firstn (Z.to_nat i) outcomes in
  broadcast_progress total_users i (succeeded done) (failed done).

(** Twelve users have registered, the administrator first. *)
Definition twelve_users : bot :=
  start_bot
    (fold_left
       (fun d uid =>
          Database.add_user 1 102 uid None (Py.lit "User") None d)
       [1; 2; 3; 4; 5; 6; 7; 8; 9; 10; 11; 12] Database.init_db).

(** ** The totals of the user's statistics *)

(** The streak of the habit is running. *)
Definition running (e : env) (d : Database.database)
    (habit : Database.habit_row) : bool :=
  Database.get_streak (today e) (Database.habit_id habit) d >? 0.

(** The sum of the streaks of the habits. *)
Definition sum_of_streaks (e : env) (d : Database.database)
    (habits : list Database.habit_row) : Z :=
  fold_right Z.add 0
    (map (fun habit =>
            Database.get_streak (today e) (Database.habit_id habit) d)
       habits).

(** * Properties *)

#[local] Arguments Z.add _ _ : simpl never.
#[local] Arguments Z.sub _ _ : simpl never.
#[local] Arguments Z.mul _ _ : simpl never.
#[local] Arguments Z.of_nat _ : simpl never.

(** ** Facts about the Python primitives *)

Lemma str_eqb_refl (s : Py.str) : Py.str_eqb s s = true.
Proof.
  induction s as [|c s IH]; simpl; [reflexivity|].
  now rewrite N.eqb_refl, IH.
Qed.

Lemma str_eqb_eq (a b : Py.str) : Py.str_eqb a b = true <-> a = b.
Proof.
  split.
  - revert b; induction a as [|x a IH]; destruct b as [|y b]; simpl;
      try discriminate; [reflexivity|].
    intros H. apply andb_true_iff in H as [Hx Hab].
    apply N.eqb_eq in Hx. apply IH in Hab. now subst.
  - intros ->. apply str_eqb_refl.
Qed.

(** A few evaluations, as a check of the primitives against Python. *)

Example split_habit_stats_42 :
  Py.split Py.underscore (Py.lit "habit_stats_42")
  = [Py.lit "habit"; Py.lit "stats"; Py.lit "42"].
Proof. vm_compute. reflexivity. Qed.

Example split_trailing_separator :
  Py.split Py.underscore (Py.lit "complete_") = [Py.lit "complete"; []].
Proof. vm_compute. reflexivity. Qed.

Example int_with_spaces : Py.int (Py.lit " 42 ") = Ok 42.
Proof. vm_compute. reflexivity. Qed.

Example int_negative : Py.int (Py.lit "-7") = Ok (-7).
Proof. vm_compute. reflexivity. Qed.

Example int_abc : Py.int (Py.lit "abc") = Raise ValueError.
Proof. vm_compute. reflexivity. Qed.

Example int_arabic_indic : Py.int (Py.lit "٤٢") = Ok 42.
Proof. vm_compute. reflexivity. Qed.

Example int_empty : Py.int [] = Raise ValueError.
Proof. vm_compute. reflexivity. Qed.

Example strip_cyrillic :
  Py.len (Py.strip (Py.lit "  Бег по утрам ")) = 12.
Proof. vm_compute. reflexivity. Qed.

Example isoformat_epoch : Py.isoformat 719163 = Py.lit "1970-01-01".
Proof. vm_compute. reflexivity. Qed.

Example isoformat_leap_day : Py.isoformat 738945 = Py.lit "2024-02-29".
Proof. vm_compute. reflexivity. Qed.

Example format_two_thirds :
  match Py.truediv 2 3 with
  | Ok q => Py.format_1f (PrimFloat.mul q (Py.float_of_int 100))
  | Raise _ => []
  end = Py.lit "66.7".
Proof. vm_compute. reflexivity. Qed.

Example format_one_eighth :
  match Py.truediv 1 8 with
  | Ok q => Py.format_1f (PrimFloat.mul q (Py.float_of_int 100))
  | Raise _ => []
  end = Py.lit "12.5".
Proof. vm_compute. reflexivity. Qed.

Example format_all : 
  match Py.truediv 3 3 with
  | Ok q => Py.format_1f (PrimFloat.mul q (Py.float_of_int 100))
  | Raise _ => []
  end = Py.lit "100.0".
Proof. vm_compute. reflexivity. Qed.

(** ** Sorting by a descending key *)

Section OrderBy.

Context {A : Type} (key : A -> Z).

Lemma In_insert_desc (x y : A) (l : list A) :
  In y (Database.insert_desc key x l) <-> y = x \/ In y l.
Proof.
  induction l as [|z l IH]; simpl.
  - intuition.
  - destruct (key z <=? key x); simpl; rewrite ?IH; intuition.
Qed.

Lemma In_order_by_desc (y : A) (l : list A) :
  In y (Database.order_by_desc key l) <-> In y l.
Proof.
  induction l as [|x l IH]; simpl; [reflexivity|].
  rewrite In_insert_desc, IH. intuition.
Qed.

Lemma length_insert_desc (x : A) (l : list A) :
  List.length (Database.insert_desc key x l) = S (List.length l).
Proof.
  induction l as [|z l IH]; simpl; [reflexivity|].
  destruct (key z <=? key x); simpl; [reflexivity | now rewrite IH].
Qed.

Lemma length_order_by_desc (l : list A) :
  List.length (Database.order_by_desc key l) = List.length l.
Proof.
  induction l as [|x l IH]; simpl; [reflexivity|].
  now rewrite length_insert_desc, IH.
Qed.

Lemma descending_insert (x : A) (l : list A) :
  descending key l -> ~ In (key x) (map key l) ->
  descending key (Database.insert_desc key x l).
Proof.
  induction 1 as [|z l Hz Hl IH]; simpl; intros Hx.
  - constructor; [constructor | constructor].
  - destruct (key z <=? key x) eqn:E.
    + apply Z.leb_le in E.
      assert (key z < key x) by (assert (key z <> key x) by intuition; lia).
      constructor; [|now constructor].
      constructor; [assumption|].
      eapply Forall_impl; [|exact Hz]. simpl; intros; lia.
    + apply Z.leb_gt in E. constructor.
      * apply Forall_forall. intros y Hy.
        apply (proj1 (In_insert_desc _ _ _)) in Hy as [->|Hy]; [assumption|].
        rewrite Forall_forall in Hz. now apply Hz.
      * apply IH. intuition.
Qed.

Lemma descending_order_by (l : list A) :
  NoDup (map key l) -> descending key (Database.order_by_desc key l).
Proof.
  induction l as [|x l IH]; simpl; intros H.
  - constructor.
  - inversion H as [|? ? Hx Hl]; subst.
    apply descending_insert; [now apply IH|].
    intros Hin. apply Hx. apply in_map_iff in Hin as (y & Hy & Hin).
    apply (proj1 (In_order_by_desc _ _)) in Hin. apply in_map_iff. eauto.
Qed.

(** With distinct keys, [find] by key is decided by membership. *)
Lemma find_by_key (l : list A) (x : A) :
  NoDup (map key l) -> In x l ->
  find (fun y => key y =? key x) l = Some x.
Proof.
  induction l as [|z l IH]; simpl; intros Hnd Hin; [contradiction|].
  inversion Hnd as [|? ? Hz Hl]; subst.
  destruct Hin as [->|Hin].
  - now rewrite Z.eqb_refl.
  - destruct (key z =? key x) eqn:E.
    + apply Z.eqb_eq in E. exfalso. apply Hz. rewrite E. now apply in_map.
    + now apply IH.
Qed.

Lemma find_by_key_none (l : list A) (k : Z) :
  (forall y, In y l -> key y <> k) -> find (fun y => key y =? k) l = None.
Proof.
  induction l as [|z l IH]; simpl; intros H; [reflexivity|].
  destruct (key z =? k) eqn:E.
  - apply Z.eqb_eq in E. exfalso. now apply (H z); [left|].
  - apply IH. intros y Hy. apply H. now right.
Qed.

End OrderBy.

(** ** Histories keep the tracking table well formed *)

Lemma tracking_key_same_day (hid : Z) (d : Database.date)
    (r : Database.tracking_row) :
  Database.same_day hid d r = true <-> tracking_key r = (hid, d).
Proof.
  unfold Database.same_day, tracking_key. rewrite andb_true_iff, !Z.eqb_eq.
  split; [intros [-> ->]; reflexivity | intros [= -> ->]; auto].
Qed.

Lemma no_same_day (hid : Z) (d : Database.date)
    (rows : list Database.tracking_row) :
  existsb (Database.same_day hid d) rows = false ->
  ~ In (hid, d) (map tracking_key rows).
Proof.
  intros He Hin. apply in_map_iff in Hin as (r & Hk & Hr).
  assert (existsb (Database.same_day hid d) rows = true) as Ht.
  { apply existsb_exists. exists r. split; [assumption|].
    now apply tracking_key_same_day. }
  congruence.
Qed.

Lemma NoDup_snoc {A : Type} (l : list A) (x : A) :
  NoDup l -> ~ In x l -> NoDup (l ++ [x]).
Proof.
  induction l as [|y l IH]; simpl; intros Hnd Hx.
  - constructor; [intros []|constructor].
  - inversion Hnd as [|? ? Hy Hl]; subst. constructor.
    + rewrite in_app_iff. simpl. intros [Hin|[->|[]]]; [now apply Hy|].
      apply Hx. now left.
    + apply IH; [assumption|]. intros Hin. apply Hx. now right.
Qed.

Lemma update_tracking_keys (st : Py.str) (hid : Z) (d : Database.date)
    (db0 : Database.database) :
  map tracking_key (Database.habit_tracking
                      (Database.update_tracking st hid d db0))
  = map tracking_key (Database.habit_tracking db0).
Proof.
  unfold Database.update_tracking; simpl. rewrite map_map.
  apply map_ext. intros r. now destruct (Database.same_day hid d r).
Qed.

Lemma update_tracking_dates (st : Py.str) (hid : Z) (d : Database.date)
    (db0 : Database.database) :
  map Database.track_date (Database.habit_tracking
                             (Database.update_tracking st hid d db0))
  = map Database.track_date (Database.habit_tracking db0).
Proof.
  unfold Database.update_tracking; simpl. rewrite map_map.
  apply map_ext. intros r. now destruct (Database.same_day hid d r).
Qed.

Lemma Forall_dates (today : Database.date)
    (rows : list Database.tracking_row) :
  Forall (fun r => Database.track_date r <= today) rows
  <-> Forall (fun t => t <= today) (map Database.track_date rows).
Proof.
  rewrite !Forall_forall. split.
  - intros H t Ht. apply in_map_iff in Ht as (r & <- & Hr). now apply H.
  - intros H r Hr. apply H. now apply in_map.
Qed.

(** An id that cannot be bound: nothing is written. *)
Lemma track_habit_unbound (today : Database.date) (hid : Z) (st : Py.str)
    (d : Database.database) :
  Database.sqlite_int hid = false ->
  Database.track_habit today hid st d = (d, false).
Proof.
  intros Hb. unfold Database.track_habit, Database.insert_tracking.
  now rewrite Hb.
Qed.

Lemma well_formed_track (today : Database.date) (hid : Z) (st : Py.str)
    (d : Database.database) :
  well_formed today d ->
  well_formed today (fst (Database.track_habit today hid st d)).
Proof.
  destruct (Database.sqlite_int hid) eqn:Hb;
    [|now rewrite track_habit_unbound].
  intros [Hnd Hle]. unfold Database.track_habit, Database.insert_tracking.
  rewrite Hb. cbn [negb].
  destruct (existsb (Database.same_day hid today) (Database.habit_tracking d))
    eqn:E; simpl.
  - split.
    + change (NoDup (map tracking_key
                 (Database.habit_tracking
                    (Database.update_tracking st hid today d)))).
      now rewrite update_tracking_keys.
    + apply Forall_dates.
      change (Forall (fun t => t <= today)
                (map Database.track_date
                   (Database.habit_tracking
                      (Database.update_tracking st hid today d)))).
      rewrite update_tracking_dates. now apply Forall_dates.
  - split; simpl.
    + rewrite map_app. simpl. apply NoDup_snoc; [assumption|].
      now apply no_same_day.
    + apply Forall_app. split; [assumption|].
      constructor; [simpl; lia | constructor].
Qed.

Lemma well_formed_later (today today' : Database.date)
    (d : Database.database) :
  well_formed today d -> today <= today' -> well_formed today' d.
Proof.
  intros [Hnd Hle] Hlt. split; [assumption|].
  eapply Forall_impl; [|exact Hle]. simpl; intros; lia.
Qed.

Lemma reachable_well_formed (today : Database.date) (d : Database.database) :
  reachable today d -> well_formed today d.
Proof.
  induction 1 as [today|today c d _ IH|today today' d _ IH Hle].
  - split; simpl; constructor.
  - destruct c as [admin uid uname fname lname|uid name description|hid st];
      simpl.
    + exact IH.
    + exact IH.
    + now apply well_formed_track.
  - now apply well_formed_later with today.
Qed.

(** ** The loop of [get_streak] is the backward scan *)

Lemma scan_records_skip (n : nat) (p : Database.date * Py.str)
    (rest : list (Database.date * Py.str)) (d : Database.date) :
  d < fst p -> scan_records n (p :: rest) d = scan_records n rest d.
Proof.
  destruct p as [pd ps]. simpl. revert d.
  induction n as [|n IH]; intros d Hd; simpl; [reflexivity|].
  destruct (pd =? d) eqn:E; [apply Z.eqb_eq in E; lia|].
  destruct (find (fun q => fst q =? d) rest) as [[rd st]|]; [|reflexivity].
  destruct (Py.str_eqb st Database.completed); [|reflexivity].
  now rewrite IH by lia.
Qed.

Lemma streak_loop_scan (records : list (Database.date * Py.str)) :
  descending fst records ->
  forall (d : Database.date) (acc : Z),
    Forall (fun p => fst p <= d) records ->
    Database.streak_loop records d acc
    = acc + scan_records (List.length records) records d.
Proof.
  induction 1 as [|[rd st] rest Hlt Hdesc IH]; intros d acc Hle.
  - simpl. lia.
  - inversion Hle as [|? ? Hrd Hrest]; subst. simpl in Hrd, Hlt.
    cbn [Database.streak_loop List.length scan_records find fst].
    destruct (rd =? d) eqn:E.
    + apply Z.eqb_eq in E. subst rd.
      destruct (Py.str_eqb st Database.completed) eqn:C; simpl.
      * rewrite scan_records_skip by (simpl; lia).
        rewrite IH; [lia|].
        eapply Forall_impl; [|exact Hlt]. simpl; intros; lia.
      * lia.
    + apply Z.eqb_neq in E. rewrite andb_false_r. simpl.
      rewrite (find_by_key_none fst rest d); [lia|].
      intros y Hy. rewrite Forall_forall in Hlt. specialize (Hlt y Hy). lia.
Qed.

Lemma descending_NoDup {A : Type} (key : A -> Z) (l : list A) :
  descending key l -> NoDup (map key l).
Proof.
  induction 1 as [|x l Hlt _ IH]; simpl; constructor; [|assumption].
  intros Hin. apply in_map_iff in Hin as (y & Hk & Hy).
  rewrite Forall_forall in Hlt. specialize (Hlt y Hy). lia.
Qed.

Lemma records_of_dates_NoDup (hid : Z) (rows : list Database.tracking_row) :
  NoDup (map tracking_key rows) ->
  NoDup (map Database.track_date
           (filter (fun r => Database.track_habit_id r =? hid) rows)).
Proof.
  induction rows as [|r rows IH]; simpl; intros Hnd; [constructor|].
  inversion Hnd as [|? ? Hr Hrows]; subst.
  destruct (Database.track_habit_id r =? hid) eqn:E; [|now apply IH].
  simpl. constructor; [|now apply IH].
  intros Hin. apply in_map_iff in Hin as (r' & Hd & Hr').
  apply filter_In in Hr' as [Hr' E']. apply Hr.
  apply in_map_iff. exists r'. split; [|assumption].
  apply Z.eqb_eq in E, E'. unfold tracking_key. congruence.
Qed.

Lemma select_records_descending (today : Database.date) (hid : Z)
    (d : Database.database) :
  well_formed today d -> descending fst (Database.select_records hid d).
Proof.
  intros [Hnd _]. unfold Database.select_records.
  apply descending_order_by. rewrite map_map. simpl.
  now apply records_of_dates_NoDup.
Qed.

Lemma In_select_records (hid : Z) (d : Database.database)
    (p : Database.date * Py.str) :
  In p (Database.select_records hid d) <->
  exists r, In r (Database.habit_tracking d)
            /\ Database.track_habit_id r = hid
            /\ p = (Database.track_date r, Database.status r).
Proof.
  unfold Database.select_records.
  rewrite In_order_by_desc, in_map_iff. split.
  - intros (r & <- & Hr). apply filter_In in Hr as [Hr E].
    apply Z.eqb_eq in E. eauto.
  - intros (r & Hr & E & ->). exists r. split; [reflexivity|].
    apply filter_In. split; [assumption|]. now apply Z.eqb_eq.
Qed.

Lemma select_records_not_later (today : Database.date) (hid : Z)
    (d : Database.database) :
  well_formed today d ->
  Forall (fun p => fst p <= today) (Database.select_records hid d).
Proof.
  intros [_ Hle]. apply Forall_forall. intros p Hp.
  apply In_select_records in Hp as (r & Hr & _ & ->). simpl.
  rewrite Forall_forall in Hle. now apply Hle.
Qed.

Lemma length_select_records (hid : Z) (d : Database.database) :
  List.length (Database.select_records hid d)
  = List.length (Spec.records_of hid d).
Proof.
  unfold Database.select_records, Spec.records_of.
  now rewrite length_order_by_desc, length_map.
Qed.

(** The status query and the fetched list agree on every date. *)
Lemma select_status_records (today : Database.date) (hid : Z)
    (date : Database.date) (d : Database.database) :
  well_formed today d ->
  Database.select_status hid date d
  = match find (fun p => fst p =? date) (Database.select_records hid d) with
    | Some (_, st) => Some st
    | None => None
    end.
Proof.
  intros Hwf. unfold Database.select_status.
  destruct (find (Database.same_day hid date) (Database.habit_tracking d))
    as [r|] eqn:F.
  - apply find_some in F as [Hr Hsame].
    apply tracking_key_same_day in Hsame. injection Hsame as Hh Hd.
    pose proof (select_records_descending today hid d Hwf) as Hdesc.
    apply descending_NoDup in Hdesc.
    assert (In (Database.track_date r, Database.status r)
              (Database.select_records hid d)) as Hin.
    { apply In_select_records. eauto. }
    pose proof (find_by_key fst _ _ Hdesc Hin) as Hf. simpl in Hf.
    rewrite Hd in Hf. now rewrite Hf.
  - rewrite (find_by_key_none fst); [reflexivity|].
    intros p Hp Hdate. apply In_select_records in Hp as (r & Hr & Hh & ->).
    simpl in Hdate. pose proof (find_none _ _ F r Hr) as Hn.
    assert (Database.same_day hid date r = true) as Ht.
    { apply tracking_key_same_day. unfold tracking_key. congruence. }
    congruence.
Qed.

Lemma backward_scan_records (today : Database.date) (hid : Z)
    (d : Database.database) :
  well_formed today d ->
  forall (n : nat) (date : Database.date),
    Spec.backward_scan n hid date d
    = scan_records n (Database.select_records hid d) date.
Proof.
  intros Hwf. induction n as [|n IH]; intros date; simpl; [reflexivity|].
  rewrite (select_status_records today) by assumption.
  destruct (find (fun p => fst p =? date) (Database.select_records hid d))
    as [[rd st]|]; [|reflexivity].
  destruct (Py.str_eqb st Database.completed); [|reflexivity].
  now rewrite IH.
Qed.

Lemma get_streak_loop (today : Database.date) (hid : Z)
    (d : Database.database) :
  Database.get_streak today hid d
  = Database.streak_loop (Database.select_records hid d) today 0.
Proof.
  unfold Database.get_streak.
  now destruct (Database.select_records hid d).
Qed.

Lemma get_streak_well_formed (today : Database.date) (hid : Z)
    (d : Database.database) :
  well_formed today d ->
  Database.get_streak today hid d = Spec.current_streak today hid d.
Proof.
  intros Hwf. rewrite get_streak_loop.
  rewrite streak_loop_scan.
  - unfold Spec.current_streak.
    rewrite (backward_scan_records today) by assumption.
    rewrite length_select_records. lia.
  - now apply select_records_descending with today.
  - now apply select_records_not_later.
Qed.

(** ** A run of completed days *)

Lemma select_status_In (hid : Z) (date : Database.date)
    (d : Database.database) (st : Py.str) :
  Database.select_status hid date d = Some st ->
  In date (map Database.track_date (Spec.records_of hid d)).
Proof.
  unfold Database.select_status.
  destruct (find (Database.same_day hid date) (Database.habit_tracking d))
    as [r|] eqn:F; [|discriminate].
  intros _. apply find_some in F as [Hr Hsame].
  apply tracking_key_same_day in Hsame. injection Hsame as Hh Hd.
  apply in_map_iff. exists r. split; [assumption|].
  apply filter_In. split; [assumption|]. now apply Z.eqb_eq.
Qed.

Lemma days_back_NoDup (today : Database.date) (n : nat) :
  forall a : nat,
    NoDup (map (fun k => today - Z.of_nat k) (seq a n)).
Proof.
  induction n as [|n IH]; intros a; simpl; constructor; [|apply IH].
  intros Hin. apply in_map_iff in Hin as (k & Hk & Hin).
  apply in_seq in Hin. lia.
Qed.

(** Distinct days need distinct records. *)
Lemma run_has_records (today : Database.date) (hid : Z)
    (d : Database.database) (N : nat) :
  (forall k : nat, (k <= N)%nat ->
     Database.select_status hid (today - Z.of_nat k) d
     = Some Database.completed) ->
  (N < List.length (Spec.records_of hid d))%nat.
Proof.
  intros Hrun.
  set (days := map (fun k => today - Z.of_nat k) (seq 0 (S N))).
  assert (NoDup days) as Hnd.
  { apply days_back_NoDup. }
  assert (incl days (map Database.track_date (Spec.records_of hid d))) as Hin.
  { intros t Ht. apply in_map_iff in Ht as (k & <- & Hk).
    apply in_seq in Hk. apply select_status_In with Database.completed.
    apply Hrun. lia. }
  pose proof (NoDup_incl_length Hnd Hin) as Hlen.
  unfold days in Hlen. rewrite !length_map, length_seq in Hlen. lia.
Qed.

Lemma backward_scan_nonneg (n : nat) (hid : Z) (date : Database.date)
    (d : Database.database) :
  0 <= Spec.backward_scan n hid date d.
Proof.
  revert date. induction n as [|n IH]; intros date; simpl; [lia|].
  destruct (Database.select_status hid date d) as [st|]; [|lia].
  destruct (Py.str_eqb st Database.completed); [|lia].
  specialize (IH (date - 1)). lia.
Qed.

Lemma backward_scan_stop (n : nat) (hid : Z) (date : Database.date)
    (d : Database.database) :
  Database.select_status hid date d <> Some Database.completed ->
  Spec.backward_scan n hid date d = 0.
Proof.
  intros Hno. destruct n as [|n]; simpl; [reflexivity|].
  destruct (Database.select_status hid date d) as [st|]; [|reflexivity].
  destruct (Py.str_eqb st Database.completed) eqn:E; [|reflexivity].
  apply str_eqb_eq in E. subst. now elim Hno.
Qed.

Lemma backward_scan_run (N : nat) :
  forall (fuel : nat) (hid : Z) (date : Database.date)
         (d : Database.database),
    (N < fuel)%nat ->
    (forall k : nat, (k <= N)%nat ->
       Database.select_status hid (date - Z.of_nat k) d
       = Some Database.completed) ->
    Spec.backward_scan fuel hid date d
    = Z.of_nat N + 1
      + Spec.backward_scan (fuel - N - 1) hid (date - Z.of_nat N - 1) d.
Proof.
  induction N as [|N IH]; intros fuel hid date d Hfuel Hrun;
    (destruct fuel as [|fuel]; [lia|]); cbn [Spec.backward_scan].
  - pose proof (Hrun 0%nat (Nat.le_refl _)) as H0.
    rewrite Z.sub_0_r in H0. rewrite H0, str_eqb_refl.
    rewrite Nat.sub_0_r. replace (S fuel - 1)%nat with fuel by lia.
    rewrite Z.sub_0_r. lia.
  - pose proof (Hrun 0%nat (Nat.le_0_l _)) as H0.
    rewrite Z.sub_0_r in H0. rewrite H0, str_eqb_refl.
    rewrite (IH fuel hid (date - 1) d) by
      (try lia; intros k Hk;
       replace (date - 1 - Z.of_nat k) with (date - Z.of_nat (S k)) by lia;
       apply Hrun; lia).
    replace (S fuel - S N - 1)%nat with (fuel - N - 1)%nat by lia.
    replace (date - 1 - Z.of_nat N - 1) with (date - Z.of_nat (S N) - 1)
      by lia.
    lia.
Qed.

Lemma reachable_three_days : reachable 102 three_days.
Proof.
  unfold three_days.
  apply reachable_call. apply reachable_later with 101; [|lia].
  apply reachable_call. apply reachable_later with 100; [|lia].
  apply reachable_call. apply reachable_init.
Qed.

(** C1.  On every reachable database, [get_streak] is the backward scan of
    the specification: from today, one is counted for each expected date
    that has a record with status "completed", and a "missed" record, a gap
    or the end of the records stop the scan.  A habit without records has
    streak 0; when today and the [N] days before it are all completed the
    streak is at least [N + 1], and exactly [N + 1] when the day before
    that run is not completed. *)
Theorem get_streak_backward_scan :
  forall (today : Database.date) (d : Database.database) (hid : Z),
    reachable today d ->
    Database.get_streak today hid d = Spec.current_streak today hid d
    /\ (Spec.records_of hid d = [] -> Database.get_streak today hid d = 0)
    /\ (forall N : nat,
          (forall k : nat, (k <= N)%nat ->
             Database.select_status hid (today - Z.of_nat k) d
             = Some Database.completed) ->
          Z.of_nat N + 1 <= Database.get_streak today hid d
          /\ (Database.select_status hid (today - Z.of_nat N - 1) d
              <> Some Database.completed ->
              Database.get_streak today hid d = Z.of_nat N + 1)).
Proof.
  intros today d hid Hreach.
  pose proof (reachable_well_formed today d Hreach) as Hwf.
  pose proof (get_streak_well_formed today hid d Hwf) as Heq.
  split; [exact Heq|]. split.
  - intros Hnone. rewrite Heq. unfold Spec.current_streak.
    now rewrite Hnone.
  - intros N Hrun. rewrite Heq. unfold Spec.current_streak.
    pose proof (run_has_records today hid d N Hrun) as Hlen.
    rewrite (backward_scan_run N) by assumption.
    split.
    + pose proof (backward_scan_nonneg
                    (List.length (Spec.records_of hid d) - N - 1) hid
                    (today - Z.of_nat N - 1) d). lia.
    + intros Hstop. rewrite backward_scan_stop by assumption. lia.
Qed.

Lemma get_streak_backward_scan_witness :
  reachable 102 three_days
  /\ Database.get_streak 102 1 three_days
     = Spec.current_streak 102 1 three_days
  /\ Database.get_streak 102 1 three_days = 3.
Proof.
  split; [exact reachable_three_days|].
  destruct (get_streak_backward_scan 102 three_days 1 reachable_three_days)
    as (Heq & _ & Hrun).
  split; [exact Heq|].
  apply (Hrun 2%nat).
  - intros k Hk.
    destruct k as [|[|[|k]]]; [reflexivity | reflexivity | reflexivity | lia].
  - vm_compute. discriminate.
Defined.

(** ** Marking a habit is an upsert *)

Lemma existsb_find {A : Type} (f : A -> bool) (l : list A) :
  existsb f l = match find f l with Some _ => true | None => false end.
Proof.
  induction l as [|x l IH]; simpl; [reflexivity|].
  now destruct (f x).
Qed.

Lemma find_snoc {A : Type} (f : A -> bool) (l : list A) (x : A) :
  find f (l ++ [x])
  = match find f l with
    | Some y => Some y
    | None => if f x then Some x else None
    end.
Proof.
  induction l as [|y l IH]; simpl; [reflexivity|].
  now destruct (f y).
Qed.

Lemma filter_same_day_unique (hid : Z) (date : Database.date)
    (rows : list Database.tracking_row) :
  NoDup (map tracking_key rows) ->
  (List.length (filter (Database.same_day hid date) rows) <= 1)%nat.
Proof.
  induction rows as [|r rows IH]; simpl; intros Hnd; [lia|].
  inversion Hnd as [|? ? Hr Hrows]; subst.
  destruct (Database.same_day hid date r) eqn:E; [|now apply IH].
  destruct (filter (Database.same_day hid date) rows) as [|r' rest] eqn:F;
    [simpl; lia|].
  exfalso. apply Hr.
  assert (In r' (filter (Database.same_day hid date) rows)) as Hin
      by (rewrite F; now left).
  apply filter_In in Hin as [Hin E'].
  apply tracking_key_same_day in E, E'. rewrite E, <- E'. now apply in_map.
Qed.

(** The status query after the UPDATE of [track_habit]. *)
Lemma select_status_update (st : Py.str) (hid : Z) (today : Database.date)
    (d : Database.database) (h : Z) (date : Database.date) :
  Database.select_status h date (Database.update_tracking st hid today d)
  = match Database.select_status h date d with
    | Some old => Some (if (h =? hid) && (date =? today) then st else old)
    | None => None
    end.
Proof.
  unfold Database.select_status, Database.update_tracking; simpl.
  induction (Database.habit_tracking d) as [|r rows IH]; simpl;
    [reflexivity|].
  destruct (Database.same_day hid today r) eqn:U;
    unfold Database.same_day at 1; simpl;
    fold (Database.same_day h date r);
    destruct (Database.same_day h date r) eqn:S; try exact IH; simpl.
  - apply tracking_key_same_day in U, S. rewrite U in S.
    injection S as -> ->. now rewrite !Z.eqb_refl.
  - destruct ((h =? hid) && (date =? today)) eqn:K; [|reflexivity].
    apply andb_true_iff in K as [K1 K2].
    apply Z.eqb_eq in K1, K2. subst.
    congruence.
Qed.

(** The status query after the INSERT of [track_habit]. *)
Lemma select_status_insert (st : Py.str) (hid : Z) (today : Database.date)
    (d d' : Database.database) (h : Z) (date : Database.date) :
  Database.insert_tracking hid today st d = Ok d' ->
  Database.select_status h date d'
  = if (h =? hid) && (date =? today) then Some st
    else Database.select_status h date d.
Proof.
  unfold Database.insert_tracking.
  destruct (Database.sqlite_int hid); cbn [negb]; [|discriminate].
  destruct (existsb (Database.same_day hid today) (Database.habit_tracking d))
    eqn:E; [discriminate|].
  intros [= <-]. unfold Database.select_status; simpl.
  rewrite find_snoc. unfold Database.same_day at 2; simpl.
  rewrite existsb_find in E.
  rewrite (Z.eqb_sym hid h), (Z.eqb_sym today date).
  destruct ((h =? hid) && (date =? today)) eqn:K.
  - apply andb_true_iff in K as [K1 K2]. apply Z.eqb_eq in K1, K2. subst.
    now destruct (find (Database.same_day hid today)
                    (Database.habit_tracking d)).
  - now destruct (find (Database.same_day h date) (Database.habit_tracking d)).
Qed.

(** What [track_habit] returns and what the status query sees after it. *)
Lemma track_habit_status (today : Database.date) (hid : Z) (st : Py.str)
    (d : Database.database) :
  Database.sqlite_int hid = true ->
  snd (Database.track_habit today hid st d)
  = match Database.select_status hid today d with
    | Some _ => false
    | None => true
    end
  /\ forall (h : Z) (date : Database.date),
       Database.select_status h date (fst (Database.track_habit today hid st d))
       = if (h =? hid) && (date =? today) then Some st
         else Database.select_status h date d.
Proof.
  intros Hb. unfold Database.track_habit.
  destruct (Database.insert_tracking hid today st d) as [d'|x] eqn:I.
  - split.
    + unfold Database.insert_tracking in I. rewrite Hb in I.
      cbn [negb] in I.
      rewrite existsb_find in I. unfold Database.select_status.
      now destruct (find (Database.same_day hid today)
                      (Database.habit_tracking d)).
    + intros h date. simpl. now apply select_status_insert.
  - unfold Database.insert_tracking in I. rewrite Hb in I. cbn [negb] in I.
    destruct (existsb (Database.same_day hid today)
                (Database.habit_tracking d)) eqn:E; [|discriminate].
    injection I as <-. simpl.
    rewrite existsb_find in E. unfold Database.select_status at 1.
    destruct (find (Database.same_day hid today) (Database.habit_tracking d))
      as [r|] eqn:F; [|discriminate].
    split; [reflexivity|].
    intros h date. rewrite select_status_update.
    destruct ((h =? hid) && (date =? today)) eqn:K.
    + apply andb_true_iff in K as [K1 K2]. apply Z.eqb_eq in K1, K2. subst.
      unfold Database.select_status. now rewrite F.
    + now destruct (Database.select_status h date d).
Qed.

Lemma find_filter_length {A : Type} (f : A -> bool) (l : list A) (x : A) :
  find f l = Some x -> (1 <= List.length (filter f l))%nat.
Proof.
  induction l as [|y l IH]; simpl; [discriminate|].
  destruct (f y); simpl; [lia | exact IH].
Qed.

Lemma reachable_unique (today : Database.date) (d : Database.database)
    (hid : Z) (date : Database.date) :
  reachable today d ->
  (List.length (filter (Database.same_day hid date)
                  (Database.habit_tracking d)) <= 1)%nat.
Proof.
  intros Hreach. apply filter_same_day_unique.
  now apply (reachable_well_formed today d).
Qed.

(** C2.  On every reachable database there is at most one tracking record
    for a habit and a date.  For every id that SQLite can hold (64 bits,
    as every habit id is), [track_habit] writes under the date of the
    call and nowhere else; it returns true exactly when the habit had no
    record for that date; [get_today_status] then gives the status just
    written; a second mark on the same day returns false, replaces the
    status and leaves exactly one record for the day.  An id outside that
    range names no habit: binding it fails, [track_habit] returns false
    and the database stays as it was. *)
Theorem track_habit_upsert :
  forall (today : Database.date) (d : Database.database) (hid : Z)
         (st : Py.str),
    reachable today d ->
    Database.sqlite_int hid = true ->
    let d' := fst (Database.track_habit today hid st d) in
    let fresh := snd (Database.track_habit today hid st d) in
    (forall (h : Z) (date : Database.date),
       (List.length (filter (Database.same_day h date)
                       (Database.habit_tracking d)) <= 1)%nat
       /\ (List.length (filter (Database.same_day h date)
                          (Database.habit_tracking d')) <= 1)%nat)
    /\ (forall (h : Z) (date : Database.date),
          Database.select_status h date d'
          = if (h =? hid) && (date =? today) then Some st
            else Database.select_status h date d)
    /\ Database.get_today_status today hid d' = Some st
    /\ (fresh = true <-> Database.select_status hid today d = None)
    /\ (forall st2 : Py.str,
          let d'' := fst (Database.track_habit today hid st2 d') in
          snd (Database.track_habit today hid st2 d') = false
          /\ Database.get_today_status today hid d'' = Some st2
          /\ List.length (filter (Database.same_day hid today)
                            (Database.habit_tracking d'')) = 1%nat)
    /\ (forall unbound : Z,
          Database.sqlite_int unbound = false ->
          Database.track_habit today unbound st d = (d, false)).
Proof.
  intros today d hid st Hreach Hb d' fresh.
  assert (reachable today d') as Hreach'
      by (apply (reachable_call today (call_track_habit hid st) d Hreach)).
  destruct (track_habit_status today hid st d Hb) as [Hfresh Hsel].
  fold d' in Hsel. fold fresh in Hfresh.
  assert (Database.get_today_status today hid d' = Some st) as Htoday.
  { unfold Database.get_today_status. rewrite Hsel.
    now rewrite !Z.eqb_refl. }
  split; [|split; [|split; [|split; [|split]]]];
    [| | | | |intros unbound; apply track_habit_unbound].
  - intros h date. split; now apply reachable_unique with today.
  - exact Hsel.
  - exact Htoday.
  - rewrite Hfresh.
    destruct (Database.select_status hid today d); split; congruence.
  - intros st2 d''.
    destruct (track_habit_status today hid st2 d' Hb) as [Hfresh2 Hsel2].
    fold d'' in Hsel2.
    assert (Database.get_today_status today hid d'' = Some st2) as Htoday2.
    { unfold Database.get_today_status. rewrite Hsel2.
      now rewrite !Z.eqb_refl. }
    split; [|split].
    + rewrite Hfresh2. unfold Database.get_today_status in Htoday.
      now rewrite Htoday.
    + exact Htoday2.
    + assert (reachable today d'') as Hreach''
          by (apply (reachable_call today (call_track_habit hid st2) d'
                       Hreach')).
      pose proof (reachable_unique today d'' hid today Hreach'') as Hle.
      unfold Database.get_today_status, Database.select_status in Htoday2.
      destruct (find (Database.same_day hid today)
                  (Database.habit_tracking d'')) as [r|] eqn:F;
        [|discriminate].
      apply find_filter_length in F. lia.
Qed.

Lemma track_habit_upsert_witness :
  reachable 102 three_days
  /\ Database.sqlite_int 1 = true
  /\ snd (Database.track_habit 102 1 Database.missed three_days) = false
  /\ Database.get_today_status 102 1
       (fst (Database.track_habit 102 1 Database.missed three_days))
     = Some Database.missed
  /\ Database.track_habit 102 (2 ^ 63) Database.missed three_days
     = (three_days, false).
Proof.
  split; [exact reachable_three_days|]. split; [reflexivity|].
  destruct (track_habit_upsert 102 three_days 1 Database.missed
              reachable_three_days eq_refl)
    as (_ & _ & Htoday & Hfresh & _ & Hunbound).
  split; [|split; [exact Htoday | now apply Hunbound]].
  destruct (snd (Database.track_habit 102 1 Database.missed three_days))
    eqn:E; [|reflexivity].
  destruct Hfresh as [Hfresh _]. specialize (Hfresh eq_refl).
  vm_compute in Hfresh. discriminate.
Defined.

(** ** The broadcast *)

Lemma deliveries_app (l1 l2 : list effect) :
  deliveries (l1 ++ l2) = deliveries l1 ++ deliveries l2.
Proof. unfold deliveries. apply flat_map_app. Qed.

Lemma bot_eta (b : bot) : mk_bot (db b) (sessions b) (sent b ++ []) = b.
Proof. destruct b; simpl. now rewrite app_nil_r. Qed.

(** The loop never stops early: it leaves the database and the sessions
    alone, attempts every recipient in order and counts each outcome. *)
Lemma broadcast_loop_spec (e : env) (total_users : Z)
    (users : list Database.user_row) :
  forall (i success_count fail_count : Z) (b : bot),
    let outcomes := map (outcome e) (enumerate i users) in
    exists effects,
      broadcast_loop e users i total_users success_count fail_count b
      = (Ok (success_count + succeeded outcomes,
             fail_count + failed outcomes),
         mk_bot (db b) (sessions b) (sent b ++ effects))
      /\ deliveries effects = outcomes.
Proof.
  induction users as [|user rest IH]; intros i s f b; cbv zeta;
    cbn [enumerate map broadcast_loop].
  - exists []. unfold ret, succeeded, failed, Py.len; simpl.
    rewrite bot_eta, !Z.add_0_r. auto.
  - change (outcome e (i, user))
      with (Database.user_id user, delivers e i (Database.user_id user)).
    set (chat_id := Database.user_id user).
    set (ok := delivers e i chat_id).
    set (s' := if ok then s + 1 else s).
    set (f' := if ok then f else f + 1).
    set (progress := if i mod 10 =? 0
                     then [edit_text (broadcast_progress total_users i s' f')]
                     else []).
    set (b1 := mk_bot (db b) (sessions b)
                 (sent b ++ copy_message chat_id ok :: progress)).
    destruct (IH (i + 1) s' f' b1) as (effects & Hloop & Hdel).
    exists (copy_message chat_id ok :: progress ++ effects).
    split.
    + unfold bind at 1. unfold send at 1. cbn [db sessions sent].
      unfold bind at 1.
      assert ((if i mod 10 =? 0
               then send (edit_text (broadcast_progress total_users i s' f'))
               else ret tt)
                (mk_bot (db b) (sessions b)
                   (sent b ++ [copy_message chat_id ok]))
              = (Ok tt, b1)) as Hstep.
      { unfold b1, progress. destruct (i mod 10 =? 0).
        - unfold send; simpl. now rewrite <- app_assoc.
        - reflexivity. }
      rewrite Hstep, Hloop. unfold b1; cbn [db sessions sent].
      rewrite <- !app_assoc. cbn [app].
      unfold succeeded, failed, Py.len, s', f'. cbn [filter snd].
      destruct ok; cbn [negb List.length]; rewrite ?Nat2Z.inj_succ;
        (f_equal; f_equal; f_equal; lia).
    + change (copy_message chat_id ok :: progress ++ effects)
        with ([copy_message chat_id ok] ++ progress ++ effects).
      rewrite !deliveries_app, Hdel. unfold progress.
      now destruct (i mod 10 =? 0).
Qed.

Lemma length_enumerate {A : Type} (l : list A) :
  forall i : Z, List.length (enumerate i l) = List.length l.
Proof.
  induction l as [|x l IH]; intros i; simpl; [reflexivity|].
  now rewrite IH.
Qed.

Lemma outcome_recipients (e : env) (users : list Database.user_row) :
  forall i : Z,
    map fst (map (outcome e) (enumerate i users))
    = map Database.user_id users.
Proof.
  induction users as [|u users IH]; intros i; simpl; [reflexivity|].
  now rewrite IH.
Qed.

Lemma succeeded_failed (outcomes : list (Z * bool)) :
  succeeded outcomes + failed outcomes = Py.len outcomes.
Proof.
  unfold succeeded, failed, Py.len.
  induction outcomes as [|[c ok] l IH]; simpl; [reflexivity|].
  destruct ok; simpl; rewrite ?Nat2Z.inj_succ; lia.
Qed.

Lemma not_cancel (t : option Py.str) :
  t <> Some (Py.lit "/cancel") ->
  match t with
  | Some t' => Py.str_eqb t' (Py.lit "/cancel")
  | None => false
  end = false.
Proof.
  intros Hne. destruct t as [t|]; [|reflexivity].
  destruct (Py.str_eqb t (Py.lit "/cancel")) eqn:E; [|reflexivity].
  apply str_eqb_eq in E. subst. now elim Hne.
Qed.

(** An empty list of recipients stops the summary, whatever the counts. *)
Lemma broadcast_summary_no_recipients (success_count fail_count : Z) :
  broadcast_summary 0 success_count fail_count = Raise ZeroDivisionError.
Proof. reflexivity. Qed.

Lemma broadcast_empty_raises (e : env) (m : message) (b : bot) :
  is_admin e (id (from_user m)) = true ->
  text m <> Some (Py.lit "/cancel") ->
  Database.get_all_users (db b) = [] ->
  process_broadcast_message e m b
  = (Raise ZeroDivisionError,
     mk_bot (db b) (sessions b)
       (sent b ++ [message_answer sample_start_empty])).
Proof.
  intros Hadmin Htext Hnone. unfold process_broadcast_message.
  rewrite Hadmin, (not_cancel _ Htext). cbn [negb].
  unfold bind at 1. unfold query at 1. rewrite Hnone.
  vm_compute. reflexivity.
Qed.

(** The text of the summary: the number of recipients, the two counts and
    their quotient as a percentage with one decimal. *)
Lemma broadcast_summary_report (total_users success_count fail_count : Z) :
  broadcast_summary total_users success_count fail_count
  = match Py.truediv success_count total_users with
    | Ok ratio =>
        Ok (Spec.summary_report total_users success_count fail_count
              (Py.format_1f (PrimFloat.mul ratio (Py.float_of_int 100))))
    | Raise x => Raise x
    end.
Proof.
  unfold broadcast_summary, Spec.summary_report.
  now destruct (Py.truediv success_count total_users).
Qed.

(** C4, which the code meets for every list but the empty one.  For every
    list of recipients and every pattern of failing deliveries, an
    administrator's broadcast attempts one delivery per recipient, in list
    order, whatever the outcome of the deliveries before it; each outcome
    is counted, the attempts are as many as the list is long and succeeded
    plus failed is that number.  Over a list that is not empty the handler
    returns and its last word is the summary that shows the length of the
    list, the two counts and the quotient of succeeded by attempted as a
    percentage with one decimal.  Over the empty list that quotient
    divides by zero: the handler raises and no summary is sent, the defect
    of C3. *)
Theorem broadcast_isolates_failures :
  forall (e : env) (m : message) (b : bot),
    is_admin e (id (from_user m)) = true ->
    text m <> Some (Py.lit "/cancel") ->
    let users := Database.get_all_users (db b) in
    let outcomes := map (outcome e) (enumerate 1 users) in
    let attempted := Py.len users in
    let b' := snd (process_broadcast_message e m b) in
    deliveries (sent b') = deliveries (sent b) ++ outcomes
    /\ map fst outcomes = map Database.user_id users
    /\ Py.len outcomes = attempted
    /\ succeeded outcomes + failed outcomes = attempted
    /\ (users <> [] ->
        fst (process_broadcast_message e m b) = Ok tt
        /\ exists (progress : list effect) (ratio : float),
             Py.truediv (succeeded outcomes) attempted = Ok ratio
             /\ sent b'
                = sent b ++ progress
                  ++ [edit_text
                        (Spec.summary_report attempted (succeeded outcomes)
                           (failed outcomes)
                           (Py.format_1f
                              (PrimFloat.mul ratio (Py.float_of_int 100))))])
    /\ (users = [] ->
        fst (process_broadcast_message e m b) = Raise ZeroDivisionError
        /\ sent b' = sent b ++ [message_answer sample_start_empty]).
Proof.
  intros e m b Hadmin Htext users outcomes attempted b'.
  set (summary := broadcast_summary (Py.len users) (succeeded outcomes)
                    (failed outcomes)).
  assert (succeeded outcomes + failed outcomes = Py.len users) as Hsum.
  { rewrite succeeded_failed. unfold outcomes, Py.len.
    now rewrite length_map, length_enumerate. }
  set (start := message_answer
         (Py.lit "📤 Начинаю рассылку..." ++ Py.nl
          ++ Py.lit "Всего получателей: " ++ Py.str_of_int (Py.len users)
          ++ Py.nl
          ++ Py.lit "Прогресс: 0/" ++ Py.str_of_int (Py.len users))).
  set (b0 := mk_bot (db b) (sessions b) (sent b ++ [start])).
  destruct (broadcast_loop_spec e (Py.len users) users 1 0 0 b0)
    as (effects & Hloop & Hdel).
  fold outcomes in Hloop, Hdel. rewrite !Z.add_0_l in Hloop.
  assert (process_broadcast_message e m b
          = match summary with
            | Ok report =>
                (Ok tt,
                 mk_bot (db b)
                   ((id (from_user m), idle) :: sessions b)
                   ((sent b ++ [start]) ++ effects ++ [edit_text report]))
            | Raise x =>
                (Raise x,
                 mk_bot (db b) (sessions b) ((sent b ++ [start]) ++ effects))
            end) as Hrun.
  { unfold process_broadcast_message. rewrite Hadmin, (not_cancel _ Htext).
    cbn [negb]. unfold bind at 1. unfold query at 1. fold users.
    unfold bind at 1. unfold send at 1. fold start. fold b0.
    unfold bind at 1. rewrite Hloop. unfold b0; cbn [db sessions sent].
    unfold bind at 1. unfold lift at 1. fold summary.
    destruct summary as [report|x]; [|reflexivity].
    unfold bind, send, state_clear, put_session; cbn [db sessions sent].
    now rewrite <- !app_assoc. }
  split; [|split; [apply outcome_recipients|]].
  2: split; [|split; [exact Hsum|split]].
  - unfold b'. rewrite Hrun.
    destruct summary; cbn [snd sent];
      rewrite !deliveries_app, Hdel; simpl; now rewrite !app_nil_r.
  - unfold outcomes, attempted, Py.len.
    now rewrite length_map, length_enumerate.
  - intros Husers.
    assert (exists ratio,
              Py.truediv (succeeded outcomes) attempted = Ok ratio)
      as [ratio Hratio].
    { unfold Py.truediv, attempted.
      destruct (Py.len users =? 0) eqn:E; [|eauto].
      apply Z.eqb_eq in E. unfold Py.len in E.
      destruct users; [now elim Husers | simpl in E; lia]. }
    unfold b'. rewrite Hrun. unfold summary.
    rewrite broadcast_summary_report. fold attempted. rewrite Hratio.
    cbn [fst snd sent]. split; [reflexivity|].
    exists ([start] ++ effects), ratio. split; [reflexivity|].
    now rewrite <- !app_assoc.
  - intros Hnone. unfold b'.
    rewrite (broadcast_empty_raises e m b Hadmin Htext Hnone).
    split; reflexivity.
Qed.

Lemma broadcast_isolates_failures_witness :
  is_admin sample_env (id (from_user hello)) = true
  /\ deliveries
       (sent (snd (process_broadcast_message sample_env hello three_users)))
     = deliveries (sent three_users) ++ [(1, true); (7, false); (8, true)]
  /\ fst (process_broadcast_message sample_env hello three_users) = Ok tt
  /\ (exists progress,
        sent (snd (process_broadcast_message sample_env hello three_users))
        = sent three_users ++ progress ++ [edit_text sample_summary])
  /\ fst (process_broadcast_message sample_env hello awaiting_broadcast)
     = Raise ZeroDivisionError.
Proof.
  assert (text hello <> Some (Py.lit "/cancel")) as Htext
      by (vm_compute; discriminate).
  assert (Database.get_all_users (db three_users) <> []) as Husers
      by (vm_compute; discriminate).
  assert (Database.get_all_users (db awaiting_broadcast) = []) as Hnone
      by (vm_compute; reflexivity).
  destruct (broadcast_isolates_failures sample_env hello awaiting_broadcast
              eq_refl Htext) as (_ & _ & _ & _ & _ & Hempty).
  destruct (Hempty Hnone) as (Hraise & _).
  destruct (broadcast_isolates_failures sample_env hello three_users
              eq_refl Htext) as (Hdel & _ & _ & _ & Hsummary & _).
  destruct (Hsummary Husers) as (Hok & progress & ratio & Hratio & Hsent).
  split; [reflexivity|]. split; [exact Hdel|]. split; [exact Hok|].
  split; [|exact Hraise].
  exists progress.
  assert (ratio
          = PrimFloat.div (Py.float_of_int 2) (Py.float_of_int 3)) as ->.
  { vm_compute in Hratio. injection Hratio as <-. vm_compute. reflexivity. }
  match type of Hsent with
  | _ = _ ++ _ ++ [edit_text ?r] =>
      assert (r = sample_summary) as Hreport by (vm_compute; reflexivity);
      rewrite Hreport in Hsent
  end.
  exact Hsent.
Defined.

(** C3, which the code does not meet.  With no user registered, the
    administrator's broadcast reaches the final summary, whose percentage
    divides by the number of recipients: the handler raises
    [ZeroDivisionError], no summary is sent after the first status message,
    and the session stays in the broadcast dialog. *)
Theorem broadcast_without_recipients_raises :
  route_message sample_env (state (get_session 1 awaiting_broadcast))
    (command_text hello)
  = Some H_process_broadcast_message
  /\ Database.get_all_users (db awaiting_broadcast) = []
  /\ (forall success_count fail_count : Z,
        broadcast_summary 0 success_count fail_count
        = Raise ZeroDivisionError)
  /\ fst (process_broadcast_message sample_env hello awaiting_broadcast)
     = Raise ZeroDivisionError
  /\ sent (snd (process_broadcast_message sample_env hello awaiting_broadcast))
     = sent awaiting_broadcast ++ [message_answer sample_start_empty]
  /\ state (get_session 1
              (snd (process_broadcast_message sample_env hello
                      awaiting_broadcast)))
     = Some waiting_for_message.
Proof.
  split; [vm_compute; reflexivity|].
  split; [vm_compute; reflexivity|].
  split; [exact broadcast_summary_no_recipients|].
  split; [vm_compute; reflexivity|].
  split; vm_compute; reflexivity.
Qed.

(** ** Routing of button payloads *)

Lemma startswith_app (prefix s : Py.str) :
  Py.startswith prefix s = true <-> exists rest, s = prefix ++ rest.
Proof.
  revert s. induction prefix as [|p prefix IH]; intros s; simpl.
  - split; [eauto | reflexivity].
  - destruct s as [|c s].
    + split; [discriminate | intros [rest H]; discriminate].
    + rewrite andb_true_iff, N.eqb_eq, IH. split.
      * intros [-> [rest ->]]. eauto.
      * intros [rest [= -> ->]]. eauto.
Qed.

Lemma split_nonempty (sep : N) (s : Py.str) :
  exists p ps, Py.split sep s = p :: ps.
Proof.
  induction s as [|c s (p & ps & IH)]; simpl; [eauto|].
  destruct (c =? sep)%N; [eauto|]. rewrite IH. eauto.
Qed.

(** A word without separator, then the separator: the word is the first
    part. *)
Lemma split_word (sep : N) (w rest : Py.str) :
  forallb (fun c => negb (c =? sep)%N) w = true ->
  Py.split sep (w ++ sep :: rest) = w :: Py.split sep rest.
Proof.
  induction w as [|c w IH]; simpl; intros Hw.
  - now rewrite N.eqb_refl.
  - apply andb_true_iff in Hw as [Hc Hw].
    apply negb_true_iff in Hc. rewrite Hc, IH by assumption. reflexivity.
Qed.

Lemma split_habit_stats (rest : Py.str) :
  exists p ps,
    Py.split Py.underscore (Py.lit "habit_stats_" ++ rest)
    = Py.lit "habit" :: Py.lit "stats" :: p :: ps.
Proof.
  destruct (split_nonempty Py.underscore rest) as (p & ps & Hrest).
  exists p, ps.
  change (Py.lit "habit_stats_" ++ rest)
    with (Py.lit "habit" ++ Py.underscore
            :: (Py.lit "stats" ++ Py.underscore :: rest)).
  rewrite split_word by reflexivity.
  rewrite split_word by reflexivity.
  now rewrite Hrest.
Qed.

(** The general handler acts on two parts only, the first being "habit". *)
Lemma plain_habit_payload_spec (parts : list Py.str) :
  plain_habit_payload parts = true
  <-> exists p, parts = [Py.lit "habit"; p].
Proof.
  unfold plain_habit_payload, Py.len. split.
  - intros H. apply andb_true_iff in H as [Hlen Hhead].
    apply Z.eqb_eq in Hlen.
    destruct parts as [|p0 [|p1 [|p2 parts]]]; simpl in Hlen; try lia.
    apply str_eqb_eq in Hhead. subst. eauto.
  - intros [p ->]. reflexivity.
Qed.

Lemma habit_detail_ignores (e : env) (c : callback_query) (b : bot) :
  plain_habit_payload (Py.split Py.underscore (data c)) = false ->
  callback_habit_detail e c b = (Ok tt, b).
Proof.
  intros Hguard. unfold callback_habit_detail.
  rewrite Hguard. reflexivity.
Qed.

(** C5.  A payload that starts with [habit_stats_] is routed to the
    statistics handler and not to the habit-detail handler: its filter is
    registered, and so tested, before the filter of the general prefix
    [habit_]; and the habit-detail handler, were it given such a payload,
    finds more than two parts and returns without doing anything. *)
Theorem habit_stats_routing :
  forall (e : env) (c : callback_query) (b : bot),
    Py.startswith (Py.lit "habit_stats_") (data c) = true ->
    route_callback (data c) = Some H_habit_stats
    /\ route_callback (data c) <> Some H_habit_detail
    /\ feed_update e (on_callback c) b = snd (callback_habit_stats e c b)
    /\ (exists before between after,
          callback_handlers
          = before
            ++ (data_startswith (Py.lit "habit_stats_"), H_habit_stats)
            :: between
            ++ (data_startswith (Py.lit "habit_"), H_habit_detail) :: after)
    /\ plain_habit_payload (Py.split Py.underscore (data c)) = false
    /\ callback_habit_detail e c b = (Ok tt, b).
Proof.
  intros e c b Hprefix.
  apply startswith_app in Hprefix as [rest Hdata].
  assert (route_callback (data c) = Some H_habit_stats) as Hroute
      by (rewrite Hdata; reflexivity).
  assert (plain_habit_payload (Py.split Py.underscore (data c)) = false)
    as Hguard.
  { rewrite Hdata. destruct (split_habit_stats rest) as (p & ps & ->).
    unfold plain_habit_payload, Py.len. cbn [List.length].
    apply andb_false_iff. left. apply Z.eqb_neq. lia. }
  split; [exact Hroute|]. split; [rewrite Hroute; discriminate|].
  split; [cbn [feed_update]; now rewrite Hroute|].
  split.
  - exists (firstn 5 callback_handlers),
      (firstn 2 (skipn 6 callback_handlers)), (skipn 9 callback_handlers).
    reflexivity.
  - split; [exact Hguard|]. now apply habit_detail_ignores.
Qed.

Lemma habit_stats_routing_witness :
  Py.startswith (Py.lit "habit_stats_") (Py.lit "habit_stats_42") = true
  /\ route_callback (Py.lit "habit_stats_42") = Some H_habit_stats
  /\ callback_habit_detail sample_env
       (mk_callback admin (Py.lit "habit_stats_42"))
       (start_bot Database.init_db)
     = (Ok tt, start_bot Database.init_db).
Proof.
  split; [reflexivity|].
  destruct (habit_stats_routing sample_env
              (mk_callback admin (Py.lit "habit_stats_42"))
              (start_bot Database.init_db) eq_refl)
    as (Hroute & _ & _ & _ & _ & Hdetail).
  split; [exact Hroute | exact Hdetail].
Defined.

(** ** The name of a new habit *)

Lemma length_lstrip (s : Py.str) :
  (List.length (Py.lstrip s) <= List.length s)%nat.
Proof.
  induction s as [|c s IH]; simpl; [lia|].
  destruct (Py.isspace c); simpl; lia.
Qed.

Lemma len_strip (s : Py.str) : Py.len (Py.strip s) <= Py.len s.
Proof.
  unfold Py.len, Py.strip, Py.rstrip. rewrite length_rev.
  pose proof (length_lstrip (rev (Py.lstrip s))) as H1.
  rewrite length_rev in H1. pose proof (length_lstrip s). lia.
Qed.

(** What [process_habit_name] does with a text message, by the length of
    the stripped name. *)
Lemma process_habit_name_cases (m : message) (t : Py.str) (b : bot) :
  text m = Some t ->
  let name := Py.strip t in
  let uid := id (from_user m) in
  (100 < Py.len name ->
   process_habit_name m b
   = (Ok tt,
      mk_bot (db b) (sessions b)
        (sent b ++ [message_answer
           (Py.lit "❌ Название слишком длинное. Пожалуйста, введите название короче 100 символов:")])))
  /\ (Py.len name < 3 ->
      process_habit_name m b
      = (Ok tt,
         mk_bot (db b) (sessions b)
           (sent b ++ [message_answer
              (Py.lit "❌ Название слишком короткое. Пожалуйста, введите название длиннее 3 символов:")])))
  /\ (3 <= Py.len name <= 100 ->
      process_habit_name m b
      = (Ok tt,
         mk_bot (db b)
           ((uid, mk_session (Some waiting_for_habit_description) (Some name))
              :: (uid, mk_session (state (get_session uid b)) (Some name))
              :: sessions b)
           (sent b ++ [message_answer
              (Py.lit "Отличное название! Теперь введите описание привычки "
               ++ Py.lit "(или отправьте /skip чтобы пропустить):")]))).
Proof.
  intros Htext name uid.
  assert (process_habit_name m b
          = (if Py.len name >? 100
             then send (message_answer
                    (Py.lit "❌ Название слишком длинное. Пожалуйста, введите название короче 100 символов:"))
             else if Py.len name <? 3
             then send (message_answer
                    (Py.lit "❌ Название слишком короткое. Пожалуйста, введите название длиннее 3 символов:"))
             else
               (update_data uid name ;;
                set_state uid waiting_for_habit_description ;;
                send (message_answer
                        (Py.lit "Отличное название! Теперь введите описание привычки "
                         ++ Py.lit "(или отправьте /skip чтобы пропустить):")))%handler)
              b) as ->.
  { unfold process_habit_name, text_strip. rewrite Htext. reflexivity. }
  split; [|split]; intros Hlen.
  - assert ((Py.len name >? 100) = true) as -> by (apply Z.gtb_lt; lia).
    reflexivity.
  - assert ((Py.len name >? 100) = false) as ->
        by (rewrite Z.gtb_ltb; apply Z.ltb_ge; lia).
    assert ((Py.len name <? 3) = true) as -> by (apply Z.ltb_lt; lia).
    reflexivity.
  - assert ((Py.len name >? 100) = false) as ->
        by (rewrite Z.gtb_ltb; apply Z.ltb_ge; lia).
    assert ((Py.len name <? 3) = false) as -> by (apply Z.ltb_ge; lia).
    unfold bind, update_data, set_state, put_session, send, get_session.
    cbn [db sessions sent find fst snd]. fold uid.
    rewrite Z.eqb_refl. reflexivity.
Qed.

(** C6.  In the state [waiting_for_habit_name] the name is the stripped
    text of the message.  A name shorter than 3 or longer than 100
    characters, hence every text of 1 or 2 characters and every name of
    101, is answered with a new prompt while the session, still waiting for
    the name, and the database stay as they were; a name of 3 to 100
    characters, both bounds included, is stored and the session moves on to
    [waiting_for_habit_description]. *)
Theorem habit_name_validation :
  forall (m : message) (t : Py.str) (b : bot),
    text m = Some t ->
    state (get_session (id (from_user m)) b) = Some waiting_for_habit_name ->
    let name := Py.strip t in
    let uid := id (from_user m) in
    let b' := snd (process_habit_name m b) in
    fst (process_habit_name m b) = Ok tt
    /\ (Py.len name < 3 \/ 100 < Py.len name ->
        name_rejected b b'
        /\ state (get_session uid b') = Some waiting_for_habit_name)
    /\ (Py.len t = 1 \/ Py.len t = 2 ->
        name_rejected b b'
        /\ state (get_session uid b') = Some waiting_for_habit_name)
    /\ (3 <= Py.len name <= 100 -> name_accepted uid name b b').
Proof.
  intros m t b Htext Hstate name uid b'.
  destruct (process_habit_name_cases m t b Htext) as (Hlong & Hshort & Hok).
  fold name in Hlong, Hshort, Hok. fold uid in Hok.
  assert (Py.len name < 3 \/ 100 < Py.len name ->
          name_rejected b b'
          /\ state (get_session uid b') = Some waiting_for_habit_name)
    as Hreject.
  { intros [H|H]; unfold b', name_rejected;
      [rewrite Hshort by assumption | rewrite Hlong by assumption];
      cbn [snd sessions db sent]; (split; [|exact Hstate]);
      (split; [reflexivity|]); (split; [reflexivity|]); eauto. }
  split; [|split; [|split]].
  - destruct (Z_lt_dec 100 (Py.len name)) as [H|H];
      [now rewrite Hlong|].
    destruct (Z_lt_dec (Py.len name) 3) as [H3|H3];
      [now rewrite Hshort|].
    rewrite Hok by lia. reflexivity.
  - exact Hreject.
  - intros Hraw. apply Hreject. left.
    pose proof (len_strip t) as Hle. fold name in Hle. lia.
  - intros H. unfold b', name_accepted. rewrite Hok by assumption.
    unfold get_session; cbn [snd sessions db find fst].
    rewrite Z.eqb_refl. auto.
Qed.

Lemma habit_name_validation_witness :
  state (get_session 7 naming_habit) = Some waiting_for_habit_name
  /\ name_accepted 7 (Py.lit "Run") naming_habit
       (snd (process_habit_name (mk_message ann (Some (Py.lit " Run ")) None)
               naming_habit))
  /\ name_rejected naming_habit
       (snd (process_habit_name (mk_message ann (Some (Py.lit "ab")) None)
               naming_habit)).
Proof.
  split; [reflexivity|]. split.
  - destruct (habit_name_validation (mk_message ann (Some (Py.lit " Run ")) None)
                (Py.lit " Run ") naming_habit eq_refl eq_refl)
      as (_ & _ & _ & Hok).
    apply Hok. vm_compute. split; discriminate.
  - destruct (habit_name_validation (mk_message ann (Some (Py.lit "ab")) None)
                (Py.lit "ab") naming_habit eq_refl eq_refl)
      as (_ & _ & Hraw & _).
    apply Hraw. right. reflexivity.
Defined.

(** ** Malformed payloads *)

(** A mark whose id does not parse ends in the catch-all branch. *)
Lemma complete_malformed (e : env) (c : callback_query) (b : bot)
    (part : Py.str) :
  Py.getitem (Py.split Py.underscore (data c)) 1 = Ok part ->
  Py.int part = Raise ValueError ->
  callback_complete_habit e c b
  = (Ok tt, mk_bot (db b) (sessions b) (sent b ++ [error_notice])).
Proof.
  intros Hpart Hint. unfold callback_complete_habit, try_except.
  unfold bind at 1. unfold lift at 1. rewrite Hpart.
  unfold bind at 1. unfold lift at 1. rewrite Hint. reflexivity.
Qed.

Lemma miss_malformed (e : env) (c : callback_query) (b : bot)
    (part : Py.str) :
  Py.getitem (Py.split Py.underscore (data c)) 1 = Ok part ->
  Py.int part = Raise ValueError ->
  callback_miss_habit e c b
  = (Ok tt, mk_bot (db b) (sessions b) (sent b ++ [error_notice])).
Proof.
  intros Hpart Hint. unfold callback_miss_habit, try_except.
  unfold bind at 1. unfold lift at 1. rewrite Hpart.
  unfold bind at 1. unfold lift at 1. rewrite Hint. reflexivity.
Qed.

(** The habit-detail handler passes over the same failure in silence. *)
Lemma habit_detail_malformed (e : env) (c : callback_query) (b : bot)
    (part : Py.str) :
  Py.split Py.underscore (data c) = [Py.lit "habit"; part] ->
  Py.int part = Raise ValueError ->
  callback_habit_detail e c b
  = (Ok tt, mk_bot (db b) (sessions b) (sent b ++ [silent_ack])).
Proof.
  intros Hparts Hint. unfold callback_habit_detail, try_except.
  unfold bind at 1. rewrite Hparts.
  change (plain_habit_payload [Py.lit "habit"; part]) with true.
  cbv iota. unfold bind at 1. unfold lift at 1, Py.getitem; cbn [nth_error].
  unfold bind at 1. unfold lift at 1. rewrite Hint. reflexivity.
Qed.

(** C7, which the code does not meet.  The payloads [complete_abc]
    and [miss_abc] reach the marking handlers, whose catch-all branch shows
    the notice "Произошла ошибка" as an alert; only [habit_xyz], handled by
    the habit-detail handler, is passed over with an empty
    acknowledgement.  None of the three changes the database. *)
Theorem malformed_mark_shows_error :
  let b := quiet habit_created in
  route_callback (Py.lit "complete_abc") = Some H_complete_habit
  /\ route_callback (Py.lit "miss_abc") = Some H_miss_habit
  /\ route_callback (Py.lit "habit_xyz") = Some H_habit_detail
  /\ feed_update sample_env (taps ann "complete_abc") b
     = mk_bot (db b) [] [error_notice]
  /\ feed_update sample_env (taps ann "miss_abc") b
     = mk_bot (db b) [] [error_notice]
  /\ feed_update sample_env (taps ann "habit_xyz") b
     = mk_bot (db b) [] [silent_ack].
Proof.
  cbv zeta.
  split; [vm_compute; reflexivity|].
  split; [vm_compute; reflexivity|].
  split; [vm_compute; reflexivity|].
  split; [vm_compute; reflexivity|].
  split; vm_compute; reflexivity.
Qed.

(** ** Statistics without records *)

(** The percentage is computed under [total > 0] only, so the body of the
    per-habit view never raises. *)
Lemma habit_stats_body_total (stats : option Database.stats_row)
    (streak : Z) :
  exists body, habit_stats_body stats streak = Ok body.
Proof.
  destruct stats as [[[[completed_count missed_count] first] last]|];
    [|simpl; eauto].
  unfold habit_stats_body, Py.truediv.
  destruct (completed_count + missed_count >? 0) eqn:T; [|eauto].
  destruct (completed_count + missed_count =? 0) eqn:Z0; [|eauto].
  apply Z.eqb_eq in Z0. rewrite Z0 in T. discriminate.
Qed.

(** With both counts at zero the per-habit view prints the counts and the
    dates, without a percentage line. *)
Lemma habit_stats_body_zero (first last : option Database.date) (streak : Z) :
  habit_stats_body (Some (0, 0, first, last)) streak
  = Ok (Py.lit "✅ Выполнено: " ++ Py.str_of_int 0 ++ Py.lit " раз" ++ Py.nl
        ++ Py.lit "❌ Пропущено: " ++ Py.str_of_int 0 ++ Py.lit " раз" ++ Py.nl
        ++ Py.lit "🔥 Текущая серия: " ++ Py.str_of_int streak
        ++ Py.lit " дней" ++ Py.nl
        ++ Py.lit "📅 Первое выполнение: " ++ fmt_date first ++ Py.nl
        ++ Py.lit "📅 Последнее выполнение: " ++ fmt_date last
        ++ Py.nl ++ Py.nl).
Proof. reflexivity. Qed.

(** With no completion the overall view prints "no data" for the habit. *)
Lemma stats_line_no_completion (e : env) (habit : Database.habit_row)
    (d : Database.database) (missed_count : Z)
    (first last : option Database.date) :
  Database.get_habit_stats (Database.habit_id habit) d
  = Some (0, missed_count, first, last) ->
  stats_line e habit d
  = Py.lit "• " ++ fmt_opt (Database.habit_name habit)
    ++ Py.lit ": пока нет данных" ++ Py.nl.
Proof.
  intros Hstats. unfold stats_line. rewrite Hstats. reflexivity.
Qed.

Lemma get_habit_stats_no_records (hid : Z) (d : Database.database) :
  Database.sqlite_int hid = true ->
  Spec.records_of hid d = [] ->
  Database.get_habit_stats hid d = Some (0, 0, None, None).
Proof.
  unfold Spec.records_of, Database.get_habit_stats. now intros -> ->.
Qed.

(** C8, which the code does not meet.  Habit 1 has no tracking record,
    so both counts are zero.  The overall view prints "пока нет данных" for
    it, and no view divides by zero; but the per-habit view does not take
    its "no data" branch: it prints the two zero counts and "None" for both
    dates, without a percentage line. *)
Theorem habit_stats_without_records :
  let b := quiet habit_created in
  Database.get_habit_stats 1 (db b) = Some (0, 0, None, None)
  /\ route_callback (Py.lit "habit_stats_1") = Some H_habit_stats
  /\ feed_update sample_env (taps ann "habit_stats_1") b
     = mk_bot (db b) [] [edit_text sample_stats_text; silent_ack]
  /\ sample_stats_text <> sample_no_data_text
  /\ feed_update sample_env (taps ann "stats") b
     = mk_bot (db b) [] [edit_text sample_overall_text; silent_ack]
  /\ (forall (stats : option Database.stats_row) (streak : Z),
        exists body, habit_stats_body stats streak = Ok body).
Proof.
  cbv zeta.
  split; [vm_compute; reflexivity|].
  split; [vm_compute; reflexivity|].
  split; [vm_compute; reflexivity|].
  split; [vm_compute; discriminate|].
  split; [vm_compute; reflexivity|].
  exact habit_stats_body_total.
Qed.

(** ** Habits and their owners *)

Lemma reachable_habit_created : reachable 102 (db habit_created).
Proof.
  change (db habit_created)
    with (apply_call 102
            (call_add_habit 7 (Some (Py.lit "Read")) (Py.lit "Без описания"))
            Database.init_db).
  apply reachable_call, reachable_init.
Qed.

(** C9, which the code does not meet.  Ann never sent [/start], so the
    users table is empty; the menu, the "new habit" button, a name and
    [/skip] still create a habit whose [user_id] is hers: the declared
    foreign key is not enforced and [add_habit] does not look the user
    up. *)
Theorem habit_without_user :
  Database.users (db habit_created) = []
  /\ Database.get_user 7 (db habit_created) = None
  /\ map Database.habit_user_id (Database.habits (db habit_created)) = [7]
  /\ db habit_created
     = fst (Database.add_habit 102 7 (Some (Py.lit "Read"))
              (Py.lit "Без описания") Database.init_db)
  /\ reachable 102 (db habit_created).
Proof.
  split; [vm_compute; reflexivity|].
  split; [vm_compute; reflexivity|].
  split; [vm_compute; reflexivity|].
  split; [vm_compute; reflexivity|].
  exact reachable_habit_created.
Qed.

(** ** Marks are written for any habit id *)






(** * Further properties of the database *)

(** ** [ORDER BY ... DESC] *)

Section OrderByMore.

Context {A : Type} (key : A -> Z).

Lemma insert_desc_perm (x : A) (l : list A) :
  Permutation (Database.insert_desc key x l) (x :: l).
Proof.
  induction l as [|y l IH]; simpl; [reflexivity|].
  destruct (key y <=? key x); [reflexivity|].
  rewrite IH. apply perm_swap.
Qed.

Lemma order_by_desc_perm (l : list A) :
  Permutation (Database.order_by_desc key l) l.
Proof.
  induction l as [|x l IH]; simpl; [reflexivity|].
  rewrite insert_desc_perm. now constructor.
Qed.

Lemma insert_desc_sorted (x : A) (l : list A) :
  StronglySorted (fun a b => key b <= key a) l ->
  StronglySorted (fun a b => key b <= key a) (Database.insert_desc key x l).
Proof.
  induction 1 as [|y l Hl IH Hy]; simpl.
  - constructor; constructor.
  - destruct (key y <=? key x) eqn:E.
    + apply Z.leb_le in E. constructor; [now constructor|].
      constructor; [assumption|].
      eapply Forall_impl; [|exact Hy]. simpl; intros; lia.
    + apply Z.leb_gt in E. constructor; [assumption|].
      apply Forall_forall. intros z Hz.
      apply (Permutation_in _ (insert_desc_perm x l)) in Hz.
      destruct Hz as [<-|Hz]; [lia|].
      rewrite Forall_forall in Hy. now apply Hy.
Qed.

Lemma order_by_desc_sorted (l : list A) :
  StronglySorted (fun a b => key b <= key a) (Database.order_by_desc key l).
Proof.
  induction l as [|x l IH]; simpl; [constructor|].
  now apply insert_desc_sorted.
Qed.

Lemma filter_length_insert_desc (f : A -> bool) (x : A) (l : list A) :
  List.length (filter f (Database.insert_desc key x l))
  = List.length (filter f (x :: l)).
Proof.
  induction l as [|y l IH]; simpl; [reflexivity|].
  destruct (key y <=? key x); [reflexivity|].
  simpl in IH |- *. destruct (f y), (f x); simpl in *; lia.
Qed.

Lemma filter_length_order_by_desc (f : A -> bool) (l : list A) :
  List.length (filter f (Database.order_by_desc key l))
  = List.length (filter f l).
Proof.
  induction l as [|x l IH]; simpl; [reflexivity|].
  rewrite filter_length_insert_desc. simpl.
  destruct (f x); simpl; now rewrite IH.
Qed.

End OrderByMore.

(** ** Listings *)

(** X1.  [get_user_habits] lists exactly the habits of the user whose
    [is_active] is 1, each as often as the table holds it, most recently
    created first. *)
Theorem get_user_habits_listing :
  forall (uid : Z) (d : Database.database),
    (forall h, In h (Database.get_user_habits uid d)
               <-> In h (Database.habits d)
                   /\ Database.habit_user_id h = uid
                   /\ Database.is_active h = 1)
    /\ Permutation (Database.get_user_habits uid d)
         (filter (fun h => (Database.habit_user_id h =? uid)
                           && (Database.is_active h =? 1))
            (Database.habits d))
    /\ StronglySorted
         (fun a b => Database.created_date b <= Database.created_date a)
         (Database.get_user_habits uid d).
Proof.
  intros uid d. unfold Database.get_user_habits. split; [|split].
  - intros h. rewrite In_order_by_desc, filter_In, andb_true_iff, !Z.eqb_eq.
    tauto.
  - apply order_by_desc_perm.
  - apply order_by_desc_sorted.
Qed.

(** X2.  [get_all_users] returns every row of the users table once, most
    recently registered first. *)
Theorem get_all_users_listing :
  forall d : Database.database,
    Permutation (Database.get_all_users d) (Database.users d)
    /\ List.length (Database.get_all_users d)
       = List.length (Database.users d)
    /\ StronglySorted
         (fun a b => Database.registered_date b <= Database.registered_date a)
         (Database.get_all_users d).
Proof.
  intros d. unfold Database.get_all_users. split; [|split].
  - apply order_by_desc_perm.
  - apply length_order_by_desc.
  - apply order_by_desc_sorted.
Qed.

(** ** Users *)

Lemma find_map_update {A : Type} (f : A -> bool) (g : A -> A) (l : list A) :
  (forall x, f (g x) = f x) ->
  find f (map g l) = option_map g (find f l).
Proof.
  intros Hfg. induction l as [|x l IH]; simpl; [reflexivity|].
  rewrite Hfg. now destruct (f x).
Qed.

Lemma insert_user_perm (u : Database.user_row)
    (rows : list Database.user_row) :
  Permutation (u :: rows) (Database.insert_user u rows).
Proof.
  induction rows as [|x rows IH]; cbn [Database.insert_user];
    [reflexivity|].
  destruct (Database.user_id u <? Database.user_id x); [reflexivity|].
  rewrite perm_swap. now apply perm_skip.
Qed.

Lemma In_insert_user (u v : Database.user_row)
    (rows : list Database.user_row) :
  In v (Database.insert_user u rows) <-> v = u \/ In v rows.
Proof.
  split.
  - intros H. apply (Permutation_in _ (Permutation_sym
                                         (insert_user_perm u rows))) in H.
    destruct H as [<-|H]; auto.
  - intros H. apply (Permutation_in _ (insert_user_perm u rows)).
    destruct H as [->|H]; [now left | now right].
Qed.

Lemma find_insert_user_other (f : Database.user_row -> bool)
    (u : Database.user_row) (rows : list Database.user_row) :
  f u = false -> find f (Database.insert_user u rows) = find f rows.
Proof.
  intros Hu. induction rows as [|x rows IH];
    cbn [Database.insert_user find]; [now rewrite Hu|].
  destruct (Database.user_id u <? Database.user_id x); cbn [find].
  - now rewrite Hu.
  - now rewrite IH.
Qed.

Lemma find_insert_user_new (f : Database.user_row -> bool)
    (u : Database.user_row) (rows : list Database.user_row) :
  f u = true -> find f rows = None ->
  find f (Database.insert_user u rows) = Some u.
Proof.
  intros Hu. induction rows as [|x rows IH];
    cbn [Database.insert_user find]; [now rewrite Hu|].
  destruct (f x) eqn:Hx; [discriminate|]. intros Hnone.
  destruct (Database.user_id u <? Database.user_id x); cbn [find].
  - now rewrite Hu.
  - rewrite Hx. now apply IH.
Qed.

Lemma Forall_insert_user (P : Database.user_row -> Prop)
    (u : Database.user_row) (rows : list Database.user_row) :
  P u -> Forall P rows -> Forall P (Database.insert_user u rows).
Proof.
  rewrite !Forall_forall. intros Hu Hrows v Hv.
  apply In_insert_user in Hv as [->|Hv]; auto.
Qed.

(** X3.  [add_user] is an upsert on the user id: afterwards [get_user]
    returns the names just given and the administrator flag recomputed
    from [ADMIN_ID]; the registration date is today for a new user and the
    stored one for a known user; other users, the habits and the tracking
    records are untouched. *)
Theorem add_user_upsert :
  forall (admin : Z) (today : Database.date) (uid : Z)
         (uname : option Py.str) (fname : Py.str) (lname : option Py.str)
         (d : Database.database),
    let d' := Database.add_user admin today uid uname fname lname d in
    Database.get_user uid d'
    = Some (Database.mk_user uid uname fname lname
              match Database.get_user uid d with
              | Some u => Database.registered_date u
              | None => today
              end
              (if uid =? admin then 1 else 0))
    /\ (forall uid', uid' <> uid ->
          Database.get_user uid' d' = Database.get_user uid' d)
    /\ Database.habits d' = Database.habits d
    /\ Database.habit_tracking d' = Database.habit_tracking d.
Proof.
  intros admin today uid uname fname lname d d'.
  unfold d', Database.add_user, Database.get_user; cbn [Database.users
    Database.habits Database.habit_tracking].
  set (upd := fun u : Database.user_row =>
                if Database.user_id u =? uid
                then Database.mk_user (Database.user_id u) uname fname lname
                       (Database.registered_date u)
                       (if uid =? admin then 1 else 0)
                else u).
  assert (forall k u, (Database.user_id (upd u) =? k)
                      = (Database.user_id u =? k)) as Hkey.
  { intros k u. unfold upd. now destruct (Database.user_id u =? uid). }
  split; [|split; [|split; reflexivity]].
  - rewrite (find_map_update _ upd) by (intros; apply Hkey).
    rewrite existsb_find.
    destruct (find (fun u => Database.user_id u =? uid) (Database.users d))
      as [u|] eqn:F.
    + rewrite F. cbn [option_map]. apply find_some in F as [_ Hu].
      unfold upd. rewrite Hu. apply Z.eqb_eq in Hu. now rewrite Hu.
    + rewrite find_insert_user_new;
        [|cbn [Database.user_id]; apply Z.eqb_refl | exact F].
      cbn [option_map]. unfold upd. cbn [Database.user_id
        Database.registered_date]. now rewrite Z.eqb_refl.
  - intros uid' Hne.
    rewrite (find_map_update _ upd) by (intros; apply Hkey).
    assert (forall u, option_map upd
                        (find (fun u => Database.user_id u =? uid') u)
                      = find (fun u => Database.user_id u =? uid') u) as Hfix.
    { intros l. destruct (find _ l) as [u|] eqn:F; [|reflexivity].
      apply find_some in F as [_ Hu]. apply Z.eqb_eq in Hu.
      cbn [option_map]. unfold upd.
      destruct (Database.user_id u =? uid) eqn:E; [|reflexivity].
      apply Z.eqb_eq in E. congruence. }
    destruct (existsb (fun u => Database.user_id u =? uid) (Database.users d)).
    + apply Hfix.
    + rewrite Hfix. apply find_insert_user_other.
      cbn [Database.user_id]. now apply Z.eqb_neq.
Qed.

Lemma add_user_upsert_witness :
  Database.get_user 8
    (Database.add_user 1 102 7 None (Py.lit "Ann") None (db three_users))
  = Database.get_user 8 (db three_users).
Proof.
  destruct (add_user_upsert 1 102 7 None (Py.lit "Ann") None (db three_users))
    as (_ & Hother & _).
  apply Hother. lia.
Defined.

(** ** Histories keep the tables consistent *)

Lemma NoDup_snoc_fresh (ids : list Z) (top : Z) :
  NoDup ids -> Forall (fun i => 1 <= i <= top) ids ->
  NoDup (ids ++ [top + 1]).
Proof.
  intros Hnd Hle. apply NoDup_snoc; [assumption|].
  intros Hin. rewrite Forall_forall in Hle. specialize (Hle _ Hin). lia.
Qed.

Lemma Forall_map {A B : Type} (f : A -> B) (P : B -> Prop) (l : list A) :
  Forall P (map f l) <-> Forall (fun x => P (f x)) l.
Proof.
  rewrite !Forall_forall. split.
  - intros H x Hx. apply H. now apply in_map.
  - intros H y Hy. apply in_map_iff in Hy as (x & <- & Hx). now apply H.
Qed.

Lemma db_consistent_add_user (admin : Z) (today : Database.date) (uid : Z)
    (uname : option Py.str) (fname : Py.str) (lname : option Py.str)
    (d : Database.database) :
  db_consistent today d ->
  db_consistent today (Database.add_user admin today uid uname fname lname d).
Proof.
  intros (Hu & Hhs & Hts & Hh & Hhb & Ht & Htb & Hud & Hhd).
  unfold db_consistent, Database.add_user; cbn [Database.users
    Database.habits Database.habit_tracking Database.habits_seq
    Database.tracking_seq].
  repeat (split; try assumption).
  - rewrite map_map.
    rewrite (map_ext _ Database.user_id)
      by (intros u; now destruct (Database.user_id u =? uid)).
    destruct (existsb (fun u => Database.user_id u =? uid) (Database.users d))
      eqn:E; [assumption|].
    eapply Permutation_NoDup;
      [apply Permutation_map, insert_user_perm|].
    cbn [map Database.user_id]. constructor; [|assumption].
    intros Hin. apply in_map_iff in Hin as (u & Hk & Hin).
    assert (existsb (fun u => Database.user_id u =? uid) (Database.users d)
            = true) as Ht'
        by (apply existsb_exists; exists u; split;
            [assumption | now apply Z.eqb_eq]).
    congruence.
  - apply Forall_map.
    assert (Forall (fun u => Database.registered_date u <= today)
              (if existsb (fun u => Database.user_id u =? uid)
                    (Database.users d)
               then Database.users d
               else Database.insert_user
                      (Database.mk_user uid uname fname lname today
                         (if uid =? admin then 1 else 0))
                      (Database.users d))) as Hall.
    { destruct (existsb _ (Database.users d)); [assumption|].
      apply Forall_insert_user; [simpl; lia | assumption]. }
    eapply Forall_impl; [|exact Hall].
    intros u Hle. now destruct (Database.user_id u =? uid).
Qed.

Lemma db_consistent_add_habit (today : Database.date) (uid : Z)
    (name : option Py.str) (description : Py.str) (d : Database.database) :
  db_consistent today d ->
  db_consistent today (fst (Database.add_habit today uid name description d)).
Proof.
  intros (Hu & Hhs & Hts & Hh & Hhb & Ht & Htb & Hud & Hhd).
  unfold db_consistent, Database.add_habit; cbn [fst Database.users
    Database.habits Database.habit_tracking Database.habits_seq
    Database.tracking_seq].
  repeat (split; try assumption); try lia.
  - rewrite map_app. cbn [map Database.habit_id].
    apply NoDup_snoc_fresh; [assumption|]. now apply Forall_map.
  - apply Forall_app. split.
    + eapply Forall_impl; [|exact Hhb]. simpl; intros; lia.
    + constructor; [simpl; lia | constructor].
  - apply Forall_app. split; [assumption|].
    constructor; [simpl; split; [lia|reflexivity] | constructor].
Qed.

Lemma db_consistent_track_habit (today : Database.date) (hid : Z)
    (st : Py.str) (d : Database.database) :
  db_consistent today d ->
  db_consistent today (fst (Database.track_habit today hid st d)).
Proof.
  destruct (Database.sqlite_int hid) eqn:Hbound;
    [|now rewrite track_habit_unbound].
  intros (Hu & Hhs & Hts & Hh & Hhb & Ht & Htb & Hud & Hhd).
  unfold Database.track_habit, Database.insert_tracking.
  rewrite Hbound. cbn [negb].
  destruct (existsb (Database.same_day hid today) (Database.habit_tracking d));
    unfold db_consistent, Database.update_tracking; cbn [fst Database.users
      Database.habits Database.habit_tracking Database.habits_seq
      Database.tracking_seq];
    repeat (split; try assumption); try lia.
  - rewrite map_map.
    rewrite (map_ext _ Database.tracking_id)
      by (intros r; now destruct (Database.same_day hid today r)).
    assumption.
  - apply Forall_map. eapply Forall_impl; [|exact Htb].
    intros r Hr. now destruct (Database.same_day hid today r).
  - rewrite map_app. cbn [map Database.tracking_id].
    apply NoDup_snoc_fresh; [assumption|]. now apply Forall_map.
  - apply Forall_app. split.
    + eapply Forall_impl; [|exact Htb]. simpl; intros; lia.
    + constructor; [simpl; lia | constructor].
Qed.

Lemma db_consistent_reachable (today : Database.date)
    (d : Database.database) :
  reachable today d -> db_consistent today d.
Proof.
  induction 1 as [today|today c d _ IH|today today' d _ IH Hle].
  - unfold db_consistent; simpl. repeat split; try constructor; lia.
  - destruct c as [admin uid uname fname lname|uid name description|hid st];
      simpl.
    + now apply db_consistent_add_user.
    + now apply db_consistent_add_habit.
    + now apply db_consistent_track_habit.
  - destruct IH as (Hu & Hhs & Hts & Hh & Hhb & Ht & Htb & Hud & Hhd).
    unfold db_consistent. repeat (split; try assumption).
    + eapply Forall_impl; [|exact Hud]. simpl; intros; lia.
    + eapply Forall_impl; [|exact Hhd]. simpl; intros h [H1 H2].
      split; [lia|assumption].
Qed.

(** X4.  Along every history the primary keys of the three tables stay
    distinct, the generated keys lie between 1 and their counter, no
    registration or creation date lies in the future, and every habit is
    active. *)
Theorem reachable_db_consistent :
  forall (today : Database.date) (d : Database.database),
    reachable today d -> db_consistent today d.
Proof. exact db_consistent_reachable. Qed.

Lemma reachable_db_consistent_witness :
  reachable 102 three_days /\ db_consistent 102 three_days.
Proof.
  split; [exact reachable_three_days|].
  exact (reachable_db_consistent 102 three_days reachable_three_days).
Defined.

(** ** Habits *)

(** X5.  On a reachable database [add_habit] returns an id that was not
    in use and is larger than every id in use; [get_habit] of that id
    returns the row just written (owner, name, description, today's date,
    active), and every other id is looked up as before. *)
Theorem add_habit_get_habit :
  forall (today : Database.date) (d : Database.database) (uid : Z)
         (name : option Py.str) (description : Py.str),
    reachable today d ->
    let d' := fst (Database.add_habit today uid name description d) in
    exists hid,
      snd (Database.add_habit today uid name description d) = Some hid
      /\ 1 <= hid
      /\ Forall (fun h => Database.habit_id h < hid) (Database.habits d)
      /\ Database.get_habit hid d = None
      /\ Database.get_habit hid d'
         = Some (Database.mk_habit hid uid name description today 1)
      /\ forall hid', hid' <> hid ->
           Database.get_habit hid' d' = Database.get_habit hid' d.
Proof.
  intros today d uid name description Hreach d'.
  destruct (db_consistent_reachable today d Hreach)
    as (_ & Hhs & _ & _ & Hhb & _).
  exists (Database.habits_seq d + 1).
  assert (Database.get_habit (Database.habits_seq d + 1) d = None) as Hfresh.
  { unfold Database.get_habit.
    apply (find_by_key_none Database.habit_id).
    intros h Hh. rewrite Forall_forall in Hhb. specialize (Hhb h Hh). lia. }
  split; [reflexivity|]. split; [lia|]. split.
  { eapply Forall_impl; [|exact Hhb]. simpl; intros; lia. }
  split; [exact Hfresh|].
  unfold d', Database.get_habit, Database.add_habit;
    cbn [fst Database.habits]. split.
  - rewrite find_snoc. unfold Database.get_habit in Hfresh. rewrite Hfresh.
    cbn [Database.habit_id]. now rewrite Z.eqb_refl.
  - intros hid' Hne. rewrite find_snoc.
    destruct (find (fun h => Database.habit_id h =? hid') (Database.habits d));
      [reflexivity|].
    cbn [Database.habit_id].
    destruct (Database.habits_seq d + 1 =? hid') eqn:E; [|reflexivity].
    apply Z.eqb_eq in E. congruence.
Qed.

Lemma add_habit_get_habit_witness :
  reachable 102 three_days
  /\ exists hid,
       snd (Database.add_habit 102 7 (Some (Py.lit "Read")) (Py.lit "daily")
              three_days) = Some hid
       /\ Database.get_habit hid
            (fst (Database.add_habit 102 7 (Some (Py.lit "Read"))
                    (Py.lit "daily") three_days))
          = Some (Database.mk_habit hid 7 (Some (Py.lit "Read"))
                    (Py.lit "daily") 102 1).
Proof.
  split; [exact reachable_three_days|].
  destruct (add_habit_get_habit 102 three_days 7 (Some (Py.lit "Read"))
              (Py.lit "daily") reachable_three_days)
    as (hid & Hret & _ & _ & _ & Hget & _).
  exists hid. split; [exact Hret | exact Hget].
Defined.

(** ** Nothing is deleted *)

Lemma prefix_refl {A : Type} (l : list A) : prefix l l.
Proof. exists []. now rewrite app_nil_r. Qed.

Lemma prefix_snoc {A : Type} (l : list A) (x : A) : prefix l (l ++ [x]).
Proof. now exists [x]. Qed.

(** X6.  No call removes anything: after a call every user id is still
    registered, the habits table starts with the rows it had, unchanged,
    and the tracking table starts with records for the same habits and
    dates as before. *)
Theorem calls_never_delete :
  forall (today : Database.date) (c : db_call) (d : Database.database),
    let d' := apply_call today c d in
    incl (map Database.user_id (Database.users d))
      (map Database.user_id (Database.users d'))
    /\ prefix (Database.habits d) (Database.habits d')
    /\ prefix (map tracking_key (Database.habit_tracking d))
         (map tracking_key (Database.habit_tracking d')).
Proof.
  intros today c d d'. unfold d'.
  destruct c as [admin uid uname fname lname|uid name description|hid st];
    cbn [apply_call].
  - split; [|split; apply prefix_refl].
    unfold Database.add_user; cbn [Database.users].
    match goal with
    | |- incl _ (map _ (map ?upd ?rows)) =>
        assert (map Database.user_id (map upd rows)
                = map Database.user_id rows) as ->
    end.
    { rewrite map_map. apply map_ext.
      intros u. now destruct (Database.user_id u =? uid). }
    destruct (existsb (fun u => Database.user_id u =? uid) (Database.users d));
      [apply incl_refl|].
    intros k Hk. apply in_map_iff in Hk as (u & <- & Hu).
    apply in_map, In_insert_user. now right.
  - unfold Database.add_habit; cbn [fst Database.users Database.habits
      Database.habit_tracking].
    split; [apply incl_refl|]. split; [apply prefix_snoc | apply prefix_refl].
  - destruct (Database.sqlite_int hid) eqn:Hbound.
    2:{ rewrite track_habit_unbound by exact Hbound. cbn [fst].
        split; [apply incl_refl|]. split; apply prefix_refl. }
    unfold Database.track_habit, Database.insert_tracking.
    rewrite Hbound. cbn [negb].
    destruct (existsb (Database.same_day hid today)
                (Database.habit_tracking d)); cbn [fst].
    + split; [apply incl_refl|]. split; [apply prefix_refl|].
      rewrite update_tracking_keys. apply prefix_refl.
    + cbn [Database.users Database.habits Database.habit_tracking].
      split; [apply incl_refl|]. split; [apply prefix_refl|].
      rewrite map_app. apply prefix_snoc.
Qed.

(** ** Statistics of a habit *)

Lemma fold_min_spec (l : list Z) :
  forall a : Z,
    let m := fold_left Z.min l a in
    m <= a /\ Forall (fun x => m <= x) l /\ In m (a :: l).
Proof.
  induction l as [|x l IH]; intros a; cbn [fold_left].
  - cbv zeta. split; [lia|]. split; [constructor | now left].
  - destruct (IH (Z.min a x)) as (Hle & Hall & Hin). cbv zeta in *.
    set (m := fold_left Z.min l (Z.min a x)) in *.
    split; [lia|]. split.
    + constructor; [lia | assumption].
    + destruct Hin as [Hin|Hin]; [|right; now right].
      simpl. destruct (Z.min_spec a x) as [[_ E]|[_ E]];
        [left | right; left]; lia.
Qed.

Lemma fold_max_spec (l : list Z) :
  forall a : Z,
    let m := fold_left Z.max l a in
    a <= m /\ Forall (fun x => x <= m) l /\ In m (a :: l).
Proof.
  induction l as [|x l IH]; intros a; cbn [fold_left].
  - cbv zeta. split; [lia|]. split; [constructor | now left].
  - destruct (IH (Z.max a x)) as (Hle & Hall & Hin). cbv zeta in *.
    set (m := fold_left Z.max l (Z.max a x)) in *.
    split; [lia|]. split.
    + constructor; [lia | assumption].
    + destruct Hin as [Hin|Hin]; [|right; now right].
      simpl. destruct (Z.max_spec a x) as [[_ E]|[_ E]];
        [right; left | left]; lia.
Qed.

Lemma completed_not_missed (st : Py.str) :
  Py.str_eqb st Database.completed = true ->
  Py.str_eqb st Database.missed = false.
Proof. intros H. apply str_eqb_eq in H. subst. reflexivity. Qed.

Lemma count_status_bounds (rows : list Database.tracking_row) :
  0 <= Database.count_status Database.completed rows
  /\ 0 <= Database.count_status Database.missed rows
  /\ Database.count_status Database.completed rows
     + Database.count_status Database.missed rows <= Py.len rows
  /\ ((forall r, In r rows ->
         Database.status r = Database.completed
         \/ Database.status r = Database.missed) ->
      Database.count_status Database.completed rows
      + Database.count_status Database.missed rows = Py.len rows).
Proof.
  unfold Database.count_status, Py.len.
  induction rows as [|r rows (H1 & H2 & H3 & H4)]; cbn [filter List.length].
  - repeat split; try lia; try reflexivity.
  - destruct (Py.str_eqb (Database.status r) Database.completed) eqn:C.
    + rewrite (completed_not_missed _ C). cbn [List.length].
      rewrite !Nat2Z.inj_succ. repeat split; try lia.
      intros Hall. rewrite <- H4; [lia|]. intros; apply Hall; now right.
    + destruct (Py.str_eqb (Database.status r) Database.missed) eqn:M;
        cbn [List.length]; rewrite ?Nat2Z.inj_succ; repeat split; try lia.
      * intros Hall. rewrite <- H4; [lia|]. intros; apply Hall; now right.
      * intros Hall. exfalso.
        destruct (Hall r (or_introl eq_refl)) as [E|E]; rewrite E in *.
        -- now rewrite str_eqb_refl in C.
        -- now rewrite str_eqb_refl in M.
Qed.

(** X7.  For an id that SQLite can hold, [get_habit_stats] returns a row.
    Its two counts are not negative and together do not exceed the number
    of records of the habit, with equality when every status is
    "completed" or "missed".  Without records both dates are NULL;
    otherwise they are dates of records of the habit and every record of
    the habit lies between them.  For an id beyond 64 bits the query
    cannot be run and the method returns [None]. *)
Theorem get_habit_stats_summary :
  forall (hid : Z) (d : Database.database),
    let rows := Spec.records_of hid d in
    (Database.sqlite_int hid = false -> Database.get_habit_stats hid d = None)
    /\ (Database.sqlite_int hid = true ->
        exists completed_count missed_count first_track last_track,
          Database.get_habit_stats hid d
          = Some (completed_count, missed_count, first_track, last_track)
          /\ 0 <= completed_count /\ 0 <= missed_count
          /\ completed_count + missed_count <= Py.len rows
          /\ ((forall r, In r rows ->
                 Database.status r = Database.completed
                 \/ Database.status r = Database.missed) ->
              completed_count + missed_count = Py.len rows)
          /\ (rows = [] -> first_track = None /\ last_track = None)
          /\ (rows <> [] ->
              exists lo hi,
                first_track = Some lo /\ last_track = Some hi
                /\ In lo (map Database.track_date rows)
                /\ In hi (map Database.track_date rows)
                /\ forall r, In r rows ->
                     lo <= Database.track_date r <= hi)).
Proof.
  intros hid d rows. unfold Database.get_habit_stats.
  split; intros ->; cbn [negb]; [reflexivity|].
  fold (Spec.records_of hid d). fold rows.
  destruct (count_status_bounds rows) as (H1 & H2 & H3 & H4).
  do 4 eexists. split; [reflexivity|].
  split; [exact H1|]. split; [exact H2|]. split; [exact H3|].
  split; [exact H4|]. split.
  - intros ->. split; reflexivity.
  - intros Hne. destruct rows as [|r rest]; [now elim Hne|].
    cbn [Database.min_date Database.max_date].
    destruct (fold_min_spec (map Database.track_date rest)
                (Database.track_date r)) as (Hlo & Hlos & Hloin).
    destruct (fold_max_spec (map Database.track_date rest)
                (Database.track_date r)) as (Hhi & Hhis & Hhiin).
    do 2 eexists. split; [reflexivity|]. split; [reflexivity|].
    split; [exact Hloin|]. split; [exact Hhiin|].
    intros r' [<-|Hr']; [lia|].
    rewrite Forall_forall in Hlos, Hhis.
    specialize (Hlos _ (in_map Database.track_date _ _ Hr')).
    specialize (Hhis _ (in_map Database.track_date _ _ Hr')). lia.
Qed.

Lemma get_habit_stats_summary_witness :
  Spec.records_of 1 three_days <> []
  /\ Database.get_habit_stats (2 ^ 63) three_days = None
  /\ exists completed_count missed_count lo hi,
       Database.get_habit_stats 1 three_days
       = Some (completed_count, missed_count, Some lo, Some hi)
       /\ lo <= hi.
Proof.
  assert (Spec.records_of 1 three_days <> []) as Hrows
      by (vm_compute; discriminate).
  split; [exact Hrows|].
  split; [now apply (get_habit_stats_summary (2 ^ 63) three_days)|].
  destruct (get_habit_stats_summary 1 three_days) as [_ Hrow].
  destruct (Hrow eq_refl)
    as (completed_count & missed_count & first_track & last_track
        & Hstats & _ & _ & _ & _ & _ & Hdates).
  destruct (Hdates Hrows) as (lo & hi & -> & -> & Hlo & _ & Hall).
  exists completed_count, missed_count, lo, hi.
  split; [exact Hstats|].
  apply in_map_iff in Hlo as (r & <- & Hr).
  specialize (Hall r Hr). lia.
Defined.

(** ** Bounds of the streak *)

Lemma streak_loop_bounds (records : list (Database.date * Py.str)) :
  forall (current_date : Database.date) (streak : Z),
    streak <= Database.streak_loop records current_date streak
    /\ Database.streak_loop records current_date streak
       <= streak
          + Z.of_nat (List.length
                        (filter (fun p => Py.str_eqb (snd p) Database.completed)
                           records)).
Proof.
  induction records as [|[rd st] rest IH]; intros current_date streak;
    cbn [Database.streak_loop filter snd].
  - cbn [List.length]. lia.
  - destruct (Py.str_eqb st Database.completed) eqn:C;
      destruct (rd =? current_date); cbn [andb List.length];
      rewrite ?Nat2Z.inj_succ;
      try (specialize (IH (current_date - 1) (streak + 1)); lia);
      lia.
Qed.

(** X8.  On any database the streak is not negative and never exceeds the
    number of "completed" records of the habit, which for an id that
    SQLite can hold is the first count of [get_habit_stats]. *)
Theorem get_streak_bounds :
  forall (today : Database.date) (hid : Z) (d : Database.database),
    0 <= Database.get_streak today hid d
    /\ Database.get_streak today hid d
       <= Database.count_status Database.completed (Spec.records_of hid d)
    /\ (Database.sqlite_int hid = true ->
        exists completed_count missed_count first_track last_track,
          Database.get_habit_stats hid d
          = Some (completed_count, missed_count, first_track, last_track)
          /\ Database.get_streak today hid d <= completed_count).
Proof.
  intros today hid d. rewrite get_streak_loop.
  destruct (streak_loop_bounds (Database.select_records hid d) today 0)
    as [Hlo Hhi].
  split; [lia|].
  assert (Database.streak_loop (Database.select_records hid d) today 0
          <= Database.count_status Database.completed
               (Spec.records_of hid d)) as Hcount.
  2:{ split; [exact Hcount|]. intros Hbound.
      unfold Database.get_habit_stats. rewrite Hbound. cbn [negb].
      do 4 eexists. split; [reflexivity | exact Hcount]. }
  unfold Spec.records_of.
  unfold Database.count_status, Database.select_records in *.
  rewrite filter_length_order_by_desc in Hhi.
  assert (forall rows : list Database.tracking_row,
             List.length
               (filter (fun p => Py.str_eqb (snd p) Database.completed)
                  (map (fun r => (Database.track_date r, Database.status r))
                     rows))
             = List.length
                 (filter (fun r => Py.str_eqb (Database.status r)
                                     Database.completed) rows)) as Hmap.
  { induction rows as [|r rows IH]; cbn [map filter snd]; [reflexivity|].
    destruct (Py.str_eqb (Database.status r) Database.completed);
      cbn [List.length]; now rewrite IH. }
  rewrite Hmap in Hhi. lia.
Qed.

Lemma get_streak_bounds_witness :
  Database.sqlite_int 1 = true
  /\ exists completed_count missed_count first_track last_track,
       Database.get_habit_stats 1 three_days
       = Some (completed_count, missed_count, first_track, last_track)
       /\ Database.get_streak 102 1 three_days <= completed_count.
Proof.
  split; [reflexivity|].
  destruct (get_streak_bounds 102 1 three_days) as (_ & _ & Hstats).
  now apply Hstats.
Defined.

(** ** The streak after a mark *)

(** X9.  On a reachable database and for an id that SQLite can hold (as
    every habit id is), marking a habit "missed" today brings its streak
    to 0, whatever the earlier records; marking it "completed" today gives
    a streak of at least 1, and of exactly 1 when yesterday has no
    "completed" record. *)
Theorem streak_after_mark :
  forall (today : Database.date) (d : Database.database) (hid : Z),
    reachable today d ->
    Database.sqlite_int hid = true ->
    Database.get_streak today hid
      (fst (Database.track_habit today hid Database.missed d)) = 0
    /\ 1 <= Database.get_streak today hid
              (fst (Database.track_habit today hid Database.completed d))
    /\ (Database.select_status hid (today - 1) d <> Some Database.completed ->
        Database.get_streak today hid
          (fst (Database.track_habit today hid Database.completed d)) = 1).
Proof.
  intros today d hid Hreach Hbound. split; [|].
  - set (d' := fst (Database.track_habit today hid Database.missed d)).
    assert (reachable today d') as Hreach'
        by (apply (reachable_call today
                     (call_track_habit hid Database.missed) d Hreach)).
    rewrite (get_streak_well_formed today hid d')
      by (now apply reachable_well_formed).
    apply backward_scan_stop.
    destruct (track_habit_status today hid Database.missed d Hbound)
      as [_ Hsel].
    fold d' in Hsel. rewrite Hsel, !Z.eqb_refl. cbn [andb].
    intros H. vm_compute in H. discriminate.
  - set (d' := fst (Database.track_habit today hid Database.completed d)).
    assert (reachable today d') as Hreach'
        by (apply (reachable_call today
                     (call_track_habit hid Database.completed) d Hreach)).
    destruct (track_habit_status today hid Database.completed d Hbound)
      as [_ Hsel]. fold d' in Hsel.
    assert (forall k : nat, (k <= 0)%nat ->
              Database.select_status hid (today - Z.of_nat k) d'
              = Some Database.completed) as Hrun.
    { intros k Hk. replace k with 0%nat by lia.
      rewrite Z.sub_0_r, Hsel, !Z.eqb_refl. reflexivity. }
    pose proof (run_has_records today hid d' 0 Hrun) as Hlen.
    rewrite (get_streak_well_formed today hid d')
      by (now apply reachable_well_formed).
    unfold Spec.current_streak.
    rewrite (backward_scan_run 0) by assumption.
    change (Z.of_nat 0) with 0. rewrite Z.sub_0_r.
    split.
    + pose proof (backward_scan_nonneg
                    (List.length (Spec.records_of hid d') - 0 - 1) hid
                    (today - 1) d'). lia.
    + intros Hyesterday. rewrite backward_scan_stop; [lia|].
      rewrite Hsel.
      replace (today - 1 =? today) with false
        by (symmetry; apply Z.eqb_neq; lia).
      now rewrite andb_false_r.
Qed.

Lemma streak_after_mark_witness :
  reachable 102 three_days
  /\ Database.sqlite_int 1 = true
  /\ Database.get_streak 102 1
       (fst (Database.track_habit 102 1 Database.missed three_days)) = 0
  /\ 1 <= Database.get_streak 102 1
            (fst (Database.track_habit 102 1 Database.completed three_days)).
Proof.
  split; [exact reachable_three_days|]. split; [reflexivity|].
  destruct (streak_after_mark 102 three_days 1 reachable_three_days eq_refl)
    as (Hmissed & Hcompleted & _).
  split; [exact Hmissed | exact Hcompleted].
Defined.

(** * Further properties of the bot *)

(** ** Frames: what the handlers leave alone *)

Section Frame.

Variable R : bot -> bot -> Prop.
Hypothesis R_refl : forall b, R b b.
Hypothesis R_trans : forall b1 b2 b3, R b1 b2 -> R b2 b3 -> R b1 b3.
Hypothesis R_send : forall b x,
  is_copy x = false -> R b (mk_bot (db b) (sessions b) (sent b ++ [x])).

Lemma keeps_ret {A : Type} (a : A) : keeps R (ret a).
Proof. intros b. apply R_refl. Qed.

Lemma keeps_raise {A : Type} (x : exn) : keeps R (@raise A x).
Proof. intros b. apply R_refl. Qed.

Lemma keeps_lift {A : Type} (r : result A) : keeps R (lift r).
Proof. intros b. apply R_refl. Qed.

Lemma keeps_query {A : Type} (q : Database.database -> A) :
  keeps R (query q).
Proof. intros b. apply R_refl. Qed.

Lemma keeps_get_data (uid : Z) : keeps R (get_data uid).
Proof. intros b. apply R_refl. Qed.

Lemma keeps_send (x : effect) : is_copy x = false -> keeps R (send x).
Proof. intros Hx b. now apply R_send. Qed.

Lemma keeps_bind {A B : Type} (m : M A) (k : A -> M B) :
  keeps R m -> (forall a, keeps R (k a)) -> keeps R (bind m k).
Proof.
  intros Hm Hk b. unfold bind. specialize (Hm b).
  destruct (m b) as [[a|x] b1]; cbn [snd] in *; [|assumption].
  eapply R_trans; [exact Hm | apply Hk].
Qed.

Lemma keeps_try_except {A : Type} (m : M A) (h : exn -> M A) :
  keeps R m -> (forall x, keeps R (h x)) -> keeps R (try_except m h).
Proof.
  intros Hm Hh b. unfold try_except. specialize (Hm b).
  destruct (m b) as [[a|x] b1]; cbn [snd] in *; [assumption|].
  eapply R_trans; [exact Hm | apply Hh].
Qed.

Ltac frame :=
  repeat first
    [ apply keeps_ret | apply keeps_raise | apply keeps_lift
    | apply keeps_query | apply keeps_get_data
    | apply keeps_send; reflexivity
    | apply keeps_bind; [|intros ?]
    | apply keeps_try_except; [|intros ?]
    | match goal with
      | |- keeps _ (if ?c then _ else _) => destruct c
      | |- keeps _ (match ?x with _ => _ end) => destruct x
      end ].

(** The handlers that only read the database and talk to the user. *)

Lemma keeps_command_help (m : message) : keeps R (command_help_handler m).
Proof. unfold command_help_handler. frame. Qed.

Lemma keeps_command_menu (m : message) : keeps R (command_menu_handler m).
Proof. unfold command_menu_handler. frame. Qed.

Lemma keeps_unknown_message (m : message) :
  keeps R (handle_unknown_message m).
Proof. unfold handle_unknown_message. frame. Qed.

Lemma keeps_my_habits (e : env) (c : callback_query) :
  keeps R (callback_my_habits e c).
Proof. unfold callback_my_habits. frame. Qed.

Lemma keeps_stats (e : env) (c : callback_query) :
  keeps R (callback_stats e c).
Proof. unfold callback_stats. frame. Qed.

Lemma keeps_help (c : callback_query) : keeps R (callback_help c).
Proof. unfold callback_help. frame. Qed.

Lemma keeps_back_to_main (c : callback_query) :
  keeps R (callback_back_to_main c).
Proof. unfold callback_back_to_main. frame. Qed.

Lemma keeps_habit_stats (e : env) (c : callback_query) :
  keeps R (callback_habit_stats e c).
Proof. unfold callback_habit_stats. frame. Qed.

Lemma keeps_habit_detail (e : env) (c : callback_query) :
  keeps R (callback_habit_detail e c).
Proof. unfold callback_habit_detail. frame. Qed.

Lemma keeps_admin_panel (e : env) (c : callback_query) :
  keeps R (callback_admin_panel e c).
Proof. unfold callback_admin_panel. frame. Qed.

Lemma keeps_admin_users (e : env) (c : callback_query) :
  keeps R (callback_admin_users e c).
Proof. unfold callback_admin_users. frame. Qed.

Lemma keeps_admin_stats (e : env) (c : callback_query) :
  keeps R (callback_admin_stats e c).
Proof. unfold callback_admin_stats. frame. Qed.

(** The handlers that write a session, the database, or deliver. *)

Variable ok_session : bot -> Z -> session -> Prop.
Hypothesis R_session : forall b uid s,
  ok_session b uid s ->
  R b (mk_bot (db b) ((uid, s) :: sessions b) (sent b)).

Variable ok_db : Database.database -> Database.database -> Prop.
Hypothesis R_db : forall b d',
  ok_db (db b) d' -> R b (mk_bot d' (sessions b) (sent b)).

Variable ok_copy : Prop.
Hypothesis R_copy : forall b chat_id delivered,
  ok_copy ->
  R b (mk_bot (db b) (sessions b)
         (sent b ++ [copy_message chat_id delivered])).

Lemma keeps_state_clear (uid : Z) :
  may_clear ok_session uid -> keeps R (state_clear uid).
Proof. intros Hu b. apply R_session, Hu. Qed.

Lemma keeps_enter_state (uid : Z) (st : fsm_state) :
  may_enter ok_session uid -> st <> waiting_for_habit_description ->
  keeps R (set_state uid st).
Proof. intros Hu Hst b. unfold set_state. apply R_session. now apply Hu. Qed.

Lemma keeps_set_state (uid : Z) (st : fsm_state) :
  may_write ok_session uid -> keeps R (set_state uid st).
Proof. intros Hu b. unfold set_state. apply R_session, Hu. Qed.

Lemma keeps_update_data (uid : Z) (name : Py.str) :
  may_write ok_session uid -> keeps R (update_data uid name).
Proof. intros Hu b. unfold update_data. apply R_session, Hu. Qed.

Lemma keeps_update {A : Type}
    (u : Database.database -> Database.database * A) :
  (forall d, ok_db d (fst (u d))) -> keeps R (update u).
Proof.
  intros Hu b. unfold update. specialize (Hu (db b)).
  destruct (u (db b)) as [d' a]. now apply R_db.
Qed.

Ltac frame_all :=
  repeat first
    [ apply keeps_ret | apply keeps_raise | apply keeps_lift
    | apply keeps_query | apply keeps_get_data
    | apply keeps_send; reflexivity
    | apply keeps_state_clear; assumption
    | apply keeps_enter_state; [assumption | discriminate]
    | apply keeps_set_state; assumption
    | apply keeps_update_data; assumption
    | apply keeps_update; intros ?; auto
    | apply keeps_bind; [|intros ?]
    | apply keeps_try_except; [|intros ?]
    | match goal with
      | |- keeps _ (if ?c then _ else _) => destruct c
      | |- keeps _ (match ?x with _ => _ end) => destruct x
      end ].

Lemma keeps_command_stop (m : message) :
  may_clear ok_session (id (from_user m)) -> keeps R (command_stop_handler m).
Proof. intros Hu. unfold command_stop_handler. frame_all. Qed.

Lemma keeps_new_habit (c : callback_query) :
  may_enter ok_session (id (cb_from_user c)) -> keeps R (callback_new_habit c).
Proof. intros Hu. unfold callback_new_habit. frame_all. Qed.

Lemma keeps_admin_broadcast (e : env) (c : callback_query) :
  may_enter ok_session (id (cb_from_user c)) ->
  keeps R (callback_admin_broadcast e c).
Proof. intros Hu. unfold callback_admin_broadcast. frame_all. Qed.

Lemma keeps_process_habit_name (m : message) :
  may_write ok_session (id (from_user m)) -> keeps R (process_habit_name m).
Proof. intros Hu. unfold process_habit_name. frame_all. Qed.

Lemma keeps_command_start (e : env) (m : message) :
  (forall d, ok_db d
               (Database.add_user (ADMIN_ID e) (today e) (id (from_user m))
                  (tg_username (from_user m)) (tg_first_name (from_user m))
                  (tg_last_name (from_user m)) d)) ->
  keeps R (command_start_handler e m).
Proof. intros Hdb. unfold command_start_handler. frame_all. Qed.

Lemma keeps_complete_habit (e : env) (c : callback_query) :
  (forall hid d,
     ok_db d (fst (Database.track_habit (today e) hid Database.completed d))) ->
  keeps R (callback_complete_habit e c).
Proof. intros Hdb. unfold callback_complete_habit. frame_all. Qed.

Lemma keeps_miss_habit (e : env) (c : callback_query) :
  (forall hid d,
     ok_db d (fst (Database.track_habit (today e) hid Database.missed d))) ->
  keeps R (callback_miss_habit e c).
Proof. intros Hdb. unfold callback_miss_habit. frame_all. Qed.

Lemma keeps_process_habit_description (e : env) (m : message) :
  may_clear ok_session (id (from_user m)) ->
  (forall name description d,
     ok_db d (fst (Database.add_habit (today e) (id (from_user m)) name
                     description d))) ->
  keeps R (process_habit_description e m).
Proof. intros Hu Hdb. unfold process_habit_description. frame_all. Qed.

Lemma keeps_broadcast_loop (e : env) (total_users : Z)
    (users : list Database.user_row) :
  ok_copy ->
  forall i success_count fail_count,
    keeps R (broadcast_loop e users i total_users success_count fail_count).
Proof.
  intros Hcopy. induction users as [|user rest IH]; intros i s f;
    cbn [broadcast_loop]; [apply keeps_ret|].
  apply keeps_bind; [intros b; now apply R_copy|]. intros _.
  apply keeps_bind; [|intros _; apply IH].
  destruct (i mod 10 =? 0); [apply keeps_send; reflexivity | apply keeps_ret].
Qed.

Lemma keeps_process_broadcast_message (e : env) (m : message) :
  may_clear ok_session (id (from_user m)) ->
  (is_admin e (id (from_user m)) = true -> ok_copy) ->
  keeps R (process_broadcast_message e m).
Proof.
  intros Hu Hcopy. unfold process_broadcast_message.
  destruct (is_admin e (id (from_user m))); cbn [negb]; [|frame_all].
  specialize (Hcopy eq_refl).
  pose proof (keeps_broadcast_loop e) as Hloop.
  frame_all; now apply Hloop.
Qed.

Lemma may_write_clear (uid : Z) :
  may_write ok_session uid -> may_clear ok_session uid.
Proof. intros H b. apply H. Qed.

Lemma may_write_enter (uid : Z) :
  may_write ok_session uid -> may_enter ok_session uid.
Proof. intros H b st _. apply H. Qed.

(** Every update, through the routers. *)
Lemma keeps_feed_update (e : env) (u : update_event) (b : bot) :
  may_write ok_session (sender u) ->
  (reaches_writer e b u = true ->
   forall c d, bot_call e (sender u) c ->
               ok_db d (apply_call (today e) c d)) ->
  (reaches_broadcast e b u = true ->
   is_admin e (sender u) = true -> ok_copy) ->
  R b (feed_update e u b).
Proof.
  intros Hu Hdb Hcopy.
  pose proof (may_write_clear _ Hu) as Hclear.
  pose proof (may_write_enter _ Hu) as Henter.
  destruct u as [m|c]; cbn [feed_update sender] in *.
  - unfold reaches_writer, reaches_broadcast in *.
    destruct (route_message e (state (get_session (id (from_user m)) b))
                (command_text m)) as [h|]; [|apply R_refl].
    destruct h; cbn [run_message].
    + apply keeps_command_start. intros d.
      apply (Hdb eq_refl
               (call_add_user (ADMIN_ID e) (id (from_user m))
                  (tg_username (from_user m)) (tg_first_name (from_user m))
                  (tg_last_name (from_user m)))).
      simpl. auto.
    + apply keeps_command_help.
    + now apply keeps_command_stop.
    + apply keeps_command_menu.
    + apply keeps_process_broadcast_message; [assumption|].
      now apply Hcopy.
    + now apply keeps_process_habit_name.
    + apply keeps_process_habit_description; [assumption|].
      intros name description d.
      apply (Hdb eq_refl (call_add_habit (id (from_user m)) name description)).
      reflexivity.
    + apply keeps_unknown_message.
  - unfold reaches_writer in *.
    destruct (route_callback (data c)) as [h|]; [|apply R_refl].
    destruct h; cbn [run_callback].
    + apply keeps_my_habits.
    + now apply keeps_new_habit.
    + apply keeps_stats.
    + apply keeps_help.
    + apply keeps_back_to_main.
    + apply keeps_habit_stats.
    + apply keeps_complete_habit. intros hid d.
      apply (Hdb eq_refl (call_track_habit hid Database.completed)).
      simpl. auto.
    + apply keeps_miss_habit. intros hid d.
      apply (Hdb eq_refl (call_track_habit hid Database.missed)).
      simpl. auto.
    + apply keeps_habit_detail.
    + apply keeps_admin_panel.
    + apply keeps_admin_users.
    + apply keeps_admin_stats.
    + now apply keeps_admin_broadcast.
Qed.

End Frame.

(** ** Sessions do not interfere *)

(** X10.  Whatever the update and whoever sends it, the session of every
    other user (its dialog state and its stored name) is left as it
    was. *)
Theorem sessions_are_isolated :
  forall (e : env) (u : update_event) (b : bot) (v : Z),
    v <> sender u ->
    get_session v (feed_update e u b) = get_session v b.
Proof.
  intros e u b v Hv.
  apply (keeps_feed_update
           (fun b1 b2 => get_session v b2 = get_session v b1))
    with (ok_session := fun _ uid _ => uid <> v) (ok_db := fun _ _ => True)
         (ok_copy := True); try solve [auto | congruence].
  intros b1 uid s Hne. unfold get_session; cbn [sessions find fst].
  apply Z.eqb_neq in Hne. now rewrite Hne.
Qed.

Lemma sessions_are_isolated_witness :
  get_session 7 (feed_update sample_env (says bob "/stop") two_dialogs)
  = get_session 7 two_dialogs
  /\ state (get_session 7 two_dialogs) = Some waiting_for_habit_name
  /\ state (get_session 8
              (feed_update sample_env (says bob "/stop") two_dialogs))
     = None.
Proof.
  split; [|split; vm_compute; reflexivity].
  apply (sessions_are_isolated sample_env (says bob "/stop") two_dialogs 7).
  vm_compute. discriminate.
Defined.

(** ** Who writes to the database *)

(** X11.  Only [/start], the description step of the habit dialog and the
    [complete_] and [miss_] buttons reach a handler that writes: every
    other update (menus, listings, statistics, the administrator's panel,
    a broadcast) leaves the database exactly as it was. *)
Theorem only_writers_change_database :
  forall (e : env) (u : update_event) (b : bot),
    reaches_writer e b u = false ->
    db (feed_update e u b) = db b.
Proof.
  intros e u b Hread.
  apply (keeps_feed_update (fun b1 b2 => db b2 = db b1))
    with (ok_session := fun _ _ _ => True) (ok_db := fun d d' => d' = d)
         (ok_copy := True); try solve [auto | congruence | easy].
Qed.

Lemma only_writers_change_database_witness :
  reaches_writer sample_env three_users (on_message hello) = false
  /\ db (feed_update sample_env (on_message hello) three_users)
     = db three_users.
Proof.
  assert (reaches_writer sample_env three_users (on_message hello) = false)
    as Hread
      by (vm_compute; reflexivity).
  split; [exact Hread|].
  exact (only_writers_change_database sample_env (on_message hello)
           three_users Hread).
Defined.

(** ** Who can broadcast *)

(** X12.  A delivery to another chat ([bot.copy_message]) happens only
    when [process_broadcast_message] handles a message of the
    administrator: an update of anyone else, and an update routed to any
    other handler, adds no delivery. *)
Theorem only_administrator_broadcasts :
  forall (e : env) (u : update_event) (b : bot),
    is_admin e (sender u) = false \/ reaches_broadcast e b u = false ->
    deliveries (sent (feed_update e u b)) = deliveries (sent b).
Proof.
  intros e u b Hno.
  apply (keeps_feed_update
           (fun b1 b2 => deliveries (sent b2) = deliveries (sent b1)))
    with (ok_session := fun _ _ _ => True) (ok_db := fun _ _ => True)
         (ok_copy := False); try solve [auto | congruence | tauto | easy].
  - intros b1 x Hx. cbn [sent]. rewrite deliveries_app.
    destruct x; try discriminate; simpl; now rewrite app_nil_r.
  - intros Hb Ha. destruct Hno; congruence.
Qed.

Lemma only_administrator_broadcasts_witness :
  is_admin sample_env (sender (says ann "Hello")) = false
  /\ deliveries (sent (feed_update sample_env (says ann "Hello") three_users))
     = deliveries (sent three_users).
Proof.
  split; [reflexivity|].
  apply (only_administrator_broadcasts sample_env (says ann "Hello")
           three_users).
  left. reflexivity.
Defined.

(** ** The database of a running bot *)

(** X13.  In every run of the bot the database is one that the calls of
    class [Database] reach on days that never go backwards, so what holds
    of every such history (the streak, the upsert, the consistency of the
    tables) holds while the bot runs. *)
Theorem bot_run_reachable :
  forall (admin : Z) (day : Database.date) (b : bot),
    bot_run admin day b -> reachable day (db b).
Proof.
  induction 1 as [day|e u b _ IH _|day day' b _ IH Hle].
  - apply reachable_init.
  - revert IH.
    apply (keeps_feed_update
             (fun b1 b2 => reachable (today e) (db b1) ->
                           reachable (today e) (db b2)))
      with (ok_session := fun _ _ _ => True)
           (ok_db := fun d d' => exists c, d' = apply_call (today e) c d)
           (ok_copy := True); try solve [auto | eauto | easy].
    intros b1 d' [c ->] Hr. now apply reachable_call.
  - now apply reachable_later with day.
Qed.

Lemma bot_run_reachable_witness :
  bot_run 1 102 habit_created /\ reachable 102 (db habit_created).
Proof.
  assert (bot_run 1 102 habit_created) as Hrun.
  { unfold habit_created, feed_updates. cbn [fold_left].
    repeat (apply (bot_run_update 1 sample_env); [|reflexivity]).
    apply bot_run_start. }
  split; [exact Hrun|].
  exact (bot_run_reachable 1 102 habit_created Hrun).
Defined.

(** ** The data model is kept by every run *)

Lemma valid_session_idle : valid_session idle.
Proof. split; [discriminate | discriminate]. Qed.

Lemma get_session_valid (uid : Z) (b : bot) :
  Forall (fun p => valid_session (snd p)) (sessions b) ->
  valid_session (get_session uid b).
Proof.
  intros Hall. unfold get_session.
  destruct (find (fun p => fst p =? uid) (sessions b)) as [p|] eqn:F;
    [|apply valid_session_idle].
  apply find_some in F as [Hin _]. rewrite Forall_forall in Hall.
  now apply Hall.
Qed.

Lemma route_message_description (e : env) (s : option fsm_state)
    (t : option Py.str) :
  route_message e s t = Some H_process_habit_description ->
  s = Some waiting_for_habit_description.
Proof.
  unfold route_message, message_handlers. cbn [find fst snd].
  destruct (passes e (command (Py.lit "start")) s t); [discriminate|].
  destruct (passes e (command (Py.lit "help")) s t); [discriminate|].
  destruct (passes e (command (Py.lit "stop")) s t); [discriminate|].
  destruct (passes e (command (Py.lit "menu")) s t); [discriminate|].
  destruct s as [[| |]|]; cbn; intros H; try discriminate; reflexivity.
Qed.

Lemma data_model_add_user (admin : Z) (e : env) (uid : Z)
    (uname : option Py.str) (fname : Py.str) (lname : option Py.str)
    (d : Database.database) :
  ADMIN_ID e = admin ->
  Forall (valid_user admin) (Database.users d) ->
  Forall (valid_user admin)
    (Database.users
       (Database.add_user (ADMIN_ID e) (today e) uid uname fname lname d)).
Proof.
  intros Hadmin Hall. unfold Database.add_user; cbn [Database.users].
  rewrite Hadmin. apply Forall_map.
  assert (Forall (valid_user admin)
            (if existsb (fun u => Database.user_id u =? uid) (Database.users d)
             then Database.users d
             else Database.insert_user
                    (Database.mk_user uid uname fname lname (today e)
                       (if uid =? admin then 1 else 0))
                    (Database.users d))) as Hrows.
  { destruct (existsb _ (Database.users d)); [assumption|].
    apply Forall_insert_user; [reflexivity | assumption]. }
  eapply Forall_impl; [|exact Hrows].
  intros u Hu. unfold valid_user in *.
  destruct (Database.user_id u =? uid) eqn:E; [|assumption].
  cbn [Database.is_admin Database.user_id].
  apply Z.eqb_eq in E. now rewrite E.
Qed.

Lemma data_model_track_habit (today : Database.date) (hid : Z) (st : Py.str)
    (d : Database.database) :
  st = Database.completed \/ st = Database.missed ->
  Forall valid_tracking (Database.habit_tracking d) ->
  Forall valid_tracking
    (Database.habit_tracking (fst (Database.track_habit today hid st d))).
Proof.
  intros Hst Hall.
  destruct (Database.sqlite_int hid) eqn:Hbound;
    [|now rewrite track_habit_unbound].
  unfold Database.track_habit, Database.insert_tracking.
  rewrite Hbound. cbn [negb].
  destruct (existsb (Database.same_day hid today) (Database.habit_tracking d));
    cbn [fst Database.update_tracking Database.habit_tracking].
  - apply Forall_map. eapply Forall_impl; [|exact Hall].
    intros r Hr. now destruct (Database.same_day hid today r).
  - apply Forall_app. split; [assumption|].
    constructor; [exact Hst | constructor].
Qed.

Lemma data_model_process_habit_name (admin : Z) (m : message) (b : bot) :
  data_model admin b -> data_model admin (snd (process_habit_name m b)).
Proof.
  intros Hb. destruct (text m) as [t|] eqn:Ht.
  - destruct (process_habit_name_cases m t b Ht) as (Hlong & Hshort & Hok).
    destruct (Z_lt_dec 100 (Py.len (Py.strip t))) as [H|H];
      [rewrite Hlong by assumption; exact Hb|].
    destruct (Z_lt_dec (Py.len (Py.strip t)) 3) as [H3|H3];
      [rewrite Hshort by assumption; exact Hb|].
    rewrite Hok by lia. destruct Hb as (Hu & Ht' & Hh & Hs).
    unfold data_model; cbn [snd db sessions].
    repeat (split; try assumption).
    constructor; [|constructor; [|assumption]]; cbn [snd].
    + split; cbn [data_habit_name state].
      * intros name [= <-]. lia.
      * discriminate.
    + split; cbn [data_habit_name state].
      * intros name [= <-]. lia.
      * discriminate.
  - unfold process_habit_name, text_strip. rewrite Ht. exact Hb.
Qed.

Lemma data_model_save_habit (admin : Z) (e : env) (m : message)
    (description : Py.str) (b : bot) :
  data_model admin b ->
  state (get_session (id (from_user m)) b)
  = Some waiting_for_habit_description ->
  Py.len description <= 500 ->
  data_model admin (snd (save_habit e m description b)).
Proof.
  intros (Hu & Ht & Hh & Hs) Hstate Hlen.
  destruct (get_session_valid (id (from_user m)) b Hs) as [Hname Hsome].
  specialize (Hsome Hstate).
  destruct (data_habit_name (get_session (id (from_user m)) b))
    as [name|] eqn:Hdata; [|now elim Hsome].
  specialize (Hname name eq_refl).
  assert (Forall valid_habit
            (Database.habits (db b)
             ++ [Database.mk_habit (Database.habits_seq (db b) + 1)
                   (id (from_user m)) (Some name) description (today e) 1]))
    as Hh'.
  { apply Forall_app. split; [assumption|].
    constructor; [|constructor]. split; cbn; [eauto | assumption]. }
  unfold save_habit, bind, get_data, update, Database.add_habit.
  rewrite Hdata. cbn [db sessions sent fst snd].
  destruct (negb (Database.habits_seq (db b) + 1 =? 0));
    unfold state_clear, put_session, send; cbn [db sessions sent fst snd];
    unfold data_model; cbn [db sessions Database.users Database.habits
      Database.habit_tracking]; repeat (split; try assumption).
  constructor; [apply valid_session_idle | assumption].
Qed.

Lemma len_sentinel : Py.len (Py.lit "Без описания") <= 500.
Proof. vm_compute. discriminate. Qed.

Lemma data_model_process_habit_description (admin : Z) (e : env)
    (m : message) (b : bot) :
  data_model admin b ->
  state (get_session (id (from_user m)) b)
  = Some waiting_for_habit_description ->
  data_model admin (snd (process_habit_description e m b)).
Proof.
  intros Hb Hstate. unfold process_habit_description.
  destruct (text m) as [t|] eqn:Ht.
  - destruct (Py.str_eqb t (Py.lit "/skip")).
    + apply data_model_save_habit; [assumption | assumption |].
      apply len_sentinel.
    + unfold text_strip. rewrite Ht. unfold bind at 1. unfold lift at 1.
      destruct (Py.len (Py.strip t) >? 500) eqn:L; [exact Hb|].
      apply data_model_save_habit; [assumption | assumption |].
      rewrite Z.gtb_ltb in L. apply Z.ltb_ge in L. exact L.
  - unfold text_strip. rewrite Ht. exact Hb.
Qed.

Lemma track_habit_habits (today : Database.date) (hid : Z) (st : Py.str)
    (d : Database.database) :
  Database.habits (fst (Database.track_habit today hid st d))
  = Database.habits d.
Proof.
  destruct (Database.sqlite_int hid) eqn:Hbound;
    [|now rewrite track_habit_unbound].
  unfold Database.track_habit, Database.insert_tracking.
  rewrite Hbound. cbn [negb].
  now destruct (existsb (Database.same_day hid today)
                  (Database.habit_tracking d)).
Qed.

Lemma track_habit_users (today : Database.date) (hid : Z) (st : Py.str)
    (d : Database.database) :
  Database.users (fst (Database.track_habit today hid st d))
  = Database.users d.
Proof.
  destruct (Database.sqlite_int hid) eqn:Hbound;
    [|now rewrite track_habit_unbound].
  unfold Database.track_habit, Database.insert_tracking.
  rewrite Hbound. cbn [negb].
  now destruct (existsb (Database.same_day hid today)
                  (Database.habit_tracking d)).
Qed.

Lemma data_model_feed_update (admin : Z) (e : env) (u : update_event)
    (b : bot) :
  ADMIN_ID e = admin ->
  data_model admin b -> data_model admin (feed_update e u b).
Proof.
  intros Hadmin.
  set (R := fun b1 b2 : bot => data_model admin b1 -> data_model admin b2).
  set (ok_session := fun (b1 : bot) (uid : Z) (s : session) =>
                       data_model admin b1 -> valid_session s).
  set (ok_db := fun d d' : Database.database =>
                  (Forall (valid_user admin) (Database.users d) ->
                   Forall (valid_user admin) (Database.users d'))
                  /\ (Forall valid_tracking (Database.habit_tracking d) ->
                      Forall valid_tracking (Database.habit_tracking d'))
                  /\ Database.habits d' = Database.habits d).
  assert (forall b1, R b1 b1) as R_refl by (intros b1 H; exact H).
  assert (forall b1 b2 b3, R b1 b2 -> R b2 b3 -> R b1 b3) as R_trans
      by (intros b1 b2 b3 H12 H23 H; auto).
  assert (forall b1 x, is_copy x = false ->
            R b1 (mk_bot (db b1) (sessions b1) (sent b1 ++ [x]))) as R_send
      by (intros b1 x _ H; exact H).
  assert (forall b1 chat_id delivered, True ->
            R b1 (mk_bot (db b1) (sessions b1)
                    (sent b1 ++ [copy_message chat_id delivered]))) as R_copy
      by (intros b1 c k _ H; exact H).
  assert (forall b1 uid s, ok_session b1 uid s ->
            R b1 (mk_bot (db b1) ((uid, s) :: sessions b1) (sent b1)))
    as R_session.
  { intros b1 uid s Hs H. pose proof (Hs H) as Hv.
    destruct H as (H1 & H2 & H3 & H4). unfold data_model; cbn [db sessions].
    repeat (split; try assumption). now constructor. }
  assert (forall b1 d', ok_db (db b1) d' ->
            R b1 (mk_bot d' (sessions b1) (sent b1))) as R_db.
  { intros b1 d' (Hu & Ht & Hh) (H1 & H2 & H3 & H4).
    unfold data_model; cbn [db sessions]. rewrite Hh. auto. }
  assert (forall uid, may_clear ok_session uid) as Hclear
      by (intros uid b1 _; apply valid_session_idle).
  assert (forall uid, may_enter ok_session uid) as Henter.
  { intros uid b1 st Hst (_ & _ & _ & Hs).
    destruct (get_session_valid uid b1 Hs) as [Hname _].
    split; cbn [data_habit_name state]; [exact Hname|].
    intros [= ->]. now elim Hst. }
  change (R b (feed_update e u b)).
  destruct u as [m|c]; cbn [feed_update].
  - destruct (route_message e (state (get_session (id (from_user m)) b))
                (command_text m)) as [h|] eqn:Hroute; [|apply R_refl].
    destruct h; cbn [run_message].
    + apply (keeps_command_start R) with (ok_db := ok_db); auto.
      intros d. split; [|split; [auto | reflexivity]].
      now apply data_model_add_user.
    + apply (keeps_command_help R); auto.
    + apply (keeps_command_stop R) with (ok_session := ok_session); auto.
    + apply (keeps_command_menu R); auto.
    + apply (keeps_process_broadcast_message R)
        with (ok_session := ok_session) (ok_copy := True); auto.
    + intros Hb. now apply data_model_process_habit_name.
    + intros Hb. apply data_model_process_habit_description; [assumption|].
      now apply route_message_description with e (command_text m).
    + apply (keeps_unknown_message R); auto.
  - destruct (route_callback (data c)) as [h|]; [|apply R_refl].
    destruct h; cbn [run_callback].
    + apply (keeps_my_habits R); auto.
    + apply (keeps_new_habit R) with (ok_session := ok_session); auto.
    + apply (keeps_stats R); auto.
    + apply (keeps_help R); auto.
    + apply (keeps_back_to_main R); auto.
    + apply (keeps_habit_stats R); auto.
    + apply (keeps_complete_habit R) with (ok_db := ok_db); auto.
      intros hid d. split; [now rewrite track_habit_users|].
      split; [|apply track_habit_habits].
      apply data_model_track_habit. now left.
    + apply (keeps_miss_habit R) with (ok_db := ok_db); auto.
      intros hid d. split; [now rewrite track_habit_users|].
      split; [|apply track_habit_habits].
      apply data_model_track_habit. now right.
    + apply (keeps_habit_detail R); auto.
    + apply (keeps_admin_panel R); auto.
    + apply (keeps_admin_users R); auto.
    + apply (keeps_admin_stats R); auto.
    + apply (keeps_admin_broadcast R) with (ok_session := ok_session); auto.
Qed.

(** X14.  In every run of the bot from a fresh database, under one
    configured administrator: the administrator flag of every user row is 1
    exactly for the configured id; every tracking record has status
    "completed" or "missed"; every habit has a name of 3 to 100 characters
    and a description of at most 500; and a session that waits for the
    description holds such a name. *)
Theorem bot_run_data_model :
  forall (admin : Z) (day : Database.date) (b : bot),
    bot_run admin day b -> data_model admin b.
Proof.
  induction 1 as [day|e u b _ IH Hadmin|day day' b _ IH Hle].
  - unfold data_model; simpl. repeat split; constructor.
  - now apply data_model_feed_update.
  - exact IH.
Qed.

Lemma bot_run_habit_created : bot_run 1 102 habit_created.
Proof.
  unfold habit_created, feed_updates. cbn [fold_left].
  repeat (apply (bot_run_update 1 sample_env); [|reflexivity]).
  apply bot_run_start.
Qed.

Lemma bot_run_data_model_witness :
  bot_run 1 102 habit_created
  /\ Forall valid_habit (Database.habits (db habit_created))
  /\ List.length (Database.habits (db habit_created)) = 1%nat.
Proof.
  split; [exact bot_run_habit_created|].
  destruct (bot_run_data_model 1 102 habit_created bot_run_habit_created)
    as (_ & _ & Hhabits & _).
  split; [exact Hhabits | reflexivity].
Defined.

(** ** Ids that name no habit *)





(** ** The administrator's actions *)

(** X17.  For a user who is not the configured administrator, each of the
    four administrator buttons only shows a refusal as an alert: no message
    is edited, the database and the sessions stay as they were, and in
    particular the broadcast dialog is not entered. *)
Theorem administrator_buttons_refuse :
  forall (e : env) (c : callback_query) (b : bot),
    is_admin e (id (cb_from_user c)) = false ->
    callback_admin_panel e c b
    = (Ok tt, having_sent [no_admin_rights_notice] b)
    /\ callback_admin_users e c b
       = (Ok tt, having_sent [access_denied_notice] b)
    /\ callback_admin_stats e c b
       = (Ok tt, having_sent [access_denied_notice] b)
    /\ callback_admin_broadcast e c b
       = (Ok tt, having_sent [access_denied_notice] b).
Proof.
  intros e c b Hno.
  unfold callback_admin_panel, callback_admin_users, callback_admin_stats,
    callback_admin_broadcast.
  rewrite Hno. cbn [negb]. repeat split.
Qed.

Lemma administrator_buttons_refuse_witness :
  feed_update sample_env (taps ann "admin_broadcast") naming_habit
  = having_sent [access_denied_notice] naming_habit
  /\ state (get_session 7
              (feed_update sample_env (taps ann "admin_broadcast")
                 naming_habit))
     = Some waiting_for_habit_name.
Proof.
  destruct (administrator_buttons_refuse sample_env
              (mk_callback ann (Py.lit "admin_broadcast")) naming_habit
              eq_refl) as (_ & _ & _ & Hdenied).
  assert (feed_update sample_env (taps ann "admin_broadcast") naming_habit
          = having_sent [access_denied_notice] naming_habit) as Hfeed.
  { change (feed_update sample_env (taps ann "admin_broadcast") naming_habit)
      with (snd (callback_admin_broadcast sample_env
                   (mk_callback ann (Py.lit "admin_broadcast"))
                   naming_habit)).
    now rewrite Hdenied. }
  split; [exact Hfeed|]. rewrite Hfeed. reflexivity.
Defined.

(** X18.  A message in the broadcast dialog from someone who is not the
    administrator is answered with a refusal, and [/cancel] from the
    administrator with a confirmation; either way the dialog is closed,
    nothing is delivered to anyone and the database is untouched. *)
Theorem broadcast_refused_or_cancelled :
  forall (e : env) (m : message) (b : bot),
    (is_admin e (id (from_user m)) = false ->
     process_broadcast_message e m b
     = (Ok tt,
        mk_bot (db b) ((id (from_user m), idle) :: sessions b)
          (sent b
           ++ [message_answer (Py.lit "У вас нет прав для этого действия")])))
    /\ (is_admin e (id (from_user m)) = true ->
        text m = Some (Py.lit "/cancel") ->
        process_broadcast_message e m b
        = (Ok tt,
           mk_bot (db b) ((id (from_user m), idle) :: sessions b)
             (sent b ++ [message_answer (Py.lit "❌ Рассылка отменена")]))).
Proof.
  intros e m b. unfold process_broadcast_message. split.
  - intros ->. reflexivity.
  - intros -> ->. reflexivity.
Qed.

Lemma broadcast_refused_or_cancelled_witness :
  process_broadcast_message sample_env
    (mk_message admin (Some (Py.lit "/cancel")) None) three_users
  = (Ok tt,
     mk_bot (db three_users) ((1, idle) :: sessions three_users)
       (sent three_users ++ [message_answer (Py.lit "❌ Рассылка отменена")]))
  /\ state (get_session 1 three_users) = Some waiting_for_message.
Proof.
  split; [|reflexivity].
  destruct (broadcast_refused_or_cancelled sample_env
              (mk_message admin (Some (Py.lit "/cancel")) None) three_users)
    as [_ Hcancel].
  exact (Hcancel eq_refl eq_refl).
Defined.

(** ** Commands and dialogs *)

Lemma str_eqb_neq (a b : Py.str) : a <> b -> Py.str_eqb a b = false.
Proof.
  intros Hne. destruct (Py.str_eqb a b) eqn:E; [|reflexivity].
  apply str_eqb_eq in E. now elim Hne.
Qed.

(** ** Routing of messages *)

(** The command filter in terms of the command and the mention that the
    text names. *)
Lemma passes_command (e : env) (name : Py.str) (s : option fsm_state)
    (t : Py.str) :
  passes e (command name) s (Some t)
  = match command_part t with
    | Some c => addressed e t && Py.str_eqb c name
    | None => false
    end.
Proof.
  unfold passes, command_part, addressed, mention_part.
  destruct (Py.first_token t) as [|prefix rest]; [reflexivity|].
  cbn [tl]. now destruct (prefix =? 47)%N.
Qed.

Lemma route_message_text (e : env) (s : option fsm_state) (t : Py.str) :
  route_message e s (Some t)
  = Some match command_part t with
         | Some c =>
             if addressed e t && Py.str_eqb c (Py.lit "start")
             then H_command_start
             else if addressed e t && Py.str_eqb c (Py.lit "help")
             then H_command_help
             else if addressed e t && Py.str_eqb c (Py.lit "stop")
             then H_command_stop
             else if addressed e t && Py.str_eqb c (Py.lit "menu")
             then H_command_menu
             else dialog_handler s
         | None => dialog_handler s
         end.
Proof.
  unfold route_message, message_handlers. cbn [find fst snd].
  rewrite !passes_command.
  destruct (command_part t) as [c|].
  - destruct (addressed e t && Py.str_eqb c (Py.lit "start"));
      [reflexivity|].
    destruct (addressed e t && Py.str_eqb c (Py.lit "help"));
      [reflexivity|].
    destruct (addressed e t && Py.str_eqb c (Py.lit "stop"));
      [reflexivity|].
    destruct (addressed e t && Py.str_eqb c (Py.lit "menu"));
      [reflexivity|].
    now destruct s as [[| |]|].
  - now destruct s as [[| |]|].
Qed.

Lemma is_command_parts (name : string) (t : Py.str) :
  In name ["start"; "help"; "stop"; "menu"]%string ->
  is_command name t ->
  command_part t = Some (Py.lit name) /\ mention_part t = [].
Proof.
  unfold is_command, command_part, mention_part.
  intros Hname ->.
  repeat (destruct Hname as [<-|Hname]; [split; reflexivity|]).
  destruct Hname.
Qed.

Lemma route_message_addressed (e : env) (s : option fsm_state) (t : Py.str)
    (name : string) (handler : message_handler) :
  In (name, handler) commands ->
  command_part t = Some (Py.lit name) -> addressed e t = true ->
  route_message e s (Some t) = Some handler.
Proof.
  intros Hin Hc Ha. rewrite route_message_text, Hc, Ha. cbn [andb].
  unfold commands in Hin.
  repeat (destruct Hin as [[= <- <-]|Hin]; [reflexivity|]).
  destruct Hin.
Qed.

Lemma route_message_command (e : env) (s : option fsm_state) (t : Py.str)
    (name : string) (handler : message_handler) :
  In (name, handler) commands ->
  is_command name t -> route_message e s (Some t) = Some handler.
Proof.
  intros Hin Hc.
  assert (In name ["start"; "help"; "stop"; "menu"]%string) as Hname
      by (apply (in_map fst) in Hin; exact Hin).
  destruct (is_command_parts name t Hname Hc) as [Hpart Hmention].
  apply route_message_addressed with name; [exact Hin | exact Hpart |].
  unfold addressed. now rewrite Hmention.
Qed.

Lemma route_message_not_addressed (e : env) (s : option fsm_state)
    (t : Py.str) :
  addressed e t = false ->
  route_message e s (Some t) = Some (dialog_handler s).
Proof.
  intros Ha. rewrite route_message_text, Ha. cbn [andb].
  now destruct (command_part t).
Qed.

Lemma route_message_plain (e : env) (s : option fsm_state) (t : Py.str) :
  plain_text t -> route_message e s (Some t) = Some (dialog_handler s).
Proof.
  intros (H1 & H2 & H3 & H4). rewrite route_message_text.
  destruct (command_part t) as [c|]; [|reflexivity].
  rewrite (str_eqb_neq c (Py.lit "start")), (str_eqb_neq c (Py.lit "help")),
    (str_eqb_neq c (Py.lit "stop")), (str_eqb_neq c (Py.lit "menu"))
    by congruence.
  now rewrite andb_false_r.
Qed.

Lemma route_message_none (e : env) (s : option fsm_state) :
  route_message e s None = Some (dialog_handler s).
Proof. now destruct s as [[| |]|]. Qed.

(** The text that the command filters read when the message has a text
    with a token. *)
Lemma command_text_text (m : message) (t : Py.str) :
  text m = Some t -> Py.first_token t <> [] -> command_text m = Some t.
Proof.
  unfold command_text. intros -> Htoken.
  destruct t as [|c t]; [now elim Htoken | reflexivity].
Qed.

Lemma command_text_command (m : message) (t : Py.str) (name : string) :
  text m = Some t -> is_command name t -> command_text m = Some t.
Proof.
  intros Ht Hc. apply command_text_text; [exact Ht|].
  unfold is_command in Hc. rewrite Hc. discriminate.
Qed.

(** X19.  The four commands are tested before the dialog states.  The
    filters read the text of the message, or its caption when it has no
    text.  A text whose first token is [/start], [/help], [/stop] or
    [/menu], alone or followed by [@] and a mention that names this bot,
    goes to the handler of that command whatever dialog is open.  Every
    other message goes to the handler of the open dialog, or to the
    fallback when none is open: a command with a mention of another bot,
    a text that names none of the four commands, and a message with
    neither text nor caption.  So every message has a handler. *)
Theorem commands_preempt_dialogs :
  forall (e : env) (s : option fsm_state) (t : Py.str),
    (forall (name : string) (handler : message_handler),
       In (name, handler) commands ->
       (is_command name t -> route_message e s (Some t) = Some handler)
       /\ (command_part t = Some (Py.lit name) -> addressed e t = true ->
           route_message e s (Some t) = Some handler)
       /\ (command_part t = Some (Py.lit name) -> addressed e t = false ->
           route_message e s (Some t) = Some (dialog_handler s)))
    /\ (plain_text t -> route_message e s (Some t) = Some (dialog_handler s))
    /\ route_message e s None = Some (dialog_handler s)
    /\ (forall m : message,
          (text m = Some t -> Py.first_token t <> [] ->
           command_text m = Some t)
          /\ (text m = None -> command_text m = caption m)).
Proof.
  intros e s t. split; [|split; [|split]].
  - intros name handler Hin. split; [|split].
    + now apply route_message_command.
    + now apply route_message_addressed.
    + intros _. apply route_message_not_addressed.
  - apply route_message_plain.
  - apply route_message_none.
  - intros m. split; [apply command_text_text|].
    unfold command_text. now intros ->.
Qed.

Lemma commands_preempt_dialogs_witness :
  route_message sample_env (Some waiting_for_habit_name)
    (Some (Py.lit "/menu now"))
  = Some H_command_menu
  /\ route_message sample_env (Some waiting_for_habit_name)
       (Some (Py.lit "/help@habits_bot"))
     = Some H_command_help
  /\ route_message sample_env (Some waiting_for_habit_name)
       (Some (Py.lit "/help@other_bot"))
     = Some H_process_habit_name
  /\ route_message sample_env (Some waiting_for_habit_name)
       (Some (Py.lit "/cancel"))
     = Some H_process_habit_name.
Proof.
  destruct (commands_preempt_dialogs sample_env (Some waiting_for_habit_name)
              (Py.lit "/menu now")) as (Hmenu & _).
  destruct (commands_preempt_dialogs sample_env (Some waiting_for_habit_name)
              (Py.lit "/help@habits_bot")) as (Hmine & _).
  destruct (commands_preempt_dialogs sample_env (Some waiting_for_habit_name)
              (Py.lit "/help@other_bot")) as (Hother & _).
  destruct (commands_preempt_dialogs sample_env (Some waiting_for_habit_name)
              (Py.lit "/cancel")) as (_ & Hplain & _).
  assert (In ("menu"%string, H_command_menu) commands) as Imenu
      by (unfold commands; simpl; auto).
  assert (In ("help"%string, H_command_help) commands) as Ihelp
      by (unfold commands; simpl; auto).
  destruct (Hmenu _ _ Imenu) as (Hexact & _).
  destruct (Hmine _ _ Ihelp) as (_ & Haddressed & _).
  destruct (Hother _ _ Ihelp) as (_ & _ & Hforeign).
  split; [|split; [|split]].
  - apply Hexact. reflexivity.
  - apply Haddressed; reflexivity.
  - apply Hforeign; reflexivity.
  - apply Hplain. unfold plain_text.
    repeat split; vm_compute; discriminate.
Defined.

(** X20.  [/stop] closes whatever dialog the sender has open and forgets
    the name it held, while [/menu] and [/help] answer without touching the
    dialog; none of the three changes the database. *)
Theorem stop_closes_the_dialog :
  forall (e : env) (m : message) (t : Py.str) (b : bot),
    text m = Some t ->
    (is_command "stop" t ->
     get_session (id (from_user m)) (feed_update e (on_message m) b) = idle
     /\ db (feed_update e (on_message m) b) = db b)
    /\ (is_command "menu" t \/ is_command "help" t ->
        sessions (feed_update e (on_message m) b) = sessions b
        /\ db (feed_update e (on_message m) b) = db b).
Proof.
  intros e m t b Ht.
  assert (forall name handler,
            In (name, handler) commands -> is_command name t ->
            feed_update e (on_message m) b
            = snd (run_message e handler m b)) as Hfeed.
  { intros name handler Hin Hc. cbn [feed_update].
    rewrite (command_text_command m t name Ht Hc).
    now rewrite (route_message_command e _ t name handler Hin Hc). }
  split.
  - intros Hc.
    rewrite (Hfeed "stop"%string H_command_stop)
      by (unfold commands; simpl; auto).
    cbn [run_message].
    unfold command_stop_handler, bind, state_clear, put_session, send,
      get_session; cbn [snd db sessions sent find fst].
    now rewrite Z.eqb_refl.
  - intros [Hc|Hc];
      [rewrite (Hfeed "menu"%string H_command_menu)
         by (unfold commands; simpl; auto)
      |rewrite (Hfeed "help"%string H_command_help)
         by (unfold commands; simpl; auto)];
      cbn [run_message]; split; reflexivity.
Qed.

Lemma stop_closes_the_dialog_witness :
  state (get_session 7 naming_habit) = Some waiting_for_habit_name
  /\ get_session 7 (feed_update sample_env (says ann "/stop") naming_habit)
     = idle.
Proof.
  split; [reflexivity|].
  destruct (stop_closes_the_dialog sample_env
              (mk_message ann (Some (Py.lit "/stop")) None) (Py.lit "/stop")
              naming_habit eq_refl) as [Hstop _].
  apply Hstop. reflexivity.
Defined.

(** * Payloads and keyboards *)

(** ** [int(str(n))] *)

Lemma digits_value_codes (u : Decimal.uint) :
  forall acc : Z,
    Py.digits_value acc (codes (NilEmpty.string_of_uint u))
    = Some (uint_value acc u).
Proof.
  induction u; intros acc; cbn [NilEmpty.string_of_uint uint_value];
    [reflexivity| ..];
    unfold codes in *; cbn [list_ascii_of_string map Py.digits_value];
    apply IHu.
Qed.

Lemma uint_value_acc (u : Decimal.uint) :
  forall p : positive,
    uint_value (Z.pos p) u = Z.pos (Pos.of_uint_acc u p).
Proof.
  induction u; intros p; cbn [uint_value Pos.of_uint_acc];
    [reflexivity| ..];
    match goal with
    | |- uint_value ?a _ = Z.pos (Pos.of_uint_acc _ ?q) =>
        replace a with (Z.pos q) by lia
    end;
    apply IHu.
Qed.

Lemma uint_value_of_uint (u : Decimal.uint) :
  uint_value 0 u = Z.of_N (Pos.of_uint u).
Proof.
  induction u; cbn [uint_value Pos.of_uint Z.of_N];
    [reflexivity | exact IHu | ..];
    match goal with
    | |- uint_value ?a _ = Z.pos (Pos.of_uint_acc _ ?q) =>
        replace a with (Z.pos q) by lia
    end;
    apply uint_value_acc.
Qed.

Lemma codes_numeral (u : Decimal.uint) :
  forallb numeral_char (codes (NilEmpty.string_of_uint u)) = true.
Proof.
  induction u; cbn [NilEmpty.string_of_uint]; [reflexivity| ..];
    unfold codes in *; cbn [list_ascii_of_string map forallb];
    rewrite IHu; reflexivity.
Qed.

Lemma str_of_int_numeral (n : Z) :
  forallb numeral_char (Py.str_of_int n) = true.
Proof.
  unfold Py.str_of_int. fold (codes (NilEmpty.string_of_int (Z.to_int n))).
  destruct (Z.to_int n) as [u|u]; cbn [NilEmpty.string_of_int].
  - apply codes_numeral.
  - unfold codes; cbn [list_ascii_of_string map forallb].
    fold (codes (NilEmpty.string_of_uint u)). now rewrite codes_numeral.
Qed.

Lemma numeral_char_not_space (c : N) :
  numeral_char c = true -> Py.isspace c = false.
Proof.
  unfold numeral_char, Py.isspace. intros H.
  apply orb_true_iff in H as [H|H].
  - apply andb_true_iff in H as [H1 H2].
    apply N.leb_le in H1, H2.
    repeat (apply orb_false_iff; split);
      try (apply andb_false_iff);
      try (apply N.eqb_neq; lia);
      try (left; apply N.leb_gt; lia);
      try (right; apply N.leb_gt; lia).
  - apply N.eqb_eq in H. subst. reflexivity.
Qed.

Lemma lstrip_id (s : Py.str) :
  forallb (fun c => negb (Py.isspace c)) s = true -> Py.lstrip s = s.
Proof.
  destruct s as [|c s]; [reflexivity|]. cbn [forallb Py.lstrip].
  intros H. apply andb_true_iff in H as [H _].
  apply negb_true_iff in H. now rewrite H.
Qed.

Lemma strip_id (s : Py.str) :
  forallb (fun c => negb (Py.isspace c)) s = true -> Py.strip s = s.
Proof.
  intros H. unfold Py.strip, Py.rstrip. rewrite (lstrip_id s H).
  rewrite lstrip_id; [apply rev_involutive|].
  apply forallb_forall. intros c Hc. apply in_rev in Hc.
  rewrite forallb_forall in H. now apply H.
Qed.

Lemma numeral_no_space (s : Py.str) :
  forallb numeral_char s = true ->
  forallb (fun c => negb (Py.isspace c)) s = true.
Proof.
  intros H. apply forallb_forall. intros c Hc.
  rewrite forallb_forall in H. apply negb_true_iff.
  now apply numeral_char_not_space, H.
Qed.

Lemma unsigned_value_codes (u : Decimal.uint) :
  u <> Decimal.Nil ->
  Py.unsigned_value (codes (NilEmpty.string_of_uint u))
  = Ok (Z.of_N (Pos.of_uint u)).
Proof.
  intros Hu. unfold Py.unsigned_value.
  rewrite digits_value_codes, uint_value_of_uint.
  destruct u; [now elim Hu| ..]; reflexivity.
Qed.

Lemma int_codes_unsigned (u : Decimal.uint) :
  u <> Decimal.Nil ->
  Py.int (codes (NilEmpty.string_of_uint u)) = Ok (Z.of_N (Pos.of_uint u)).
Proof.
  intros Hu. unfold Py.int.
  rewrite strip_id by (apply numeral_no_space, codes_numeral).
  rewrite <- (unsigned_value_codes u Hu).
  destruct u; [now elim Hu| ..]; reflexivity.
Qed.

Lemma int_str_of_int (n : Z) : Py.int (Py.str_of_int n) = Ok n.
Proof.
  unfold Py.str_of_int.
  fold (codes (NilEmpty.string_of_int (Z.to_int n))).
  destruct n as [|p|p]; cbn [Z.to_int NilEmpty.string_of_int].
  - reflexivity.
  - rewrite int_codes_unsigned by apply DecimalPos.Unsigned.to_uint_nonnil.
    now rewrite DecimalPos.Unsigned.of_to.
  - unfold Py.int.
    change (codes (String "-" (NilEmpty.string_of_uint (Pos.to_uint p))))
      with (45%N :: codes (NilEmpty.string_of_uint (Pos.to_uint p))).
    rewrite strip_id.
    + cbn [N.eqb Pos.eqb].
      rewrite unsigned_value_codes
        by apply DecimalPos.Unsigned.to_uint_nonnil.
      now rewrite DecimalPos.Unsigned.of_to.
    + cbn [forallb]. rewrite numeral_no_space by apply codes_numeral.
      reflexivity.
Qed.

(** X21.  [int] reads back what [str] prints: for every integer [n],
    [int(str(n)) = n]; and the numeral has no underscore and no white
    space, so it survives the split of a payload. *)
Theorem int_str_round_trip :
  forall n : Z,
    Py.int (Py.str_of_int n) = Ok n
    /\ Py.split Py.underscore (Py.str_of_int n) = [Py.str_of_int n]
    /\ Py.strip (Py.str_of_int n) = Py.str_of_int n.
Proof.
  intros n. split; [|split].
  - apply int_str_of_int.
  - pose proof (str_of_int_numeral n) as H.
    induction (Py.str_of_int n) as [|c s IH]; [reflexivity|].
    cbn [forallb] in H. apply andb_true_iff in H as [Hc Hs].
    cbn [Py.split]. rewrite (IH Hs).
    destruct (c =? Py.underscore)%N eqn:E; [|reflexivity].
    apply N.eqb_eq in E. subst. discriminate.
  - apply strip_id, numeral_no_space, str_of_int_numeral.
Qed.

(** ** Buttons find their handlers *)

Lemma split_no_separator (s : Py.str) :
  forallb numeral_char s = true -> Py.split Py.underscore s = [s].
Proof.
  induction s as [|c s IH]; [reflexivity|].
  cbn [forallb Py.split]. intros H. apply andb_true_iff in H as [Hc Hs].
  rewrite (IH Hs). destruct (c =? Py.underscore)%N eqn:E; [|reflexivity].
  apply N.eqb_eq in E. subst. discriminate.
Qed.

Lemma numeral_char_cases (c : N) :
  numeral_char c = true ->
  In c [45; 48; 49; 50; 51; 52; 53; 54; 55; 56; 57]%N.
Proof.
  unfold numeral_char. intros H. apply orb_true_iff in H as [H|H].
  - apply andb_true_iff in H as [H1 H2]. apply N.leb_le in H1, H2.
    simpl. lia.
  - apply N.eqb_eq in H. subst. now left.
Qed.

Lemma route_habit_numeral (s : Py.str) :
  forallb numeral_char s = true ->
  route_callback (Py.lit "habit_" ++ s) = Some H_habit_detail.
Proof.
  destruct s as [|c s]; [reflexivity|].
  cbn [forallb]. intros H. apply andb_true_iff in H as [Hc _].
  apply numeral_char_cases in Hc.
  repeat (destruct Hc as [<-|Hc]; [reflexivity|]).
  destruct Hc.
Qed.

(** X22.  The payloads that the keyboards build from a habit id come back
    to that id: for every integer [n], [complete_<n>], [miss_<n>],
    [habit_stats_<n>] and [habit_<n>] are routed to the handler of their
    family, and the part of the payload that the handler converts is the
    numeral of [n], which [int] reads as [n]. *)
Theorem payloads_round_trip :
  forall n : Z,
    let numeral := Py.str_of_int n in
    Py.int numeral = Ok n
    /\ route_callback (Py.lit "complete_" ++ numeral) = Some H_complete_habit
    /\ Py.getitem (Py.split Py.underscore (Py.lit "complete_" ++ numeral)) 1
       = Ok numeral
    /\ route_callback (Py.lit "miss_" ++ numeral) = Some H_miss_habit
    /\ Py.getitem (Py.split Py.underscore (Py.lit "miss_" ++ numeral)) 1
       = Ok numeral
    /\ route_callback (Py.lit "habit_stats_" ++ numeral) = Some H_habit_stats
    /\ Py.getitem (Py.split Py.underscore (Py.lit "habit_stats_" ++ numeral)) 2
       = Ok numeral
    /\ route_callback (Py.lit "habit_" ++ numeral) = Some H_habit_detail
    /\ Py.split Py.underscore (Py.lit "habit_" ++ numeral)
       = [Py.lit "habit"; numeral].
Proof.
  intros n numeral.
  pose proof (int_str_of_int n) as Hint.
  pose proof (str_of_int_numeral n) as Hnum. fold numeral in Hint, Hnum.
  pose proof (split_no_separator numeral Hnum) as Hsplit.
  split; [exact Hint|].
  split; [reflexivity|]. split.
  { change (Py.lit "complete_" ++ numeral)
      with (Py.lit "complete" ++ Py.underscore :: numeral).
    rewrite split_word by reflexivity. now rewrite Hsplit. }
  split; [reflexivity|]. split.
  { change (Py.lit "miss_" ++ numeral)
      with (Py.lit "miss" ++ Py.underscore :: numeral).
    rewrite split_word by reflexivity. now rewrite Hsplit. }
  split; [reflexivity|]. split.
  { change (Py.lit "habit_stats_" ++ numeral)
      with (Py.lit "habit" ++ Py.underscore
              :: (Py.lit "stats" ++ Py.underscore :: numeral)).
    rewrite split_word by reflexivity.
    rewrite split_word by reflexivity. now rewrite Hsplit. }
  split; [now apply route_habit_numeral|].
  change (Py.lit "habit_" ++ numeral)
    with (Py.lit "habit" ++ Py.underscore :: numeral).
  rewrite split_word by reflexivity. now rewrite Hsplit.
Qed.

Lemma route_complete (s : Py.str) :
  route_callback (Py.lit "complete_" ++ s) = Some H_complete_habit.
Proof. reflexivity. Qed.

Lemma route_miss (s : Py.str) :
  route_callback (Py.lit "miss_" ++ s) = Some H_miss_habit.
Proof. reflexivity. Qed.

Lemma route_habit_stats (s : Py.str) :
  route_callback (Py.lit "habit_stats_" ++ s) = Some H_habit_stats.
Proof. reflexivity. Qed.

Lemma handled_app (k1 k2 : keyboard) :
  handled k1 -> handled k2 -> handled (k1 ++ k2).
Proof.
  unfold handled, buttons. rewrite concat_app. intros H1 H2.
  apply Forall_app. now split.
Qed.

(** X23.  No keyboard of the bot has a dead button: the payload of every
    button of the main menu, of the actions of a habit, of the
    administrator's panel, of the list of habits and of the three "back"
    keyboards is accepted by the filter of some handler. *)
Theorem keyboards_are_handled :
  forall (e : env) (user_id : option Z) (habit_id : Z)
         (today_status : option Py.str) (habits : list Database.habit_row)
         (d : Database.database),
    handled (get_main_keyboard e user_id)
    /\ handled (get_habit_action_keyboard habit_id today_status)
    /\ handled get_admin_keyboard
    /\ handled (my_habits_keyboard e habits d)
    /\ handled (habit_stats_keyboard habit_id)
    /\ handled admin_back_keyboard
    /\ handled admin_error_keyboard.
Proof.
  intros e user_id habit_id today_status habits d.
  split; [|split; [|split; [|split; [|split; [|split]]]]].
  - unfold get_main_keyboard. apply handled_app.
    + repeat constructor; discriminate.
    + destruct (truthy user_id && _); repeat constructor; discriminate.
  - unfold get_habit_action_keyboard.
    repeat apply handled_app.
    + destruct (differs today_status Database.completed);
        repeat constructor. cbn [callback_data]. now rewrite route_complete.
    + destruct (differs today_status Database.missed);
        repeat constructor. cbn [callback_data]. now rewrite route_miss.
    + repeat constructor; cbn [callback_data];
        [now rewrite route_habit_stats | discriminate].
  - repeat constructor; discriminate.
  - unfold my_habits_keyboard. apply handled_app.
    + unfold handled, buttons.
      induction habits as [|habit habits IH]; cbn [map concat app];
        constructor; [|exact IH].
      cbn [callback_data].
      rewrite route_habit_numeral by apply str_of_int_numeral. discriminate.
    + repeat constructor; discriminate.
  - repeat constructor; cbn [callback_data]; [|discriminate].
    rewrite route_habit_numeral by apply str_of_int_numeral. discriminate.
  - repeat constructor; discriminate.
  - repeat constructor; discriminate.
Qed.

(** X24.  The main menu shows the administrator's button exactly to the
    configured administrator (an id that is given, not 0, and equal to
    [ADMIN_ID]); the actions of a habit offer "completed" unless that is
    today's status, and "missed" unless that is today's status, so the
    status already set is never offered again. *)
Theorem keyboards_offer :
  forall (e : env) (user_id : option Z) (habit_id : Z)
         (today_status : option Py.str),
    (offers (get_main_keyboard e user_id) (Py.lit "admin_panel")
     <-> exists n, user_id = Some n /\ n <> 0 /\ n = ADMIN_ID e)
    /\ (offers (get_habit_action_keyboard habit_id today_status)
          (Py.lit "complete_" ++ Py.str_of_int habit_id)
        <-> today_status <> Some Database.completed)
    /\ (offers (get_habit_action_keyboard habit_id today_status)
          (Py.lit "miss_" ++ Py.str_of_int habit_id)
        <-> today_status <> Some Database.missed).
Proof.
  intros e user_id habit_id today_status.
  assert (forall st, differs today_status st = true <-> today_status <> Some st)
    as Hdiffers.
  { intros st. unfold differs. destruct today_status as [t|].
    - rewrite negb_true_iff. split.
      + intros E [= ->]. now rewrite str_eqb_refl in E.
      + intros Hne. apply str_eqb_neq. congruence.
    - split; [discriminate | reflexivity]. }
  split; [|split].
  - unfold offers, get_main_keyboard, buttons, truthy, is_admin.
    destruct user_id as [n|]; cbn [andb].
    + destruct (n =? 0) eqn:E0; cbn [negb andb].
      * apply Z.eqb_eq in E0. split.
        -- cbn. intros [H|[H|[H|[H|[]]]]]; discriminate.
        -- intros (k & [= <-] & Hk & _). now elim Hk.
      * apply Z.eqb_neq in E0. destruct (n =? ADMIN_ID e) eqn:Ea.
        -- apply Z.eqb_eq in Ea. split; [eauto|]. intros _. cbn. auto 6.
        -- apply Z.eqb_neq in Ea. split.
           ++ cbn. intros [H|[H|[H|[H|[]]]]]; discriminate.
           ++ intros (k & [= <-] & _ & Hk). now elim Ea.
    + split.
      * cbn. intros [H|[H|[H|[H|[]]]]]; discriminate.
      * intros (k & Hk & _). discriminate.
  - rewrite <- Hdiffers. unfold offers, get_habit_action_keyboard, buttons.
    destruct (differs today_status Database.completed).
    + split; [reflexivity|]. intros _. cbn. auto.
    + split; [|discriminate].
      destruct (differs today_status Database.missed); cbn;
        intros H; repeat (destruct H as [H|H]; try discriminate H);
        try contradiction;
        apply app_inv_tail_iff in H || idtac.
      all: exfalso.
      all: repeat match goal with
           | H : _ ++ _ = _ ++ _ |- _ => vm_compute in H; discriminate H
           | H : _ = _ |- _ => discriminate H
           end.
  - rewrite <- Hdiffers. unfold offers, get_habit_action_keyboard, buttons.
    destruct (differs today_status Database.missed).
    + split; [reflexivity|]. intros _.
      destruct (differs today_status Database.completed); cbn; auto.
    + split; [|discriminate].
      destruct (differs today_status Database.completed); cbn;
        intros H; repeat (destruct H as [H|H]; try discriminate H);
        try contradiction.
      all: exfalso.
      all: repeat match goal with
           | H : _ ++ _ = _ ++ _ |- _ => vm_compute in H; discriminate H
           | H : _ = _ |- _ => discriminate H
           end.
Qed.

(** ** The dialog that creates a habit *)

Lemma feed_update_plain (e : env) (u : tg_user) (t : Py.str) (b : bot) :
  plain_text t ->
  feed_update e (writes u t) b
  = snd (run_message e (dialog_handler (state (get_session (id u) b)))
           (mk_message u (Some t) None) b).
Proof.
  intros Hplain. unfold feed_update, writes, command_text.
  cbn [from_user text caption].
  destruct t as [|c t];
    [now rewrite route_message_none | now rewrite route_message_plain].
Qed.

Lemma get_session_put (uid : Z) (s : session) (d : Database.database)
    (ss : list (Z * session)) (effects : list effect) :
  get_session uid (mk_bot d ((uid, s) :: ss) effects) = s.
Proof.
  unfold get_session. cbn [sessions find fst snd].
  now rewrite Z.eqb_refl.
Qed.

Lemma feed_updates_app (e : env) (us vs : list update_event) (b : bot) :
  feed_updates e (us ++ vs) b = feed_updates e vs (feed_updates e us b).
Proof. apply fold_left_app. Qed.

Lemma feed_updates_cons (e : env) (u : update_event)
    (us : list update_event) (b : bot) :
  feed_updates e (u :: us) b = feed_updates e us (feed_update e u b).
Proof. reflexivity. Qed.

Lemma feed_updates_nil (e : env) (b : bot) : feed_updates e [] b = b.
Proof. reflexivity. Qed.

Lemma tap_new_habit (e : env) (u : tg_user) (b : bot) :
  let b' := feed_update e (on_callback (mk_callback u (Py.lit "new_habit"))) b
  in db b' = db b
     /\ state (get_session (id u) b') = Some waiting_for_habit_name.
Proof.
  unfold feed_update. cbn [data].
  assert (route_callback (Py.lit "new_habit") = Some H_new_habit) as ->
      by (vm_compute; reflexivity).
  cbn [run_callback]. unfold callback_new_habit, bind, send, set_state,
    put_session. cbn [cb_from_user fst snd db sessions sent].
  split; [reflexivity|]. now rewrite get_session_put.
Qed.

Lemma refused_names_ask_again (e : env) (u : tg_user) (ts : list Py.str) :
  Forall name_refused ts ->
  forall b : bot,
    state (get_session (id u) b) = Some waiting_for_habit_name ->
    let b' := feed_updates e (map (writes u) ts) b in
    db b' = db b /\ get_session (id u) b' = get_session (id u) b.
Proof.
  induction 1 as [|t ts [Hplain Hlen] _ IH]; intros b Hstate.
  - split; reflexivity.
  - cbn [map]. rewrite feed_updates_cons.
    rewrite feed_update_plain, Hstate by assumption.
    cbn [dialog_handler run_message].
    destruct (process_habit_name_cases (mk_message u (Some t) None) t b eq_refl)
      as (Hlong & Hshort & _).
    cbn [from_user] in Hlong, Hshort.
    assert (exists effects,
              process_habit_name (mk_message u (Some t) None) b
              = (Ok tt, mk_bot (db b) (sessions b) (sent b ++ effects)))
      as [effects ->].
    { destruct Hlen as [Hlen|Hlen]; eexists; [apply Hshort | apply Hlong];
        exact Hlen. }
    cbn [snd].
    destruct (IH (mk_bot (db b) (sessions b) (sent b ++ effects)))
      as [Hdb Hsession]; [exact Hstate|].
    split; [exact Hdb | exact Hsession].
Qed.

Lemma process_habit_description_refused (e : env) (u : tg_user)
    (t : Py.str) (b : bot) :
  t <> Py.lit "/skip" -> 500 < Py.len (Py.strip t) ->
  exists effects,
    process_habit_description e (mk_message u (Some t) None) b
    = (Ok tt, mk_bot (db b) (sessions b) (sent b ++ effects)).
Proof.
  intros Hskip Hlen. unfold process_habit_description. cbn [text].
  rewrite (str_eqb_neq _ _ Hskip).
  unfold bind, lift, text_strip. cbn [text].
  assert ((Py.len (Py.strip t) >? 500) = true) as -> by (apply Z.gtb_lt; lia).
  eexists. reflexivity.
Qed.

Lemma refused_descriptions_ask_again (e : env) (u : tg_user)
    (ts : list Py.str) :
  Forall description_refused ts ->
  forall b : bot,
    state (get_session (id u) b) = Some waiting_for_habit_description ->
    let b' := feed_updates e (map (writes u) ts) b in
    db b' = db b /\ get_session (id u) b' = get_session (id u) b.
Proof.
  induction 1 as [|t ts (Hplain & Hskip & Hlen) _ IH]; intros b Hstate.
  - split; reflexivity.
  - cbn [map]. rewrite feed_updates_cons.
    rewrite feed_update_plain, Hstate by assumption.
    cbn [dialog_handler run_message].
    destruct (process_habit_description_refused e u t b Hskip Hlen)
      as [effects ->].
    cbn [snd].
    destruct (IH (mk_bot (db b) (sessions b) (sent b ++ effects)))
      as [Hdb Hsession]; [exact Hstate|].
    split; [exact Hdb | exact Hsession].
Qed.

Lemma accepted_name (e : env) (u : tg_user) (t : Py.str) (b : bot) :
  plain_text t -> 3 <= Py.len (Py.strip t) <= 100 ->
  state (get_session (id u) b) = Some waiting_for_habit_name ->
  let b' := feed_update e (writes u t) b in
  db b' = db b
  /\ get_session (id u) b'
     = mk_session (Some waiting_for_habit_description) (Some (Py.strip t)).
Proof.
  intros Hplain Hlen Hstate.
  rewrite feed_update_plain, Hstate by assumption.
  cbn [dialog_handler run_message].
  destruct (process_habit_name_cases (mk_message u (Some t) None) t b eq_refl)
    as (_ & _ & Hok).
  cbn [from_user] in Hok. rewrite (Hok Hlen). cbn [snd db].
  split; [reflexivity|]. apply get_session_put.
Qed.

Lemma save_habit_stores (e : env) (u : tg_user) (t : option Py.str)
    (name description : Py.str) (b : bot) :
  0 <= Database.habits_seq (db b) ->
  get_session (id u) b
  = mk_session (Some waiting_for_habit_description) (Some name) ->
  let b' := snd (save_habit e (mk_message u t None) description b) in
  db b' = fst (Database.add_habit (today e) (id u) (Some name) description
                 (db b))
  /\ get_session (id u) b' = idle.
Proof.
  intros Hseq Hsession.
  unfold save_habit, bind, get_data, update, state_clear, put_session, send.
  cbn [from_user]. rewrite Hsession. cbn [data_habit_name].
  unfold Database.add_habit. cbn [fst snd db sessions sent].
  assert ((Database.habits_seq (db b) + 1 =? 0) = false) as ->
      by (apply Z.eqb_neq; lia).
  cbn [negb fst snd db sessions sent].
  split; [reflexivity|]. apply get_session_put.
Qed.

Lemma accepted_description (e : env) (u : tg_user) (name t : Py.str)
    (b : bot) :
  plain_text t -> Py.len (Py.strip t) <= 500 ->
  0 <= Database.habits_seq (db b) ->
  get_session (id u) b
  = mk_session (Some waiting_for_habit_description) (Some name) ->
  let b' := feed_update e (writes u t) b in
  db b' = fst (Database.add_habit (today e) (id u) (Some name)
                 (stored_description t) (db b))
  /\ get_session (id u) b' = idle.
Proof.
  intros Hplain Hlen Hseq Hsession.
  rewrite feed_update_plain by assumption. rewrite Hsession.
  cbn [state dialog_handler run_message].
  assert (process_habit_description e (mk_message u (Some t) None) b
          = save_habit e (mk_message u (Some t) None) (stored_description t) b)
    as ->.
  { unfold process_habit_description, stored_description. cbn [text].
    destruct (Py.str_eqb t (Py.lit "/skip")); [reflexivity|].
    unfold bind at 1, lift, text_strip. cbn [text].
    assert ((Py.len (Py.strip t) >? 500) = false) as ->
        by (rewrite Z.gtb_ltb; apply Z.ltb_ge; lia).
    reflexivity. }
  now apply save_habit_stores.
Qed.

(** X25.  The dialog that creates a habit, end to end.  A user taps "new
    habit", sends any number of names that are refused (shorter than 3 or
    longer than 100 characters once stripped), then a name that is
    accepted, then any number of descriptions that are refused (longer
    than 500 characters), then an accepted description or [/skip]; none
    of the texts names one of the four commands, with or without a
    mention.  Whatever the bot state before, the
    database afterwards is the one before plus exactly one habit: it
    belongs to the user, carries the accepted name stripped and the
    accepted description stripped (the default text after [/skip]), is
    dated today and active, and is listed for the user; the refused texts
    left no trace, and the dialog of the user is closed. *)
Theorem habit_dialog_creates_habit :
  forall (e : env) (u : tg_user) (refused_names : list Py.str)
         (name : Py.str) (refused_descriptions : list Py.str)
         (description : Py.str) (b : bot),
    0 <= Database.habits_seq (db b) ->
    Forall name_refused refused_names ->
    plain_text name -> 3 <= Py.len (Py.strip name) <= 100 ->
    Forall description_refused refused_descriptions ->
    plain_text description -> Py.len (Py.strip description) <= 500 ->
    let b' :=
      feed_updates e
        (habit_dialog u refused_names name refused_descriptions description)
        b in
    let habit :=
      Database.mk_habit (Database.habits_seq (db b) + 1) (id u)
        (Some (Py.strip name)) (stored_description description) (today e) 1 in
    db b'
    = Database.mk_db (Database.users (db b))
        (Database.habits (db b) ++ [habit])
        (Database.habit_tracking (db b))
        (Database.habits_seq (db b) + 1) (Database.tracking_seq (db b))
    /\ In habit (Database.get_user_habits (id u) (db b'))
    /\ get_session (id u) b' = idle.
Proof.
  intros e u refused_names name refused_descriptions description b
    Hseq Hnames Hplain Hname Hdescriptions Hplain' Hdescription.
  cbv zeta. unfold habit_dialog.
  rewrite feed_updates_cons, !map_app, !feed_updates_app.
  cbn [map]. rewrite !feed_updates_cons, !feed_updates_nil.
  destruct (tap_new_habit e u b) as [Hdb1 Hs1].
  set (b1 := feed_update e _ b) in *.
  destruct (refused_names_ask_again e u refused_names Hnames b1 Hs1)
    as [Hdb2 Hs2].
  set (b2 := feed_updates e _ b1) in *.
  assert (state (get_session (id u) b2) = Some waiting_for_habit_name)
    as Hs2' by now rewrite Hs2.
  destruct (accepted_name e u name b2 Hplain Hname Hs2') as [Hdb3 Hs3].
  set (b3 := feed_update e _ b2) in *.
  assert (state (get_session (id u) b3)
          = Some waiting_for_habit_description) as Hs3' by now rewrite Hs3.
  destruct (refused_descriptions_ask_again e u refused_descriptions
              Hdescriptions b3 Hs3') as [Hdb4 Hs4].
  set (b4 := feed_updates e _ b3) in *.
  assert (db b4 = db b) as Hdb by congruence.
  assert (0 <= Database.habits_seq (db b4)) as Hseq4 by now rewrite Hdb.
  rewrite Hs3 in Hs4.
  destruct (accepted_description e u (Py.strip name) description b4
              Hplain' Hdescription Hseq4 Hs4) as [Hdb5 Hs5].
  set (b5 := feed_update e _ b4) in *.
  rewrite Hdb in Hdb5. unfold Database.add_habit in Hdb5. cbn [fst] in Hdb5.
  split; [exact Hdb5|]. split; [|exact Hs5].
  rewrite Hdb5. unfold Database.get_user_habits.
  apply In_order_by_desc. cbn [Database.habits].
  apply filter_In. split.
  - apply in_or_app. right. now left.
  - cbn [Database.habit_user_id Database.is_active].
    now rewrite Z.eqb_refl.
Qed.

Lemma habit_dialog_creates_habit_witness :
  let b' :=
    feed_updates sample_env
      (habit_dialog ann [Py.lit "ab"] (Py.lit "  Read  ")
         [repeat 120%N 501] (Py.lit "/skip"))
      (start_bot Database.init_db) in
  Database.habits (db b')
  = [Database.mk_habit 1 7 (Some (Py.lit "Read")) (Py.lit "Без описания")
       102 1]
  /\ get_session 7 b' = idle.
Proof.
  destruct (habit_dialog_creates_habit sample_env ann
              [Py.lit "ab"] (Py.lit "  Read  ")
              [repeat 120%N 501] (Py.lit "/skip")
              (start_bot Database.init_db))
    as (Hdb & _ & Hsession).
  - vm_compute. discriminate.
  - constructor; [|constructor]. split.
    + unfold plain_text; repeat split; vm_compute; discriminate.
    + left. vm_compute. reflexivity.
  - unfold plain_text; repeat split; vm_compute; discriminate.
  - split; vm_compute; discriminate.
  - constructor; [|constructor]. split; [|split].
    + unfold plain_text; repeat split; vm_compute; discriminate.
    + intros H. vm_compute in H. discriminate H.
    + vm_compute. reflexivity.
  - unfold plain_text; repeat split; vm_compute; discriminate.
  - vm_compute. discriminate.
  - cbv zeta. split; [|exact Hsession].
    rewrite Hdb. vm_compute. reflexivity.
Defined.

(** ** Progress of a broadcast *)

Lemma edits_app (l1 l2 : list effect) :
  edits (l1 ++ l2) = edits l1 ++ edits l2.
Proof. unfold edits. apply flat_map_app. Qed.

Lemma enumerate_from {A : Type} (l : list A) :
  forall (i j : Z), In j (map fst (enumerate i l)) -> i <= j < i + Py.len l.
Proof.
  unfold Py.len.
  induction l as [|x l IH]; intros i j; cbn [enumerate map fst In List.length];
    [tauto|].
  rewrite Nat2Z.inj_succ. intros [<-|Hin]; [lia|].
  apply IH in Hin. lia.
Qed.

Lemma succeeded_cons (c : Z) (ok : bool) (l : list (Z * bool)) :
  succeeded ((c, ok) :: l) = (if ok then 1 else 0) + succeeded l.
Proof.
  unfold succeeded, Py.len. cbn [filter snd].
  destruct ok; cbn [List.length]; rewrite ?Nat2Z.inj_succ; lia.
Qed.

Lemma failed_cons (c : Z) (ok : bool) (l : list (Z * bool)) :
  failed ((c, ok) :: l) = (if ok then 0 else 1) + failed l.
Proof.
  unfold failed, Py.len. cbn [filter snd].
  destruct ok; cbn [negb List.length]; rewrite ?Nat2Z.inj_succ; lia.
Qed.

Lemma broadcast_loop_edits (e : env) (total_users : Z)
    (users : list Database.user_row) :
  forall (i success_count fail_count : Z) (b : bot),
    let outcomes := map (outcome e) (enumerate i users) in
    edits (sent (snd (broadcast_loop e users i total_users success_count
                        fail_count b)))
    = edits (sent b)
      ++ map (fun j =>
                let done := firstn (Z.to_nat (j - i + 1)) outcomes in
                broadcast_progress total_users j
                  (success_count + succeeded done) (fail_count + failed done))
           (filter (fun j => j mod 10 =? 0) (map fst (enumerate i users))).
Proof.
  induction users as [|user rest IH]; intros i s f b; cbv zeta.
  - cbn [broadcast_loop enumerate map filter]. unfold ret. cbn [snd].
    now rewrite app_nil_r.
  - cbn [broadcast_loop enumerate map fst].
    change (outcome e (i, user))
      with (Database.user_id user, delivers e i (Database.user_id user)).
    set (chat_id := Database.user_id user).
    set (ok := delivers e i chat_id).
    set (s' := if ok then s + 1 else s).
    set (f' := if ok then f else f + 1).
    set (outcomes := map (outcome e) (enumerate (i + 1) rest)).
    set (progress := if i mod 10 =? 0
                     then [edit_text (broadcast_progress total_users i s' f')]
                     else []).
    set (b1 := mk_bot (db b) (sessions b)
                 (sent b ++ copy_message chat_id ok :: progress)).
    assert (broadcast_loop e (user :: rest) i total_users s f b
            = broadcast_loop e rest (i + 1) total_users s' f' b1) as Hstep.
    { cbn [broadcast_loop]. fold chat_id ok s' f'.
      unfold bind at 1. unfold send at 1. cbn [db sessions sent].
      unfold bind at 1. unfold b1, progress.
      destruct (i mod 10 =? 0).
      - unfold send. cbn [db sessions sent]. now rewrite <- app_assoc.
      - reflexivity. }
    cbn [broadcast_loop] in Hstep. fold chat_id ok s' f' in Hstep.
    rewrite Hstep, IH. fold outcomes.
    unfold b1. cbn [sent].
    change (copy_message chat_id ok :: progress)
      with ([copy_message chat_id ok] ++ progress).
    rewrite !edits_app. cbn [edits flat_map app]. rewrite <- app_assoc.
    f_equal.
    match goal with
    | |- _ ++ map ?F ?L = map ?G _ => rewrite (map_ext_in F G L)
    end.
    2:{ intros j Hj. apply filter_In in Hj as [Hj _].
        apply enumerate_from in Hj.
        replace (Z.to_nat (j - i + 1))
          with (S (Z.to_nat (j - (i + 1) + 1))) by lia.
        cbn [firstn]. rewrite succeeded_cons, failed_cons.
        unfold s', f'. destruct ok; f_equal; lia. }
    cbn [filter]. unfold progress. destruct (i mod 10 =? 0);
      [|reflexivity].
    cbn [edits flat_map app map]. f_equal.
    replace (Z.to_nat (i - i + 1)) with 1%nat by lia.
    cbn [firstn]. rewrite succeeded_cons, failed_cons.
    change (succeeded []) with 0. change (failed []) with 0.
    unfold s', f'. destruct ok; f_equal; lia.
Qed.

Lemma reported_count {A : Type} (l : list A) :
  forall i : Z,
    Py.len (filter (fun j => j mod 10 =? 0) (map fst (enumerate i l)))
    = (i + Py.len l - 1) / 10 - (i - 1) / 10.
Proof.
  unfold Py.len.
  induction l as [|x l IH]; intros i; cbn [enumerate map fst filter].
  - cbn [List.length]. change (Z.of_nat 0) with 0.
    rewrite Z.add_0_r. symmetry. apply Z.sub_diag.
  - specialize (IH (i + 1)).
    replace (i + 1 - 1) with i in IH by lia.
    cbn [List.length]. rewrite Nat2Z.inj_succ.
    replace (i + Z.succ (Z.of_nat (List.length l)) - 1)
      with (i + 1 + Z.of_nat (List.length l) - 1) by lia.
    destruct (i mod 10 =? 0) eqn:E.
    + apply Z.eqb_eq in E. cbn [List.length]. rewrite Nat2Z.inj_succ, IH.
      assert (i / 10 = (i - 1) / 10 + 1); [|lia].
      clear IH. Z.div_mod_to_equations. lia.
    + apply Z.eqb_neq in E. rewrite IH.
      assert (i / 10 = (i - 1) / 10); [|lia].
      clear IH. Z.div_mod_to_equations. lia.
Qed.

(** X26.  The progress of a broadcast.  While the administrator's message
    goes out, the status message is rewritten after every tenth recipient
    and once more at the end: its texts are, in order, the progress report
    for each position [i] of the recipient list that is a multiple of 10,
    showing [i] and the numbers of deliveries that succeeded and failed
    among the first [i], and last the summary (none if the summary
    cannot be computed).  So a list of [n] recipients gives [n / 10]
    progress reports, and in each the two counts add up to the position. *)
Theorem broadcast_progress_reports :
  forall (e : env) (m : message) (b : bot),
    is_admin e (id (from_user m)) = true ->
    text m <> Some (Py.lit "/cancel") ->
    let users := Database.get_all_users (db b) in
    let outcomes := map (outcome e) (enumerate 1 users) in
    let summary :=
      broadcast_summary (Py.len users) (succeeded outcomes)
        (failed outcomes) in
    let b' := snd (process_broadcast_message e m b) in
    edits (sent b')
    = edits (sent b)
      ++ map (progress_report (Py.len users) outcomes) (reported users)
      ++ match summary with
         | Ok report => [report]
         | Raise _ => []
         end
    /\ Py.len (reported users) = Py.len users / 10
    /\ forall i : Z,
         In i (reported users) ->
         i mod 10 = 0 /\ 1 <= i <= Py.len users
         /\ succeeded (firstn (Z.to_nat i) outcomes)
            + failed (firstn (Z.to_nat i) outcomes) = i.
Proof.
  intros e m b Hadmin Htext users outcomes summary b'.
  set (start := message_answer
         (Py.lit "📤 Начинаю рассылку..." ++ Py.nl
          ++ Py.lit "Всего получателей: " ++ Py.str_of_int (Py.len users)
          ++ Py.nl
          ++ Py.lit "Прогресс: 0/" ++ Py.str_of_int (Py.len users))).
  set (b0 := mk_bot (db b) (sessions b) (sent b ++ [start])).
  destruct (broadcast_loop_spec e (Py.len users) users 1 0 0 b0)
    as (effects & Hloop & _).
  fold outcomes in Hloop. rewrite !Z.add_0_l in Hloop.
  pose proof (broadcast_loop_edits e (Py.len users) users 1 0 0 b0) as Hedits.
  cbv zeta in Hedits. rewrite Hloop in Hedits. fold outcomes in Hedits.
  unfold b0 in Hedits at 1 2. cbn [snd sent] in Hedits.
  rewrite !edits_app in Hedits. apply app_inv_head in Hedits.
  assert (edits effects
          = map (progress_report (Py.len users) outcomes) (reported users))
    as Heffects.
  { rewrite Hedits. unfold reported. apply map_ext. intros j.
    unfold progress_report. cbv zeta.
    replace (j - 1 + 1) with j by lia. now rewrite !Z.add_0_l. }
  assert (sent b'
          = (sent b ++ [start]) ++ effects
            ++ match summary with
               | Ok report => [edit_text report]
               | Raise _ => []
               end) as Hsent.
  { unfold b', process_broadcast_message.
    rewrite Hadmin, (not_cancel _ Htext).
    cbn [negb]. unfold bind at 1. unfold query at 1. fold users.
    unfold bind at 1. unfold send at 1. fold start. fold b0.
    unfold bind at 1. rewrite Hloop. unfold b0; cbn [db sessions sent].
    unfold bind at 1. unfold lift at 1. fold summary.
    destruct summary as [report|x]; [|cbn [snd sent]; now rewrite app_nil_r].
    unfold bind, send, state_clear, put_session; cbn [snd db sessions sent].
    now rewrite <- !app_assoc. }
  split; [|split].
  - rewrite Hsent, !edits_app, Heffects.
    change (edits [start]) with (@nil Py.str). rewrite app_nil_r.
    f_equal. f_equal. now destruct summary.
  - unfold reported. rewrite reported_count.
    replace (1 + Py.len users - 1) with (Py.len users) by lia.
    replace (1 - 1) with 0 by lia. rewrite Z.div_0_l by lia. lia.
  - intros i Hi. unfold reported in Hi. apply filter_In in Hi as [Hin Hmod].
    apply Z.eqb_eq in Hmod. apply enumerate_from in Hin.
    split; [exact Hmod|]. split; [lia|].
    rewrite succeeded_failed. unfold Py.len in *.
    rewrite length_firstn. unfold outcomes.
    rewrite length_map, length_enumerate. lia.
Qed.

Lemma broadcast_progress_reports_witness :
  is_admin sample_env (id (from_user hello)) = true
  /\ reported (Database.get_all_users (db twelve_users)) = [10]
  /\ Py.len (reported (Database.get_all_users (db twelve_users))) = 1
  /\ succeeded
       (firstn 10
          (map (outcome sample_env)
             (enumerate 1 (Database.get_all_users (db twelve_users))))) = 9.
Proof.
  assert (text hello <> Some (Py.lit "/cancel")) as Htext
      by (vm_compute; discriminate).
  destruct (broadcast_progress_reports sample_env hello twelve_users
              eq_refl Htext) as (_ & Hcount & Hsum).
  assert (Py.len (Database.get_all_users (db twelve_users)) / 10 = 1)
    as Htotal by (vm_compute; reflexivity).
  rewrite Htotal in Hcount.
  assert (reported (Database.get_all_users (db twelve_users)) = [10])
    as Hreported by (vm_compute; reflexivity).
  split; [reflexivity|]. split; [exact Hreported|]. split; [exact Hcount|].
  destruct (Hsum 10) as (_ & _ & Hten).
  { rewrite Hreported. now left. }
  change (Z.to_nat 10) with 10%nat in Hten.
  assert (failed
            (firstn 10
               (map (outcome sample_env)
                  (enumerate 1 (Database.get_all_users (db twelve_users)))))
          = 1) as Hfailed by (vm_compute; reflexivity).
  rewrite Hfailed in Hten. lia.
Defined.

(** ** The totals of the user's statistics *)

Lemma get_streak_nonneg (today : Database.date) (hid : Z)
    (d : Database.database) :
  0 <= Database.get_streak today hid d.
Proof.
  rewrite get_streak_loop.
  destruct (streak_loop_bounds (Database.select_records hid d) today 0)
    as [Hlo _]. exact Hlo.
Qed.

Lemma sum_of_streaks_cons (e : env) (d : Database.database)
    (habit : Database.habit_row) (habits : list Database.habit_row) :
  sum_of_streaks e d (habit :: habits)
  = Database.get_streak (today e) (Database.habit_id habit) d
    + sum_of_streaks e d habits.
Proof. reflexivity. Qed.

Lemma streak_totals_from (e : env) (d : Database.database)
    (habits : list Database.habit_row) :
  forall active_habits total_streak : Z,
    fold_left
      (fun '(active_habits, total_streak) habit =>
         let streak :=
           Database.get_streak (today e) (Database.habit_id habit) d in
         if streak >? 0 then (active_habits + 1, total_streak + streak)
         else (active_habits, total_streak))
      habits (active_habits, total_streak)
    = (active_habits + Py.len (filter (running e d) habits),
       total_streak + sum_of_streaks e d habits).
Proof.
  unfold Py.len.
  induction habits as [|habit habits IH]; intros a t;
    rewrite ?sum_of_streaks_cons; cbn [fold_left filter List.length].
  - change (sum_of_streaks e d []) with 0. f_equal; lia.
  - cbv zeta. change (Database.get_streak (today e)
                        (Database.habit_id habit) d >? 0)
      with (running e d habit).
    pose proof (get_streak_nonneg (today e) (Database.habit_id habit) d)
      as Hnonneg.
    destruct (running e d habit) eqn:E; unfold running in E; rewrite IH;
      cbn [List.length]; rewrite ?Nat2Z.inj_succ.
    + f_equal; lia.
    + rewrite Z.gtb_ltb in E. apply Z.ltb_ge in E. f_equal; lia.
Qed.

(** X27.  The totals of the user's statistics.  "Active today" is the
    number of the user's habits whose streak is running, and the "total
    series" is the sum of the streaks of all the habits (a streak is never
    negative, so leaving out the habits without a streak changes nothing).
    Hence the active habits are at most all the habits and at most the
    total series, and the total series is 0 exactly when no habit is
    active. *)
Theorem streak_totals_counts :
  forall (e : env) (habits : list Database.habit_row)
         (d : Database.database),
    let active_habits := fst (streak_totals e habits d) in
    let total_streak := snd (streak_totals e habits d) in
    active_habits = Py.len (filter (running e d) habits)
    /\ total_streak = sum_of_streaks e d habits
    /\ 0 <= active_habits <= Py.len habits
    /\ active_habits <= total_streak
    /\ (total_streak = 0 <-> active_habits = 0).
Proof.
  intros e habits d. cbv zeta. unfold streak_totals.
  rewrite streak_totals_from. cbn [fst snd]. rewrite !Z.add_0_l.
  split; [reflexivity|]. split; [reflexivity|].
  assert (0 <= Py.len (filter (running e d) habits) <= Py.len habits
          /\ Py.len (filter (running e d) habits) <= sum_of_streaks e d habits
          /\ (sum_of_streaks e d habits = 0
              <-> Py.len (filter (running e d) habits) = 0)) as H.
  { unfold Py.len.
    induction habits as [|habit habits IH];
      rewrite ?sum_of_streaks_cons; cbn [filter List.length].
    - change (sum_of_streaks e d []) with 0. lia.
    - pose proof (get_streak_nonneg (today e) (Database.habit_id habit) d)
        as Hnonneg.
      destruct (running e d habit) eqn:E; unfold running in E;
        cbn [List.length]; rewrite ?Nat2Z.inj_succ.
      + apply Z.gtb_lt in E. lia.
      + rewrite Z.gtb_ltb in E. apply Z.ltb_ge in E. lia. }
  destruct H as (H1 & H2 & H3). split; [exact H1|]. split; [exact H2|].
  exact H3.
Qed.

(** ** Registration *)

Lemma add_user_registers (admin : Z) (today : Database.date) (uid : Z)
    (uname : option Py.str) (fname : Py.str) (lname : option Py.str)
    (d : Database.database) :
  In uid
    (map Database.user_id
       (Database.users
          (Database.add_user admin today uid uname fname lname d))).
Proof.
  unfold Database.add_user. cbn [Database.users]. rewrite map_map.
  match goal with
  | |- In _ (map ?f ?rows) =>
      rewrite (map_ext f Database.user_id)
        by (intros u; now destruct (Database.user_id u =? uid))
  end.
  destruct (existsb (fun u => Database.user_id u =? uid) (Database.users d))
    eqn:E.
  - apply existsb_exists in E as (u & Hu & Hid). apply Z.eqb_eq in Hid.
    subst uid. now apply in_map.
  - change uid
      with (Database.user_id
              (Database.mk_user uid uname fname lname today
                 (if uid =? admin then 1 else 0))) at 1.
    apply in_map, In_insert_user. now left.
Qed.

Lemma add_user_idempotent (admin : Z) (today : Database.date) (uid : Z)
    (uname : option Py.str) (fname : Py.str) (lname : option Py.str)
    (d : Database.database) :
  let d' := Database.add_user admin today uid uname fname lname d in
  Database.add_user admin today uid uname fname lname d' = d'.
Proof.
  cbv zeta.
  pose proof (add_user_registers admin today uid uname fname lname d) as Hin.
  set (d' := Database.add_user admin today uid uname fname lname d) in *.
  unfold Database.add_user at 1.
  assert (existsb (fun u => Database.user_id u =? uid) (Database.users d')
          = true) as ->.
  { apply existsb_exists. apply in_map_iff in Hin as (u & Hid & Hu).
    exists u. split; [exact Hu|]. now apply Z.eqb_eq. }
  assert (map (fun u => if Database.user_id u =? uid
                        then Database.mk_user (Database.user_id u) uname
                               fname lname (Database.registered_date u)
                               (if uid =? admin then 1 else 0)
                        else u) (Database.users d')
          = Database.users d') as ->.
  { unfold d', Database.add_user. cbn [Database.users].
    rewrite map_map. apply map_ext. intros u.
    destruct (Database.user_id u =? uid) eqn:E;
      cbn [Database.user_id Database.registered_date]; now rewrite E. }
  reflexivity.
Qed.

(** X28.  [/start] registers the sender: afterwards the sender is among
    the users that [get_all_users] returns, so a later broadcast reaches
    them; a dialog that was open stays open; and a second [/start] with
    the same profile changes nothing in the database. *)
Theorem start_registers_once :
  forall (e : env) (m : message) (t : Py.str) (b : bot),
    text m = Some t -> is_command "start" t ->
    let b' := feed_update e (on_message m) b in
    In (id (from_user m))
      (map Database.user_id (Database.get_all_users (db b')))
    /\ Database.habits (db b') = Database.habits (db b)
    /\ Database.habit_tracking (db b') = Database.habit_tracking (db b)
    /\ sessions b' = sessions b
    /\ db (feed_update e (on_message m) b') = db b'.
Proof.
  intros e m t b Ht Hstart.
  assert (forall b0 : bot,
            feed_update e (on_message m) b0
            = snd (command_start_handler e m b0)) as Hfeed.
  { intros b0. cbn [feed_update].
    rewrite (command_text_command m t "start" Ht Hstart).
    rewrite (route_message_command e _ t "start" H_command_start);
      [reflexivity | unfold commands; simpl; auto | exact Hstart]. }
  cbv zeta. rewrite !Hfeed.
  unfold command_start_handler, bind, update, send.
  cbn [fst snd db sessions sent].
  split; [|split; [|split; [|split]]]; try reflexivity.
  - apply in_map_iff.
    pose proof (add_user_registers (ADMIN_ID e) (today e) (id (from_user m))
                  (tg_username (from_user m)) (tg_first_name (from_user m))
                  (tg_last_name (from_user m)) (db b)) as Hin.
    apply in_map_iff in Hin as (u & Hid & Hu). exists u.
    split; [exact Hid|]. unfold Database.get_all_users.
    now apply In_order_by_desc.
  - apply add_user_idempotent.
Qed.

Lemma start_registers_once_witness :
  In 7
    (map Database.user_id
       (Database.get_all_users
          (db (feed_update sample_env (says ann "/start") naming_habit))))
  /\ state (get_session 7
              (feed_update sample_env (says ann "/start") naming_habit))
     = Some waiting_for_habit_name.
Proof.
  destruct (start_registers_once sample_env
              (mk_message ann (Some (Py.lit "/start")) None) (Py.lit "/start")
              naming_habit eq_refl eq_refl)
    as (Hin & _ & _ & Hsessions & _).
  split; [exact Hin|].
  unfold get_session, says. rewrite Hsessions. reflexivity.
Defined.
